(** * Authentication and authorization engine of the pharmacy application

    A shallow embedding of [src/controllers/auth.py] together with the
    parts of [src/utils/validation.py] and [src/utils/validators.py] that
    the controller calls, followed by the properties of the engine.

    Conventions of the embedding.
    - A Python [str] is a [string]; the embedding covers ASCII text, so
      that [len], [strip] and [lower] act on characters one by one.
    - A [datetime] is an integer number of microseconds; a [timedelta]
      is the corresponding difference.  Every [datetime.now()] evaluated
      during one call of a controller method is the clock reading [now]
      handed to that call.
    - Python objects are shared: users and sessions live in an object
      store and are referred to by location, so that [current_user] and
      the entry of [_users] denote the same mutable object.  A location
      held by the controller always denotes an allocated object; where
      a definition has to say what happens otherwise, it leaves the
      state as it is.
    - A [dict] is an association list in insertion order with unique
      keys, as iteration order is observable in the lookups.
    - Random values ([secrets.token_hex], [secrets.token_urlsafe]) are
      inputs of the operation that draws them.
    - Qt signals are appended to a log kept in the controller state.
    - PBKDF2 and PyJWT are external libraries: they are parameters. *)

From Stdlib Require Import ZArith List String Ascii Bool Lia NArith.
Import ListNotations.
Open Scope string_scope.
Open Scope list_scope.
Open Scope Z_scope.

(** ** Text *)

Module Text.

Definition code (c : ascii) : N := N_of_ascii c.

Definition between (lo hi : N) (c : ascii) : bool :=
  (N.leb lo (code c) && N.leb (code c) hi)%bool.

Definition is_upper : ascii -> bool := between 65 90.
Definition is_lower : ascii -> bool := between 97 122.
Definition is_digit : ascii -> bool := between 48 57.
Definition is_alpha (c : ascii) : bool := is_upper c || is_lower c.
Definition is_alnum (c : ascii) : bool := is_alpha c || is_digit c.

Definition one_of (s : string) (c : ascii) : bool :=
  existsb (Ascii.eqb c) (list_ascii_of_string s).

(** The characters [str.strip()] removes, within ASCII. *)
Definition is_space (c : ascii) : bool :=
  between 9 13 c || between 28 32 c.

(** [[\x00-\x08\x0B\x0C\x0E-\x1F\x7F]] *)
Definition is_control (c : ascii) : bool :=
  between 0 8 c || between 11 12 c || between 14 31 c || N.eqb (code c) 127.

Fixpoint lstrip (l : list ascii) : list ascii :=
  match l with
  | c :: r => if is_space c then lstrip r else l
  | [] => []
  end.

Definition strip (s : string) : string :=
  string_of_list_ascii
    (rev (lstrip (rev (lstrip (list_ascii_of_string s))))).

Definition remove (f : ascii -> bool) (s : string) : string :=
  string_of_list_ascii
    (filter (fun c => negb (f c)) (list_ascii_of_string s)).

Definition len (s : string) : Z := Z.of_nat (String.length s).

(** [s[:n]] for a non-negative [n]. *)
Definition take (n : Z) (s : string) : string :=
  string_of_list_ascii (firstn (Z.to_nat n) (list_ascii_of_string s)).

Definition lower_char (c : ascii) : ascii :=
  if is_upper c then ascii_of_N (code c + 32) else c.

Definition lower (s : string) : string :=
  string_of_list_ascii (map lower_char (list_ascii_of_string s)).

Definition search (f : ascii -> bool) (s : string) : bool :=
  existsb f (list_ascii_of_string s).

End Text.

(** ** Regular expressions, by derivatives

    Enough of [re] for the three patterns the validators match. *)

Module Re.

Inductive t : Type :=
| Void
| Eps
| Cls (f : ascii -> bool)
| Seq (r s : t)
| Alt (r s : t)
| Star (r : t).

Definition Plus (r : t) : t := Seq r (Star r).
Definition AtLeast2 (r : t) : t := Seq r (Seq r (Star r)).
Definition Chr (c : ascii) : t := Cls (Ascii.eqb c).

Fixpoint nullable (r : t) : bool :=
  match r with
  | Void => false
  | Eps => true
  | Cls _ => false
  | Seq r s => nullable r && nullable s
  | Alt r s => nullable r || nullable s
  | Star _ => true
  end.

Fixpoint deriv (c : ascii) (r : t) : t :=
  match r with
  | Void => Void
  | Eps => Void
  | Cls f => if f c then Eps else Void
  | Seq r s =>
      if nullable r then Alt (Seq (deriv c r) s) (deriv c s)
      else Seq (deriv c r) s
  | Alt r s => Alt (deriv c r) (deriv c s)
  | Star r => Seq (deriv c r) (Star r)
  end.

Fixpoint accepts (r : t) (l : list ascii) : bool :=
  match l with
  | [] => nullable r
  | c :: l' => accepts (deriv c r) l'
  end.

(** [re.match('^' r '$', s) is not None]: the pattern spans the whole
    string, where [$] also matches just before one final newline. *)
Definition fullmatch (r : t) (s : string) : bool :=
  let l := list_ascii_of_string s in
  accepts r l ||
  match rev l with
  | c :: l' => Ascii.eqb c "010"%char && accepts r (rev l')
  | [] => false
  end.

End Re.

(** ** Python dictionaries with string keys *)

Module Dict.
Section WithValue.
Context {V : Type}.

Definition t : Type := list (string * V).

Fixpoint get (k : string) (d : t) : option V :=
  match d with
  | [] => None
  | (k', v) :: r => if String.eqb k k' then Some v else get k r
  end.

Definition mem (k : string) (d : t) : bool :=
  match get k d with Some _ => true | None => false end.

(** [d[k] = v]: an existing key keeps its position. *)
Fixpoint set (k : string) (v : V) (d : t) : t :=
  match d with
  | [] => [(k, v)]
  | (k', v') :: r =>
      if String.eqb k k' then (k, v) :: r else (k', v') :: set k v r
  end.

(** [del d[k]] for a key that is present, [d.pop(k, None)] in general. *)
Fixpoint del (k : string) (d : t) : t :=
  match d with
  | [] => []
  | (k', v') :: r =>
      if String.eqb k k' then r else (k', v') :: del k r
  end.

Definition keys (d : t) : list string := map fst d.
Definition values (d : t) : list V := map snd d.
Definition items (d : t) : list (string * V) := d.
End WithValue.
Arguments t : clear implicits.
End Dict.

(** ** Formatted strings

    An f-string is kept as the list of its pieces. *)

Inductive piece : Type :=
| Lit (s : string)
| FmtStr (s : string)
| FmtInt (z : Z)
| FmtDateTime (d : option Z).

Definition fstring : Type := list piece.

(** [sep.join(parts)] *)
Fixpoint join (sep : string) (parts : list fstring) : fstring :=
  match parts with
  | [] => []
  | [p] => p
  | p :: rest => p ++ Lit sep :: join sep rest
  end.

(** ** Enumerations *)

Inductive UserRole : Type :=
| ADMIN | PHARMACIST | NUTRITIONIST | ASSISTANT | VIEWER.

Inductive Permission : Type :=
| CLIENT_CREATE | CLIENT_READ | CLIENT_UPDATE | CLIENT_DELETE
| DIET_CREATE | DIET_READ | DIET_UPDATE | DIET_DELETE
| REPORT_GENERATE | REPORT_VIEW | REPORT_DELETE
| USER_MANAGE | SETTINGS_MANAGE | BACKUP_RESTORE | AUDIT_VIEW.

Inductive SessionStatus : Type :=
| ACTIVE | EXPIRED | TERMINATED | LOCKED.

Definition UserRole_value (r : UserRole) : string :=
  match r with
  | ADMIN => "admin"
  | PHARMACIST => "pharmacist"
  | NUTRITIONIST => "nutritionist"
  | ASSISTANT => "assistant"
  | VIEWER => "viewer"
  end.

(** [UserRole(value)]: the member with that value, if any. *)
Definition UserRole_of_value (s : string) : option UserRole :=
  find (fun r => String.eqb (UserRole_value r) s)
       [ADMIN; PHARMACIST; NUTRITIONIST; ASSISTANT; VIEWER].

Definition Permission_value (p : Permission) : string :=
  match p with
  | CLIENT_CREATE => "client:create"
  | CLIENT_READ => "client:read"
  | CLIENT_UPDATE => "client:update"
  | CLIENT_DELETE => "client:delete"
  | DIET_CREATE => "diet:create"
  | DIET_READ => "diet:read"
  | DIET_UPDATE => "diet:update"
  | DIET_DELETE => "diet:delete"
  | REPORT_GENERATE => "report:generate"
  | REPORT_VIEW => "report:view"
  | REPORT_DELETE => "report:delete"
  | USER_MANAGE => "user:manage"
  | SETTINGS_MANAGE => "settings:manage"
  | BACKUP_RESTORE => "backup:restore"
  | AUDIT_VIEW => "audit:view"
  end.

Definition Permission_eqb (p q : Permission) : bool :=
  String.eqb (Permission_value p) (Permission_value q).

Definition SessionStatus_eqb (a b : SessionStatus) : bool :=
  match a, b with
  | ACTIVE, ACTIVE | EXPIRED, EXPIRED
  | TERMINATED, TERMINATED | LOCKED, LOCKED => true
  | _, _ => false
  end.

(** ** Time *)

Definition datetime : Type := Z.

Definition timedelta_hours (h : Z) : Z := h * 3600000000.
Definition timedelta_minutes (m : Z) : Z := m * 60000000.

(** ** Dynamically typed values handed to the validators *)

Inductive pyval : Type :=
| PyStr (s : string)
| PyBool (b : bool)
| PyNone.

(** Truth value of a Python object. *)
Definition truthy (v : pyval) : bool :=
  match v with
  | PyStr s => negb (String.eqb s "")
  | PyBool b => b
  | PyNone => false
  end.

(** ** [utils/validators.py] *)

Module validators.

(** [sanitize_input(text, max_length)] *)
Definition sanitize_input (text : pyval) (max_length : option Z) : string :=
  match text with
  | PyStr text =>
      let text := Text.strip text in
      let text := Text.remove Text.is_control text in
      match max_length with
      | Some m =>
          if negb (m =? 0) && (m <? Text.len text) then Text.take m text
          else text
      | None => text
      end
  | _ => ""
  end.

(** [^[a-zA-Z0-9._%+-]+@[a-zA-Z0-9.-]+\.[a-zA-Z]{2,}$] *)
Definition email_pattern : Re.t :=
  Re.Seq (Re.Plus (Re.Cls (fun c => Text.is_alnum c || Text.one_of "._%+-" c)))
 (Re.Seq (Re.Chr "@")
 (Re.Seq (Re.Plus (Re.Cls (fun c => Text.is_alnum c || Text.one_of ".-" c)))
 (Re.Seq (Re.Chr ".")
         (Re.AtLeast2 (Re.Cls Text.is_alpha))))).

Definition validate_email (email : string) : bool :=
  if String.eqb email "" then false
  else Re.fullmatch email_pattern (Text.strip email).

(** The special characters of the last requirement; the double quote
    is character 34. *)
Definition special_characters : string :=
  String.append "!@#$%^&*(),.?" (String "034"%char ":{}|<>").

Record password_result : Type := {
  is_valid : bool;
  score : Z;
  suggestions : list fstring
}.

(** [validate_password(password, min_length)]; the [requirements]
    entry of the result is not read by the engine. *)
Definition validate_password (password : pyval) (min_length : Z)
  : password_result :=
  match password with
  | PyStr pw =>
      if String.eqb pw "" then
        {| is_valid := false; score := 0;
           suggestions := [[Lit "كلمة المرور مطلوبة"]] |}
      else
        let checks : list (bool * fstring) :=
          [ (min_length <=? Text.len pw,
             [Lit "يجب أن تحتوي كلمة المرور على "; FmtInt min_length;
              Lit " أحرف على الأقل"]);
            (Text.search Text.is_upper pw,
             [Lit "يجب أن تحتوي على حرف كبير واحد على الأقل"]);
            (Text.search Text.is_lower pw,
             [Lit "يجب أن تحتوي على حرف صغير واحد على الأقل"]);
            (Text.search Text.is_digit pw,
             [Lit "يجب أن تحتوي على رقم واحد على الأقل"]);
            (Text.search (Text.one_of special_characters) pw,
             [Lit "يجب أن تحتوي على رمز خاص واحد على الأقل"]) ] in
        let score := Z.of_nat (List.length (filter fst checks)) in
        {| is_valid := 3 <=? score;
           score := score;
           suggestions := map snd (filter (fun c => negb (fst c)) checks) |}
  | _ =>
      {| is_valid := false; score := 0;
         suggestions := [[Lit "كلمة المرور مطلوبة"]] |}
  end.

End validators.

(** ** [utils/validation.py] *)

Module validation.

Inductive ValidationSeverity : Type := ERROR | WARNING | INFO.

Record ValidationMessage : Type := {
  message : fstring;
  severity : ValidationSeverity;
  field : string;
  code : string
}.

(** The fields of user data that pass validation. *)
Record validated : Type := {
  v_username : option string;
  v_email : option string;
  v_password : option string;
  v_role : option string;
  v_is_active : option bool
}.

Definition no_data : validated :=
  {| v_username := None; v_email := None; v_password := None;
     v_role := None; v_is_active := None |}.

(** [ValidationResult] *)
Record ValidationResult : Type := {
  messages : list ValidationMessage;
  data : validated
}.

Definition is_error (m : ValidationMessage) : bool :=
  match severity m with ERROR => true | _ => false end.

Definition is_valid (r : ValidationResult) : bool :=
  negb (existsb is_error (messages r)).

Definition errors (r : ValidationResult) : list fstring :=
  map message (filter is_error (messages r)).

Definition add_error (msg : fstring) (fld cd : string)
           (ms : list ValidationMessage) : list ValidationMessage :=
  ms ++ [{| message := msg; severity := ERROR; field := fld; code := cd |}].

(** [BaseValidator._validate_required]: the outcome and the messages
    after the call. *)
Definition _validate_required (d : Dict.t pyval) (fld display_name : string)
           (ms : list ValidationMessage) : bool * list ValidationMessage :=
  match Dict.get fld d with
  | None | Some PyNone | Some (PyStr "") =>
      (false,
       add_error [Lit "Field '"; FmtStr display_name; Lit "' is required"]
                 fld "REQUIRED" ms)
  | Some _ => (true, ms)
  end.

(** [BaseValidator._validate_length] *)
Definition _validate_length (value : string) (min_length max_length : Z)
           (fld display_name : string) (ms : list ValidationMessage)
  : bool * list ValidationMessage :=
  if negb (min_length =? 0) && (Text.len value <? min_length) then
    (false,
     add_error [Lit "Field '"; FmtStr display_name;
                Lit "' must be at least "; FmtInt min_length;
                Lit " characters"] fld "MIN_LENGTH" ms)
  else if negb (max_length =? 0) && (max_length <? Text.len value) then
    (false,
     add_error [Lit "Field '"; FmtStr display_name;
                Lit "' must not exceed "; FmtInt max_length;
                Lit " characters"] fld "MAX_LENGTH" ms)
  else (true, ms).

Definition _sanitize_string (value : pyval) (max_length : Z) : string :=
  validators.sanitize_input value (Some max_length).

(** [AuthValidator.validate_login_data]; [None] stands for the
    [TypeError] that [len] raises on a value that is not a string. *)
Definition validate_login_data (d : Dict.t pyval) : option ValidationResult :=
  let ms : list ValidationMessage := [] in
  let '(ok, ms) := _validate_required d "username" "Username" ms in
  let '(vu, ms) :=
    if ok then
      let username :=
        _sanitize_string (match Dict.get "username" d with
                          | Some v => v | None => PyNone end) 100 in
      let '(ok, ms) := _validate_length username 3 100 "username" "Username" ms in
      (if ok then Some username else None, ms)
    else (None, ms) in
  let '(ok, ms) := _validate_required d "password" "Password" ms in
  if ok then
    match Dict.get "password" d with
    | Some (PyStr password) =>
        if 0 <? Text.len password then
          Some {| messages := ms;
                  data := {| v_username := vu; v_email := None;
                             v_password := Some password; v_role := None;
                             v_is_active := None |} |}
        else
          Some {| messages := add_error [Lit "Password cannot be empty"]
                                        "password" "EMPTY_PASSWORD" ms;
                  data := {| v_username := vu; v_email := None;
                             v_password := None; v_role := None;
                             v_is_active := None |} |}
    | _ => None
    end
  else
    Some {| messages := ms;
            data := {| v_username := vu; v_email := None;
                       v_password := None; v_role := None;
                       v_is_active := None |} |}.

(** [^[a-zA-Z0-9_-]+$] *)
Definition username_pattern : Re.t :=
  Re.Plus (Re.Cls (fun c => Text.is_alnum c || Text.one_of "_-" c)).

Definition valid_roles : list string :=
  ["admin"; "pharmacist"; "nutritionist"; "assistant"; "viewer"].

Definition present (fld : string) (d : Dict.t pyval) : option pyval :=
  match Dict.get fld d with
  | Some v => if truthy v then Some v else None
  | None => None
  end.

(** [AuthValidator.validate_user_data] *)
Definition validate_user_data (d : Dict.t pyval) (is_update : bool)
  : ValidationResult :=
  let ms : list ValidationMessage := [] in
  let ms :=
    if negb is_update then
      fold_left (fun ms fld => snd (_validate_required d fld fld ms))
                ["username"; "email"; "password"; "role"] ms
    else ms in
  let '(vu, ms) :=
    match present "username" d with
    | Some v =>
        let username := _sanitize_string v 50 in
        let '(ok, ms) := _validate_length username 3 50 "username" "Username" ms in
        if ok then
          if Re.fullmatch username_pattern username then (Some username, ms)
          else (None,
                add_error [Lit "Username can only contain letters, numbers, hyphens, and underscores"]
                          "username" "INVALID_CHARS" ms)
        else (None, ms)
    | None => (None, ms)
    end in
  let '(ve, ms) :=
    match present "email" d with
    | Some v =>
        let email := _sanitize_string v 255 in
        if validators.validate_email email then (Some (Text.lower email), ms)
        else (None, add_error [Lit "Invalid email address format"]
                              "email" "INVALID_EMAIL" ms)
    | None => (None, ms)
    end in
  let '(vp, ms) :=
    match present "password" d with
    | Some v =>
        let password_result := validators.validate_password v 8 in
        if validators.is_valid password_result then
          (match v with PyStr password => Some password | _ => None end, ms)
        else
          (None,
           fold_left (fun ms suggestion =>
                        add_error suggestion "password" "WEAK_PASSWORD" ms)
                     (validators.suggestions password_result) ms)
    | None => (None, ms)
    end in
  let '(vr, ms) :=
    match present "role" d with
    | Some v =>
        match v with
        | PyStr r =>
            if existsb (String.eqb r) valid_roles then (Some r, ms)
            else (None,
                  add_error [Lit "Role must be one of: ";
                             FmtStr "admin, pharmacist, nutritionist, assistant, viewer"]
                            "role" "INVALID_ROLE" ms)
        | _ =>
            (None,
             add_error [Lit "Role must be one of: ";
                        FmtStr "admin, pharmacist, nutritionist, assistant, viewer"]
                       "role" "INVALID_ROLE" ms)
        end
    | None => (None, ms)
    end in
  let '(va, ms) :=
    match Dict.get "is_active" d with
    | Some (PyBool b) => (Some b, ms)
    | Some _ =>
        (None, add_error [Lit "Active status must be true or false"]
                         "is_active" "TYPE_ERROR" ms)
    | None => (None, ms)
    end in
  {| messages := ms;
     data := {| v_username := vu; v_email := ve; v_password := vp;
                v_role := vr; v_is_active := va |} |}.

(** [AuthValidator.validate_password]: validity and the error list. *)
Definition validate_password (password : string) : bool * list fstring :=
  let password_result := validators.validate_password (PyStr password) 8 in
  (validators.is_valid password_result,
   if validators.is_valid password_result then []
   else validators.suggestions password_result).

End validation.

(** ** [class User] *)

Module User.

Record t : Type := {
  id : string;
  username : string;
  email : string;
  role : UserRole;
  password_hash : string;
  salt : string;
  is_active : bool;
  created_at : datetime;
  last_login : option datetime;
  failed_login_attempts : Z;
  locked_until : option datetime
}.

Definition set_username (v : string) (u : t) : t :=
  {| id := id u; username := v; email := email u; role := role u;
     password_hash := password_hash u; salt := salt u;
     is_active := is_active u; created_at := created_at u;
     last_login := last_login u;
     failed_login_attempts := failed_login_attempts u;
     locked_until := locked_until u |}.

Definition set_email (v : string) (u : t) : t :=
  {| id := id u; username := username u; email := v; role := role u;
     password_hash := password_hash u; salt := salt u;
     is_active := is_active u; created_at := created_at u;
     last_login := last_login u;
     failed_login_attempts := failed_login_attempts u;
     locked_until := locked_until u |}.

Definition set_role (v : UserRole) (u : t) : t :=
  {| id := id u; username := username u; email := email u; role := v;
     password_hash := password_hash u; salt := salt u;
     is_active := is_active u; created_at := created_at u;
     last_login := last_login u;
     failed_login_attempts := failed_login_attempts u;
     locked_until := locked_until u |}.

Definition set_password (h s : string) (u : t) : t :=
  {| id := id u; username := username u; email := email u; role := role u;
     password_hash := h; salt := s;
     is_active := is_active u; created_at := created_at u;
     last_login := last_login u;
     failed_login_attempts := failed_login_attempts u;
     locked_until := locked_until u |}.

Definition set_is_active (v : bool) (u : t) : t :=
  {| id := id u; username := username u; email := email u; role := role u;
     password_hash := password_hash u; salt := salt u;
     is_active := v; created_at := created_at u;
     last_login := last_login u;
     failed_login_attempts := failed_login_attempts u;
     locked_until := locked_until u |}.

Definition set_last_login (v : option datetime) (u : t) : t :=
  {| id := id u; username := username u; email := email u; role := role u;
     password_hash := password_hash u; salt := salt u;
     is_active := is_active u; created_at := created_at u;
     last_login := v;
     failed_login_attempts := failed_login_attempts u;
     locked_until := locked_until u |}.

Definition set_failed_login_attempts (v : Z) (u : t) : t :=
  {| id := id u; username := username u; email := email u; role := role u;
     password_hash := password_hash u; salt := salt u;
     is_active := is_active u; created_at := created_at u;
     last_login := last_login u;
     failed_login_attempts := v;
     locked_until := locked_until u |}.

Definition set_locked_until (v : option datetime) (u : t) : t :=
  {| id := id u; username := username u; email := email u; role := role u;
     password_hash := password_hash u; salt := salt u;
     is_active := is_active u; created_at := created_at u;
     last_login := last_login u;
     failed_login_attempts := failed_login_attempts u;
     locked_until := v |}.

(** [User.is_locked], read at the clock value [now]. *)
Definition is_locked (u : t) (now : datetime) : bool :=
  match locked_until u with
  | Some until => now <? until
  | None => false
  end.

(** The table of [User.get_permissions]. *)
Definition role_permissions (r : UserRole) : list Permission :=
  match r with
  | ADMIN =>
      [CLIENT_CREATE; CLIENT_READ; CLIENT_UPDATE; CLIENT_DELETE;
       DIET_CREATE; DIET_READ; DIET_UPDATE; DIET_DELETE;
       REPORT_GENERATE; REPORT_VIEW; REPORT_DELETE;
       USER_MANAGE; SETTINGS_MANAGE; BACKUP_RESTORE; AUDIT_VIEW]
  | PHARMACIST =>
      [CLIENT_CREATE; CLIENT_READ; CLIENT_UPDATE;
       DIET_CREATE; DIET_READ; DIET_UPDATE;
       REPORT_GENERATE; REPORT_VIEW]
  | NUTRITIONIST =>
      [CLIENT_CREATE; CLIENT_READ; CLIENT_UPDATE;
       DIET_CREATE; DIET_READ; DIET_UPDATE;
       REPORT_GENERATE; REPORT_VIEW]
  | ASSISTANT =>
      [CLIENT_CREATE; CLIENT_READ; CLIENT_UPDATE;
       DIET_READ; REPORT_VIEW]
  | VIEWER =>
      [CLIENT_READ; DIET_READ; REPORT_VIEW]
  end.

Definition get_permissions (u : t) : list Permission :=
  role_permissions (role u).

(** [permission in self.get_permissions()] *)
Definition has_permission (u : t) (permission : Permission) : bool :=
  existsb (Permission_eqb permission) (get_permissions u).

(** What [to_dict()] returns without the sensitive fields. *)
Record dict : Type := {
  d_id : string;
  d_username : string;
  d_email : string;
  d_role : string;
  d_is_active : bool;
  d_created_at : datetime;
  d_last_login : option datetime;
  d_failed_login_attempts : Z;
  d_is_locked : bool
}.

Definition to_dict (u : t) (now : datetime) : dict :=
  {| d_id := id u; d_username := username u; d_email := email u;
     d_role := UserRole_value (role u); d_is_active := is_active u;
     d_created_at := created_at u; d_last_login := last_login u;
     d_failed_login_attempts := failed_login_attempts u;
     d_is_locked := is_locked u now |}.

End User.

(** ** [class Session] *)

Module Session.

Record t : Type := {
  session_id : string;
  user_id : string;
  username : string;
  role : UserRole;
  created_at : datetime;
  expires_at : datetime;
  last_activity : datetime;
  ip_address : option string;
  user_agent : option string;
  status : SessionStatus
}.

(** [Session(session_id, user_id, username, role, expires_at=...)] *)
Definition new (session_id user_id username : string) (role : UserRole)
           (expires_at now : datetime) : t :=
  {| session_id := session_id; user_id := user_id; username := username;
     role := role; created_at := now; expires_at := expires_at;
     last_activity := now; ip_address := None; user_agent := None;
     status := ACTIVE |}.

Definition set_status (v : SessionStatus) (s : t) : t :=
  {| session_id := session_id s; user_id := user_id s;
     username := username s; role := role s; created_at := created_at s;
     expires_at := expires_at s; last_activity := last_activity s;
     ip_address := ip_address s; user_agent := user_agent s;
     status := v |}.

Definition is_valid (s : t) (now : datetime) : bool :=
  SessionStatus_eqb (status s) ACTIVE && (now <? expires_at s).

Definition extend_session (hours : Z) (now : datetime) (s : t) : t :=
  {| session_id := session_id s; user_id := user_id s;
     username := username s; role := role s; created_at := created_at s;
     expires_at := now + timedelta_hours hours; last_activity := now;
     ip_address := ip_address s; user_agent := user_agent s;
     status := status s |}.

Record dict : Type := {
  d_session_id : string;
  d_user_id : string;
  d_username : string;
  d_role : string;
  d_created_at : datetime;
  d_expires_at : datetime;
  d_last_activity : datetime;
  d_ip_address : option string;
  d_user_agent : option string;
  d_status : SessionStatus;
  d_is_valid : bool
}.

Definition to_dict (s : t) (now : datetime) : dict :=
  {| d_session_id := session_id s; d_user_id := user_id s;
     d_username := username s; d_role := UserRole_value (role s);
     d_created_at := created_at s; d_expires_at := expires_at s;
     d_last_activity := last_activity s; d_ip_address := ip_address s;
     d_user_agent := user_agent s; d_status := status s;
     d_is_valid := is_valid s now |}.

End Session.

(** ** The object store

    Objects are allocated at the end of a list and never freed; a
    location is an index into it. *)

Definition loc : Type := nat.

Module Store.
Section WithObject.
Context {A : Type}.

Definition alloc (a : A) (h : list A) : loc * list A :=
  (List.length h, h ++ [a]).

Definition get (l : loc) (h : list A) : option A := nth_error h l.

Fixpoint update (l : loc) (f : A -> A) (h : list A) : list A :=
  match h, l with
  | [], _ => []
  | a :: r, O => f a :: r
  | a :: r, S l' => a :: update l' f r
  end.
End WithObject.
End Store.

(** ** Signals and log records *)

Inductive LogLevel : Type := LDebug | LInfo | LWarning | LError.

Inductive Event : Type :=
| logged (level : LogLevel) (text : fstring)
| data_changed (operation : string) (payload : list (string * string))
| error_occurred (title : string) (message : fstring)
| success_occurred (title : string) (message : fstring)
| user_logged_in (user : User.dict)
| user_logged_out (username : string)
| user_created (user : User.dict)
| user_updated (user : User.dict)
| user_deleted (user_id : string)
| session_expired (session_id : string)
| login_failed (username reason : string)
| account_locked (username : string)
| password_changed (username : string).

(** ** PyJWT, as far as the controller sees it *)

Record Claims : Type := {
  c_user_id : string;
  c_username : string;
  c_role : string;
  c_exp : datetime;
  c_iat : datetime
}.

(** What [jwt.decode] does: it returns the payload or raises.
    [ExpiredSignatureError] is a subclass of [InvalidTokenError]. *)
Inductive DecodeOutcome : Type :=
| Decoded (payload : Claims)
| ExpiredSignatureError
| InvalidTokenError
| OtherException (text : string).

(** The [security] section of the settings, read with [getattr]. *)
Record SecuritySettings : Type := {
  s_jwt_secret : option string;
  s_max_login_attempts : option Z;
  s_lockout_duration_minutes : option Z;
  s_session_timeout_hours : option Z;
  s_password_min_length : option Z
}.

(** ** [class AuthController] *)

Module AuthController.

Record t : Type := {
  current_user : option loc;
  current_session : option loc;
  _users : Dict.t loc;
  _sessions : Dict.t loc;
  _session_timer : bool;
  _initialized : bool;
  jwt_secret : option string;
  max_login_attempts : Z;
  lockout_duration_minutes : Z;
  session_timeout_hours : Z;
  password_min_length : Z;
  user_objects : list User.t;
  session_objects : list Session.t;
  trace : list Event
}.

(** [AuthController.__init__] *)
Definition init : t :=
  {| current_user := None; current_session := None;
     _users := []; _sessions := [];
     _session_timer := false; _initialized := false;
     jwt_secret := None;
     max_login_attempts := 5; lockout_duration_minutes := 30;
     session_timeout_hours := 8; password_min_length := 8;
     user_objects := []; session_objects := []; trace := [] |}.

Definition set_current (cu cs : option loc) (st : t) : t :=
  {| current_user := cu; current_session := cs;
     _users := _users st; _sessions := _sessions st;
     _session_timer := _session_timer st; _initialized := _initialized st;
     jwt_secret := jwt_secret st;
     max_login_attempts := max_login_attempts st;
     lockout_duration_minutes := lockout_duration_minutes st;
     session_timeout_hours := session_timeout_hours st;
     password_min_length := password_min_length st;
     user_objects := user_objects st;
     session_objects := session_objects st; trace := trace st |}.

Definition set_users (d : Dict.t loc) (objs : list User.t) (st : t) : t :=
  {| current_user := current_user st; current_session := current_session st;
     _users := d; _sessions := _sessions st;
     _session_timer := _session_timer st; _initialized := _initialized st;
     jwt_secret := jwt_secret st;
     max_login_attempts := max_login_attempts st;
     lockout_duration_minutes := lockout_duration_minutes st;
     session_timeout_hours := session_timeout_hours st;
     password_min_length := password_min_length st;
     user_objects := objs;
     session_objects := session_objects st; trace := trace st |}.

Definition set_sessions (d : Dict.t loc) (objs : list Session.t) (st : t) : t :=
  {| current_user := current_user st; current_session := current_session st;
     _users := _users st; _sessions := d;
     _session_timer := _session_timer st; _initialized := _initialized st;
     jwt_secret := jwt_secret st;
     max_login_attempts := max_login_attempts st;
     lockout_duration_minutes := lockout_duration_minutes st;
     session_timeout_hours := session_timeout_hours st;
     password_min_length := password_min_length st;
     user_objects := user_objects st;
     session_objects := objs; trace := trace st |}.

Definition set_config (timer initialized : bool) (secret : option string)
           (attempts lockout timeout min_length : Z) (st : t) : t :=
  {| current_user := current_user st; current_session := current_session st;
     _users := _users st; _sessions := _sessions st;
     _session_timer := timer; _initialized := initialized;
     jwt_secret := secret;
     max_login_attempts := attempts;
     lockout_duration_minutes := lockout;
     session_timeout_hours := timeout;
     password_min_length := min_length;
     user_objects := user_objects st;
     session_objects := session_objects st; trace := trace st |}.

Definition emit (e : Event) (st : t) : t :=
  {| current_user := current_user st; current_session := current_session st;
     _users := _users st; _sessions := _sessions st;
     _session_timer := _session_timer st; _initialized := _initialized st;
     jwt_secret := jwt_secret st;
     max_login_attempts := max_login_attempts st;
     lockout_duration_minutes := lockout_duration_minutes st;
     session_timeout_hours := session_timeout_hours st;
     password_min_length := password_min_length st;
     user_objects := user_objects st;
     session_objects := session_objects st; trace := trace st ++ [e] |}.

(** [BaseController.emit_error] *)
Definition emit_error (title : string) (message : fstring) (st : t) : t :=
  emit (error_occurred title message)
       (emit (logged LError (FmtStr title :: Lit ": " :: message)) st).

(** [BaseController.emit_success] *)
Definition emit_success (title : string) (message : fstring) (st : t) : t :=
  emit (success_occurred title message)
       (emit (logged LInfo (FmtStr title :: Lit ": " :: message)) st).

(** [BaseController.emit_data_changed] *)
Definition emit_data_changed (operation : string)
           (payload : list (string * string)) (st : t) : t :=
  emit (data_changed operation payload)
       (emit (logged LDebug [Lit "Data changed: "; FmtStr operation]) st).

Definition get_user (l : loc) (st : t) : option User.t :=
  Store.get l (user_objects st).

Definition get_session (l : loc) (st : t) : option Session.t :=
  Store.get l (session_objects st).

(** An assignment to an attribute of the user object at [l]. *)
Definition update_user_object (l : loc) (f : User.t -> User.t) (st : t) : t :=
  set_users (_users st) (Store.update l f (user_objects st)) st.

Definition update_session_object (l : loc) (f : Session.t -> Session.t)
           (st : t) : t :=
  set_sessions (_sessions st) (Store.update l f (session_objects st)) st.

(** The loop of [_find_user_by_username_or_email] over [_users.values()]. *)
Fixpoint find_user (identifier : string) (objs : list User.t)
         (ls : list loc) : option (loc * User.t) :=
  match ls with
  | [] => None
  | l :: rest =>
      match Store.get l objs with
      | Some user =>
          if String.eqb (User.username user) identifier
             || String.eqb (User.email user) identifier
          then Some (l, user)
          else find_user identifier objs rest
      | None => find_user identifier objs rest
      end
  end.

Definition _find_user_by_username_or_email (identifier : string) (st : t)
  : option (loc * User.t) :=
  find_user identifier (user_objects st) (Dict.values (_users st)).

(** The current user and session objects, when both are set. *)
Definition current (st : t) : option (loc * User.t * (loc * Session.t)) :=
  match current_user st, current_session st with
  | Some lu, Some ls =>
      match get_user lu st, get_session ls st with
      | Some u, Some s => Some (lu, u, (ls, s))
      | _, _ => None
      end
  | _, _ => None
  end.

(** [AuthController.has_permission] *)
Definition has_permission (permission : Permission) (now : datetime)
           (st : t) : bool :=
  match current st with
  | None => false
  | Some (_, user, (_, session)) =>
      if negb (Session.is_valid session now) then false
      else User.has_permission user permission
  end.

(** [AuthController.require_permission] *)
Definition require_permission (permission : Permission) (now : datetime)
           (st : t) : bool * t :=
  if negb (has_permission permission now st) then
    (false,
     emit_error "Permission Denied"
                [Lit "You don't have permission: ";
                 FmtStr (Permission_value permission)] st)
  else (true, st).

(** [AuthController.is_authenticated] *)
Definition is_authenticated (now : datetime) (st : t) : bool :=
  match current st with
  | Some (_, _, (_, session)) => Session.is_valid session now
  | None => false
  end.

(** [AuthController.get_current_user] *)
Definition get_current_user (now : datetime) (st : t) : option User.dict :=
  match current_user st with
  | Some l =>
      match get_user l st with
      | Some u => Some (User.to_dict u now)
      | None => None
      end
  | None => None
  end.

(** [AuthController.get_current_session] *)
Definition get_current_session (now : datetime) (st : t)
  : option Session.dict :=
  match current_session st with
  | Some l =>
      match get_session l st with
      | Some s => Some (Session.to_dict s now)
      | None => None
      end
  | None => None
  end.

(** [AuthController._create_session]; [session_id] is the value
    [_generate_session_id] draws. *)
Definition _create_session (user : User.t) (duration_hours : Z)
           (session_id : string) (now : datetime) (st : t) : loc * t :=
  let expires_at := now + timedelta_hours duration_hours in
  let session :=
    Session.new session_id (User.id user) (User.username user)
                (User.role user) expires_at now in
  let '(l, objs) := Store.alloc session (session_objects st) in
  (l, set_sessions (Dict.set session_id l (_sessions st)) objs st).

(** [AuthController._handle_session_expiry] *)
Definition _handle_session_expiry (st : t) : t :=
  match current_user st with
  | Some lu =>
      match get_user lu st with
      | Some user =>
          let username := User.username user in
          let st := set_current None None st in
          let st :=
            emit_error "Session Expired"
              [Lit "Your session has expired. Please log in again."] st in
          emit (user_logged_out username) st
      | None => st
      end
  | None => st
  end.

(** The first loop of [_check_session_expiry]. *)
Definition expired_sessions (now : datetime) (st : t) : list string :=
  map fst
      (filter (fun item =>
                 match get_session (snd item) st with
                 | Some session => negb (Session.is_valid session now)
                 | None => false
                 end)
              (Dict.items (_sessions st))).

(** One round of the second loop of [_check_session_expiry]. *)
Definition expire_one (st : t) (session_id : string) : t :=
  match Dict.get session_id (_sessions st) with
  | Some l =>
      let st := set_sessions (Dict.del session_id (_sessions st))
                             (session_objects st) st in
      let st := update_session_object l (Session.set_status EXPIRED) st in
      let st := emit (session_expired session_id) st in
      match current_session st with
      | Some lc =>
          match get_session lc st with
          | Some cs =>
              if String.eqb (Session.session_id cs) session_id
              then _handle_session_expiry st
              else st
          | None => st
          end
      | None => st
      end
  | None => st
  end.

(** [AuthController._check_session_expiry], the slot of the timer. *)
Definition _check_session_expiry (now : datetime) (st : t) : t :=
  fold_left expire_one (expired_sessions now st) st.

(** [AuthController.logout] *)
Definition logout (st : t) : bool * t :=
  match current st with
  | None =>
      (false, emit_error "Logout Error" [Lit "No active session to logout"] st)
  | Some (_, user, (_, session)) =>
      let username := User.username user in
      let session_id := Session.session_id session in
      let st :=
        match Dict.get session_id (_sessions st) with
        | Some l =>
            let st :=
              update_session_object l (Session.set_status TERMINATED) st in
            set_sessions (Dict.del session_id (_sessions st))
                         (session_objects st) st
        | None => st
        end in
      let st := set_current None None st in
      let st :=
        emit_success "Logout Successful"
                     [Lit "You have been logged out successfully"] st in
      let st := emit (user_logged_out username) st in
      let st := emit_data_changed "user_logged_out"
                                  [("username", username)] st in
      let st :=
        emit (logged LInfo [Lit "User "; FmtStr username;
                            Lit " logged out successfully"]) st in
      (true, st)
  end.

(** [AuthController.extend_current_session] *)
Definition extend_current_session (hours : Z) (now : datetime) (st : t)
  : bool * t :=
  match current_session st with
  | None => (false, st)
  | Some l =>
      (true, update_session_object l (Session.extend_session hours now) st)
  end.

(** [AuthController.get_active_sessions] *)
Definition get_active_sessions (now : datetime) (st : t)
  : list Session.dict :=
  if negb (has_permission AUDIT_VIEW now st) then []
  else
    flat_map (fun l =>
                match get_session l st with
                | Some session =>
                    if Session.is_valid session now
                    then [Session.to_dict session now] else []
                | None => []
                end)
             (Dict.values (_sessions st)).

(** [AuthController.terminate_session] *)
Definition terminate_session (session_id : string) (now : datetime)
           (st : t) : bool * t :=
  if negb (has_permission USER_MANAGE now st) then
    (false,
     emit_error "Permission Denied"
                [Lit "You don't have permission to terminate sessions"] st)
  else
    match Dict.get session_id (_sessions st) with
    | Some l =>
        let st :=
          update_session_object l (Session.set_status TERMINATED) st in
        let st := set_sessions (Dict.del session_id (_sessions st))
                               (session_objects st) st in
        (true,
         emit_success "Session Terminated"
                      [Lit "Session "; FmtStr session_id; Lit " terminated"] st)
    | None =>
        (false,
         emit_error "Session Not Found"
                    [Lit "Session "; FmtStr session_id; Lit " not found"] st)
    end.

(** [AuthController.cleanup] *)
Definition cleanup (st : t) : t :=
  let st := set_config false (_initialized st) (jwt_secret st)
                       (max_login_attempts st) (lockout_duration_minutes st)
                       (session_timeout_hours st) (password_min_length st)
                       st in
  let st := set_current None None st in
  let st := set_sessions [] (session_objects st) st in
  let st := emit (logged LInfo [FmtStr "AuthController"; Lit " cleaned up"]) st in
  emit (logged LInfo [Lit "AuthController cleaned up successfully"]) st.

(** The name written in the log lines of the user management methods:
    [self.current_user.username if self.current_user else 'system']. *)
Definition actor (st : t) : string :=
  match current_user st with
  | Some l =>
      match get_user l st with
      | Some u => User.username u
      | None => "system"
      end
  | None => "system"
  end.

Section WithLibraries.

(** [hashlib.pbkdf2_hmac('sha256', password, salt, 100000).hex()] *)
Variable pbkdf2_hmac_sha256 : string -> string -> string.

(** [jwt.encode(payload, key, algorithm='HS256')]; [None] when it raises. *)
Variable jwt_encode : Claims -> option string -> option string.

(** [jwt.decode(token, key, algorithms=['HS256'])] *)
Variable jwt_decode : string -> option string -> DecodeOutcome.

Definition _hash_password (password salt : string) : string :=
  pbkdf2_hmac_sha256 password salt.

Definition _verify_password (password password_hash salt : string) : bool :=
  String.eqb (_hash_password password salt) password_hash.

(** [AuthController._create_default_admin]; [salt] is the value
    [_generate_salt] draws. *)
Definition _create_default_admin (salt : string) (now : datetime) : User.t :=
  {| User.id := "admin_001"; User.username := "admin";
     User.email := "admin@pharmacy.local"; User.role := ADMIN;
     User.password_hash := _hash_password "admin123" salt;
     User.salt := salt; User.is_active := true;
     User.created_at := now; User.last_login := None;
     User.failed_login_attempts := 0; User.locked_until := None |}.

(** [AuthController._load_users] *)
Definition _load_users (salt : string) (now : datetime) (st : t) : t :=
  match _users st with
  | [] =>
      let admin_user := _create_default_admin salt now in
      let '(l, objs) := Store.alloc admin_user (user_objects st) in
      let st := set_users (Dict.set (User.id admin_user) l (_users st))
                          objs st in
      emit (logged LInfo [Lit "Created default admin user"]) st
  | _ :: _ => st
  end.

Definition or_default (o : option Z) (d : Z) : Z :=
  match o with Some z => z | None => d end.

(** [AuthController._do_initialize]; [security] is the [security]
    attribute of the settings ([None] when it is missing, which
    raises), [generated_secret] what [_generate_jwt_secret] draws. *)
Definition _do_initialize (security : option SecuritySettings)
           (generated_secret salt : string) (now : datetime) (st : t)
  : bool * t :=
  match security with
  | None =>
      (false,
       emit (logged LError [Lit "Failed to initialize AuthController: ";
                            FmtStr "AttributeError"]) st)
  | Some sec =>
      let secret :=
        match s_jwt_secret sec with
        | Some k => k
        | None => generated_secret
        end in
      let st :=
        set_config (_session_timer st) (_initialized st) (Some secret)
                   (or_default (s_max_login_attempts sec) 5)
                   (or_default (s_lockout_duration_minutes sec) 30)
                   (or_default (s_session_timeout_hours sec) 8)
                   (or_default (s_password_min_length sec) 8) st in
      let st := _load_users salt now st in
      let st :=
        set_config true (_initialized st) (jwt_secret st)
                   (max_login_attempts st) (lockout_duration_minutes st)
                   (session_timeout_hours st) (password_min_length st) st in
      (true,
       emit (logged LInfo [Lit "AuthController initialized successfully"]) st)
  end.

(** [BaseController.initialize] *)
Definition initialize (security : option SecuritySettings)
           (generated_secret salt : string) (now : datetime) (st : t)
  : bool * t :=
  if _initialized st then (true, st)
  else
    let '(success, st) :=
      _do_initialize security generated_secret salt now st in
    if success then
      let st :=
        set_config (_session_timer st) true (jwt_secret st)
                   (max_login_attempts st) (lockout_duration_minutes st)
                   (session_timeout_hours st) (password_min_length st) st in
      (true,
       emit (logged LInfo [FmtStr "AuthController";
                           Lit " initialized successfully"]) st)
    else
      (false,
       emit (logged LError [Lit "Failed to initialize ";
                            FmtStr "AuthController"]) st).

(** [AuthController.login]; [session_id] is the identifier drawn for
    the session when one is created. *)
Definition login (username password : string) (remember_me : bool)
           (session_id : string) (now : datetime) (st : t) : bool * t :=
  match validation.validate_login_data
          [("username", PyStr username); ("password", PyStr password)] with
  | None =>
      (false,
       emit_error "Login Error" [Lit "Login failed: "; FmtStr "TypeError"]
                  (emit (logged LError [Lit "Error during login: ";
                                        FmtStr "TypeError"]) st))
  | Some validation_result =>
  if negb (validation.is_valid validation_result) then
    (false,
     emit_error "Login Error"
       (Lit "Invalid login data: "
            :: join "; " (validation.errors validation_result)) st)
  else
  match _find_user_by_username_or_email username st with
  | None =>
      let st := emit (login_failed username "User not found") st in
      (false, emit_error "Login Failed" [Lit "Invalid username or password"] st)
  | Some (l, user) =>
  if negb (User.is_active user) then
    let st := emit (login_failed username "Account inactive") st in
    (false, emit_error "Login Failed" [Lit "Account is inactive"] st)
  else if User.is_locked user now then
    let st := emit (account_locked username) st in
    (false,
     emit_error "Account Locked"
       [Lit "Account is locked until ";
        FmtDateTime (User.locked_until user)] st)
  else if negb (_verify_password password (User.password_hash user)
                                 (User.salt user)) then
    let failed := User.failed_login_attempts user + 1 in
    let st := update_user_object l (User.set_failed_login_attempts failed) st in
    let st :=
      if max_login_attempts st <=? failed then
        let st :=
          update_user_object l
            (User.set_locked_until
               (Some (now + timedelta_minutes (lockout_duration_minutes st))))
            st in
        let st := emit (account_locked username) st in
        emit_error "Account Locked"
          [Lit "Account locked due to too many failed attempts. ";
           Lit "Try again in "; FmtInt (lockout_duration_minutes st);
           Lit " minutes."] st
      else
        let attempts_left := max_login_attempts st - failed in
        emit_error "Login Failed"
          [Lit "Invalid password. "; FmtInt attempts_left;
           Lit " attempts remaining."] st in
    (false, emit (login_failed username "Invalid password") st)
  else
    let reset u :=
      User.set_last_login (Some now)
        (User.set_locked_until None
           (User.set_failed_login_attempts 0 u)) in
    let st := update_user_object l reset st in
    let user := reset user in
    let session_duration :=
      if remember_me then 24 else session_timeout_hours st in
    let '(ls, st) := _create_session user session_duration session_id now st in
    let st := set_current (Some l) (Some ls) st in
    let st :=
      emit_success "Login Successful"
        [Lit "Welcome back, "; FmtStr (User.username user); Lit "!"] st in
    let st := emit (user_logged_in (User.to_dict user now)) st in
    let st :=
      emit_data_changed "user_logged_in"
        [("user_id", User.id user); ("username", User.username user);
         ("role", UserRole_value (User.role user))] st in
    (true,
     emit (logged LInfo [Lit "User "; FmtStr username;
                         Lit " logged in successfully"]) st)
  end
  end.

(** [AuthController.change_password]; [new_salt] is the salt drawn
    for the new password. *)
Definition change_password (current_password new_password new_salt : string)
           (st : t) : bool * t :=
  match current_user st with
  | None => (false, emit_error "Authorization Error" [Lit "No active session"] st)
  | Some l =>
  match get_user l st with
  | None => (false, st)
  | Some user =>
  if negb (_verify_password current_password (User.password_hash user)
                            (User.salt user)) then
    (false,
     emit_error "Password Change Failed"
                [Lit "Current password is incorrect"] st)
  else
    let '(valid, errs) := validation.validate_password new_password in
    if negb valid then
      (false,
       emit_error "Password Validation Error"
         (Lit "New password is invalid: " :: join "; " errs) st)
    else
      let new_password_hash := _hash_password new_password new_salt in
      let st :=
        update_user_object l (User.set_password new_password_hash new_salt)
                           st in
      let st := emit_success "Password Changed"
                             [Lit "Password changed successfully"] st in
      let st := emit (password_changed (User.username user)) st in
      (true,
       emit (logged LInfo [Lit "Password changed for user ";
                           FmtStr (User.username user)]) st)
  end
  end.

(** The [except Exception] clause of the user management methods. *)
Definition failed_with (what title prefix exc : string) (st : t) : t :=
  emit_error title [Lit prefix; FmtStr exc]
             (emit (logged LError [Lit what; FmtStr exc]) st).

(** [AuthController.create_user]; [stamp] is the formatted clock
    reading and [token] the [secrets.token_hex(4)] of the new
    identifier, [salt] the salt drawn for the password. *)
Definition create_user (user_data : Dict.t pyval)
           (stamp token salt : string) (now : datetime) (st : t)
  : option string * t :=
  let raised := failed_with "Error creating user: " "User Creation Error"
                            "Failed to create user: " in
  if negb (has_permission USER_MANAGE now st) then
    (None,
     emit_error "Permission Denied"
                [Lit "You don't have permission to create users"] st)
  else
  let validation_result := validation.validate_user_data user_data false in
  if negb (validation.is_valid validation_result) then
    (None,
     emit_error "Validation Error"
       (Lit "User data validation failed: "
            :: join "; " (validation.errors validation_result)) st)
  else
  let validated_data := validation.data validation_result in
  match validation.v_username validated_data with
  | None => (None, raised "'username'" st)
  | Some username =>
  match _find_user_by_username_or_email username st with
  | Some _ =>
      (None, emit_error "User Creation Error" [Lit "Username already exists"] st)
  | None =>
  match validation.v_email validated_data with
  | None => (None, raised "'email'" st)
  | Some email =>
  match _find_user_by_username_or_email email st with
  | Some _ =>
      (None, emit_error "User Creation Error" [Lit "Email already exists"] st)
  | None =>
  let user_id :=
    String.append "user_" (String.append stamp (String.append "_" token)) in
  match validation.v_password validated_data with
  | None => (None, raised "'password'" st)
  | Some password =>
  let password_hash := _hash_password password salt in
  match validation.v_role validated_data with
  | None => (None, raised "'role'" st)
  | Some role_value =>
  match UserRole_of_value role_value with
  | None => (None, raised "ValueError" st)
  | Some role =>
  let user :=
    {| User.id := user_id; User.username := username;
       User.email := email; User.role := role;
       User.password_hash := password_hash; User.salt := salt;
       User.is_active :=
         match validation.v_is_active validated_data with
         | Some b => b
         | None => true
         end;
       User.created_at := now; User.last_login := None;
       User.failed_login_attempts := 0; User.locked_until := None |} in
  let '(l, objs) := Store.alloc user (user_objects st) in
  let st := set_users (Dict.set user_id l (_users st)) objs st in
  let st :=
    emit_success "User Created"
      [Lit "User "; FmtStr (User.username user);
       Lit " created successfully"] st in
  let st := emit (user_created (User.to_dict user now)) st in
  let st := emit_data_changed "user_created" [("user_id", user_id)] st in
  (Some user_id,
   emit (logged LInfo [Lit "User "; FmtStr (User.username user);
                       Lit " created by "; FmtStr (actor st)]) st)
  end end end end end end end.

(** The assignments of [update_user] after validation: each step
    either changes the user object or stops with an error, leaving
    the earlier assignments in place. *)
Definition update_username (l : loc) (user_id : string)
           (validated_data : validation.validated) (st : t) : bool * t :=
  match validation.v_username validated_data with
  | Some username =>
      match _find_user_by_username_or_email username st with
      | Some (_, existing_user) =>
          if negb (String.eqb (User.id existing_user) user_id) then
            (false, emit_error "Update Error" [Lit "Username already exists"] st)
          else (true, update_user_object l (User.set_username username) st)
      | None => (true, update_user_object l (User.set_username username) st)
      end
  | None => (true, st)
  end.

Definition update_email (l : loc) (user_id : string)
           (validated_data : validation.validated) (st : t) : bool * t :=
  match validation.v_email validated_data with
  | Some email =>
      match _find_user_by_username_or_email email st with
      | Some (_, existing_user) =>
          if negb (String.eqb (User.id existing_user) user_id) then
            (false, emit_error "Update Error" [Lit "Email already exists"] st)
          else (true, update_user_object l (User.set_email email) st)
      | None => (true, update_user_object l (User.set_email email) st)
      end
  | None => (true, st)
  end.

(** [AuthController.update_user] *)
Definition update_user (user_id : string) (updated_data : Dict.t pyval)
           (now : datetime) (st : t) : bool * t :=
  if negb (has_permission USER_MANAGE now st) then
    (false,
     emit_error "Permission Denied"
                [Lit "You don't have permission to update users"] st)
  else
  match Dict.get user_id (_users st) with
  | None =>
      (false,
       emit_error "User Not Found"
         [Lit "User with ID "; FmtStr user_id; Lit " not found"] st)
  | Some l =>
  let validation_result := validation.validate_user_data updated_data true in
  if negb (validation.is_valid validation_result) then
    (false,
     emit_error "Validation Error"
       (Lit "Update data validation failed: "
            :: join "; " (validation.errors validation_result)) st)
  else
  let validated_data := validation.data validation_result in
  let '(ok, st) := update_username l user_id validated_data st in
  if negb ok then (false, st) else
  let '(ok, st) := update_email l user_id validated_data st in
  if negb ok then (false, st) else
  match
    match validation.v_role validated_data with
    | Some role_value =>
        match UserRole_of_value role_value with
        | Some role => Some (update_user_object l (User.set_role role) st)
        | None => None
        end
    | None => Some st
    end
  with
  | None =>
      (false,
       failed_with "Error updating user: " "User Update Error"
                   "Failed to update user: " "ValueError" st)
  | Some st =>
  let st :=
    match validation.v_is_active validated_data with
    | Some b => update_user_object l (User.set_is_active b) st
    | None => st
    end in
  match get_user l st with
  | None => (false, st)
  | Some user =>
  let st :=
    emit_success "User Updated"
      [Lit "User "; FmtStr (User.username user);
       Lit " updated successfully"] st in
  let st := emit (user_updated (User.to_dict user now)) st in
  let st := emit_data_changed "user_updated" [("user_id", user_id)] st in
  (true,
   emit (logged LInfo [Lit "User "; FmtStr (User.username user);
                       Lit " updated by "; FmtStr (actor st)]) st)
  end end end.

(** The identifiers [delete_user] collects before removing them. *)
Definition sessions_to_remove (user_id : string) (st : t) : list string :=
  map fst
      (filter (fun item =>
                 match get_session (snd item) st with
                 | Some session =>
                     String.eqb (Session.user_id session) user_id
                 | None => false
                 end)
              (Dict.items (_sessions st))).

(** [AuthController.delete_user] *)
Definition delete_user (user_id : string) (now : datetime) (st : t)
  : bool * t :=
  if negb (has_permission USER_MANAGE now st) then
    (false,
     emit_error "Permission Denied"
                [Lit "You don't have permission to delete users"] st)
  else
  match Dict.get user_id (_users st) with
  | None =>
      (false,
       emit_error "User Not Found"
         [Lit "User with ID "; FmtStr user_id; Lit " not found"] st)
  | Some l =>
  let is_self :=
    match current_user st with
    | Some lc =>
        match get_user lc st with
        | Some cu => String.eqb user_id (User.id cu)
        | None => false
        end
    | None => false
    end in
  if is_self then
    (false, emit_error "Delete Error" [Lit "Cannot delete your own account"] st)
  else
  let st := update_user_object l (User.set_is_active false) st in
  let st :=
    fold_left (fun st session_id =>
                 set_sessions (Dict.del session_id (_sessions st))
                              (session_objects st) st)
              (sessions_to_remove user_id st) st in
  let username :=
    match get_user l st with
    | Some user => User.username user
    | None => ""
    end in
  let st :=
    emit_success "User Deleted"
      [Lit "User "; FmtStr username; Lit " deactivated successfully"] st in
  let st := emit (user_deleted user_id) st in
  let st := emit_data_changed "user_deleted" [("user_id", user_id)] st in
  (true,
   emit (logged LInfo [Lit "User "; FmtStr username;
                       Lit " deleted by "; FmtStr (actor st)]) st)
  end.

(** [AuthController.get_all_users] *)
Definition get_all_users (include_inactive : bool) (now : datetime)
           (st : t) : list User.dict :=
  if negb (has_permission USER_MANAGE now st) then []
  else
    flat_map (fun l =>
                match get_user l st with
                | Some user =>
                    if include_inactive || User.is_active user
                    then [User.to_dict user now] else []
                | None => []
                end)
             (Dict.values (_users st)).

(** [AuthController.reset_failed_login_attempts] *)
Definition reset_failed_login_attempts (username : string)
           (now : datetime) (st : t) : bool * t :=
  if negb (has_permission USER_MANAGE now st) then
    (false,
     emit_error "Permission Denied"
       [Lit "You don't have permission to reset login attempts"] st)
  else
    match _find_user_by_username_or_email username st with
    | None =>
        (false,
         emit_error "User Not Found"
           [Lit "User "; FmtStr username; Lit " not found"] st)
    | Some (l, _) =>
        let st :=
          update_user_object l
            (fun u => User.set_locked_until None
                        (User.set_failed_login_attempts 0 u)) st in
        (true,
         emit_success "Login Attempts Reset"
           [Lit "Failed login attempts reset for "; FmtStr username] st)
    end.

(** [AuthController.generate_jwt_token]; [utcnow] is the UTC clock. *)
Definition generate_jwt_token (user : User.t) (utcnow : datetime) (st : t)
  : string * list Event :=
  let payload :=
    {| c_user_id := User.id user; c_username := User.username user;
       c_role := UserRole_value (User.role user);
       c_exp := utcnow + timedelta_hours 24; c_iat := utcnow |} in
  match jwt_encode payload (jwt_secret st) with
  | Some token => (token, [])
  | None =>
      ("", [logged LError [Lit "Error generating JWT token: ";
                           FmtStr "Exception"]])
  end.

(** [AuthController.verify_jwt_token]: the value returned and the
    log records written. *)
Definition verify_jwt_token (token : string) (st : t)
  : option Claims * list Event :=
  match jwt_decode token (jwt_secret st) with
  | Decoded payload => (Some payload, [])
  | ExpiredSignatureError =>
      (None, [logged LWarning [Lit "JWT token has expired"]])
  | InvalidTokenError =>
      (None, [logged LWarning [Lit "Invalid JWT token"]])
  | OtherException text =>
      (None, [logged LError [Lit "Error verifying JWT token: ";
                             FmtStr text]])
  end.

End WithLibraries.

End AuthController.

(** ** The controller as a transition system

    A call of a state-changing method of the controller, with the
    values it draws.  The timer slot [_check_session_expiry] is one of
    the calls: the environment may fire it at any time. *)

Inductive Call : Type :=
| call_initialize (security : option SecuritySettings)
                  (generated_secret salt : string)
| call_login (username password : string) (remember_me : bool)
             (session_id : string)
| call_logout
| call_change_password (current_password new_password new_salt : string)
| call_create_user (user_data : Dict.t pyval) (stamp token salt : string)
| call_update_user (user_id : string) (updated_data : Dict.t pyval)
| call_delete_user (user_id : string)
| call_require_permission (permission : Permission)
| call_extend_current_session (hours : Z)
| call_terminate_session (session_id : string)
| call_reset_failed_login_attempts (username : string)
| call_check_session_expiry
| call_cleanup.

Section Machine.

Variable pbkdf2_hmac_sha256 : string -> string -> string.

(** The state after the call [c] made at clock reading [now]. *)
Definition exec (c : Call) (now : datetime) (st : AuthController.t)
  : AuthController.t :=
  match c with
  | call_initialize security generated_secret salt =>
      snd (AuthController.initialize pbkdf2_hmac_sha256 security
                                     generated_secret salt now st)
  | call_login username password remember_me session_id =>
      snd (AuthController.login pbkdf2_hmac_sha256 username password
                                remember_me session_id now st)
  | call_logout => snd (AuthController.logout st)
  | call_change_password current_password new_password new_salt =>
      snd (AuthController.change_password pbkdf2_hmac_sha256
             current_password new_password new_salt st)
  | call_create_user user_data stamp token salt =>
      snd (AuthController.create_user pbkdf2_hmac_sha256 user_data
                                      stamp token salt now st)
  | call_update_user user_id updated_data =>
      snd (AuthController.update_user user_id updated_data now st)
  | call_delete_user user_id =>
      snd (AuthController.delete_user user_id now st)
  | call_require_permission permission =>
      snd (AuthController.require_permission permission now st)
  | call_extend_current_session hours =>
      snd (AuthController.extend_current_session hours now st)
  | call_terminate_session session_id =>
      snd (AuthController.terminate_session session_id now st)
  | call_reset_failed_login_attempts username =>
      snd (AuthController.reset_failed_login_attempts username now st)
  | call_check_session_expiry =>
      AuthController._check_session_expiry now st
  | call_cleanup => AuthController.cleanup st
  end.

(** A run: calls with the clock reading of each, oldest first. *)
Definition run (calls : list (Call * datetime)) (st : AuthController.t)
  : AuthController.t :=
  fold_left (fun st c => exec (fst c) (snd c) st) calls st.

(** The states a controller can be in. *)
Inductive reachable : AuthController.t -> Prop :=
| reachable_init : reachable AuthController.init
| reachable_exec : forall st c now,
    reachable st -> reachable (exec c now st).

End Machine.

(** ** Small helpers used to state the properties *)

(** The (title, message) pairs of the [error_occurred] signals of a trace. *)
Definition error_messages (tr : list Event) : list (string * fstring) :=
  flat_map (fun e =>
              match e with
              | error_occurred title message => [(title, message)]
              | _ => []
              end) tr.

(** The [login_failed] reasons of a trace. *)
Definition login_failed_reasons (tr : list Event) : list string :=
  flat_map (fun e =>
              match e with
              | login_failed _ reason => [reason]
              | _ => []
              end) tr.

(** Whether [validate_login_data] accepts the pair. *)
Definition login_data_accepted (username password : string) : bool :=
  match validation.validate_login_data
          [("username", PyStr username); ("password", PyStr password)] with
  | Some r => validation.is_valid r
  | None => false
  end.

(** The permissions that only read. *)
Definition read_class (p : Permission) : bool :=
  match p with
  | CLIENT_READ | DIET_READ | REPORT_VIEW => true
  | _ => false
  end.

(** The user object [login] leaves behind after a wrong password. *)
Definition after_failure (st : AuthController.t) (now : datetime)
           (u : User.t) : User.t :=
  let failed := User.failed_login_attempts u + 1 in
  let u := User.set_failed_login_attempts failed u in
  if AuthController.max_login_attempts st <=? failed then
    User.set_locked_until
      (Some (now + timedelta_minutes
                     (AuthController.lockout_duration_minutes st))) u
  else u.

(** The error message of a wrong password. *)
Definition failure_message (st : AuthController.t) (u : User.t)
  : string * fstring :=
  let failed := User.failed_login_attempts u + 1 in
  if AuthController.max_login_attempts st <=? failed then
    ("Account Locked",
     [Lit "Account locked due to too many failed attempts. ";
      Lit "Try again in ";
      FmtInt (AuthController.lockout_duration_minutes st);
      Lit " minutes."])
  else
    ("Login Failed",
     [Lit "Invalid password. ";
      FmtInt (AuthController.max_login_attempts st - failed);
      Lit " attempts remaining."]).

(** The user object [login] leaves behind after a correct password. *)
Definition after_success (now : datetime) (u : User.t) : User.t :=
  User.set_last_login (Some now)
    (User.set_locked_until None (User.set_failed_login_attempts 0 u)).

(** *** Stand-ins for the external libraries, for the worked examples

    The examples below run the controller on concrete inputs; they need
    some hash and some decoder.  The control flow of the controller
    only compares digests for equality, so any function will do. *)

Definition example_hash (password salt : string) : string :=
  String.append salt (String.append "$" password).

Definition example_decode (token : string) (key : option string)
  : DecodeOutcome :=
  if String.eqb token "stale-token" then ExpiredSignatureError
  else InvalidTokenError.

Definition example_settings : SecuritySettings :=
  {| s_jwt_secret := Some "your-secret-key-change-in-production";
     s_max_login_attempts := Some 3;
     s_lockout_duration_minutes := Some 30;
     s_session_timeout_hours := Some 8;
     s_password_min_length := None |}.

(** The controller after [initialize()] at clock reading 0. *)
Definition example_started : AuthController.t :=
  exec example_hash
       (call_initialize (Some example_settings) "secret" "5a17") 0
       AuthController.init.

(** ... and after the default administrator has logged in. *)
Definition example_admin_session : AuthController.t :=
  exec example_hash (call_login "admin" "admin123" false "sid-1") 1000
       example_started.

(** ... and after three logins of the administrator with a wrong
    password, which lock the account for thirty minutes. *)
Definition example_locked_out : AuthController.t :=
  run example_hash
      [(call_login "admin" "wrong-1" false "sid-2", 2000);
       (call_login "admin" "wrong-2" false "sid-3", 2500);
       (call_login "admin" "wrong-3" false "sid-4", 3000)]
      example_admin_session.

(** The [user_updated] payloads of a trace. *)
Definition user_updated_payloads (tr : list Event) : list User.dict :=
  flat_map (fun e =>
              match e with
              | user_updated d => [d]
              | _ => []
              end) tr.

(** The administrator's user object in [example_locked_out]. *)
Definition example_locked_admin : User.t :=
  {| User.id := "admin_001"; User.username := "admin";
     User.email := "admin@pharmacy.local"; User.role := ADMIN;
     User.password_hash := "5a17$admin123"; User.salt := "5a17";
     User.is_active := true; User.created_at := 0;
     User.last_login := Some 1000; User.failed_login_attempts := 3;
     User.locked_until := Some 1800003000 |}.

(** A second account, created by the administrator and then deleted. *)
Definition example_bob_data : Dict.t pyval :=
  [("username", PyStr "bob"); ("email", PyStr "bob@example.org");
   ("password", PyStr "Secret123"); ("role", PyStr "viewer")].

Definition example_with_bob : AuthController.t :=
  exec example_hash
       (call_create_user example_bob_data "20240101120000" "a1b2c3d4" "77aa")
       5000 example_admin_session.

Definition example_bob_deleted : AuthController.t :=
  exec example_hash (call_delete_user "user_20240101120000_a1b2c3d4") 6000
       example_with_bob.

(** The user name and the active flag of every stored user. *)
Definition directory (st : AuthController.t) : list (string * string * bool) :=
  map (fun u => (User.username u, User.email u, User.is_active u))
      (AuthController.user_objects st).

(** The deleted account, and a request that reuses its user name. *)
Definition example_bob : User.t :=
  {| User.id := "user_20240101120000_a1b2c3d4"; User.username := "bob";
     User.email := "bob@example.org"; User.role := VIEWER;
     User.password_hash := "77aa$Secret123"; User.salt := "77aa";
     User.is_active := false; User.created_at := 5000;
     User.last_login := None; User.failed_login_attempts := 0;
     User.locked_until := None |}.

Definition example_second_bob_data : Dict.t pyval :=
  [("username", PyStr "bob"); ("email", PyStr "robert@example.org");
   ("password", PyStr "Secret456"); ("role", PyStr "assistant")].

(** The controller state apart from the users: the sessions and who is
    logged in. *)
Definition same_sessions (st st' : AuthController.t) : Prop :=
  AuthController.current_user st' = AuthController.current_user st /\
  AuthController.current_session st' = AuthController.current_session st /\
  AuthController._sessions st' = AuthController._sessions st /\
  AuthController.session_objects st' = AuthController.session_objects st.

(** A change of user objects that keeps identifier and role. *)
Definition keeps_id_and_role (f : User.t -> User.t) : Prop :=
  forall x, User.id (f x) = User.id x /\ User.role (f x) = User.role x.

(** The administrator's session in [example_admin_session], and the
    state after the administrator has changed the own role to Viewer. *)
Definition example_session : Session.t :=
  Session.new "sid-1" "admin_001" "admin" ADMIN (1000 + timedelta_hours 8) 1000.

Definition example_demoted : AuthController.t :=
  exec example_hash (call_update_user "admin_001" [("role", PyStr "viewer")])
       5000 example_admin_session.

(** One login attempt under a fixed user name: the password typed,
    the remember-me flag, the session identifier drawn if a session is
    created, and the clock reading. *)
Record Attempt : Type := {
  a_password : string;
  a_remember_me : bool;
  a_session_id : string;
  a_time : datetime
}.

Definition try_login (hash : string -> string -> string) (username : string)
           (a : Attempt) (st : AuthController.t) : bool * AuthController.t :=
  AuthController.login hash username (a_password a) (a_remember_me a)
                       (a_session_id a) (a_time a) st.

(** The state after a series of attempts, oldest first. *)
Definition try_logins (hash : string -> string -> string) (username : string)
           (attempts : list Attempt) (st : AuthController.t) : AuthController.t :=
  fold_left (fun st a => snd (try_login hash username a st)) attempts st.

(** An attempt that passes input validation and fails on the password
    of the user [u]. *)
Definition wrong_attempt (hash : string -> string -> string)
           (username : string) (u : User.t) (a : Attempt) : Prop :=
  login_data_accepted username (a_password a) = true /\
  AuthController._verify_password hash (a_password a) (User.password_hash u)
                                  (User.salt u) = false.

(** Three attempts on the administrator's account with wrong passwords. *)
Definition example_wrong_1 : Attempt :=
  {| a_password := "wrong-1"; a_remember_me := false;
     a_session_id := "sid-2"; a_time := 2000 |}.
Definition example_wrong_2 : Attempt :=
  {| a_password := "wrong-2"; a_remember_me := false;
     a_session_id := "sid-3"; a_time := 2500 |}.
Definition example_wrong_3 : Attempt :=
  {| a_password := "wrong-3"; a_remember_me := false;
     a_session_id := "sid-4"; a_time := 3000 |}.

(** *** The invariant of the session registry

    Every entry of [_sessions] is keyed by the identifier of an active
    session object; the current user and the current session are set
    together; and the current session, as long as it is active, is the
    entry of [_sessions] under its identifier and belongs to the
    current user. *)
Record Inv (st : AuthController.t) : Prop := {
  inv_keys : NoDup (Dict.keys (AuthController._sessions st));
  inv_entries :
    forall sid l,
      In (sid, l) (Dict.items (AuthController._sessions st)) ->
      exists s, AuthController.get_session l st = Some s /\
                Session.session_id s = sid /\
                Session.status s = ACTIVE;
  inv_both :
    AuthController.current_user st = None <->
    AuthController.current_session st = None;
  inv_current :
    forall lu ls,
      AuthController.current_user st = Some lu ->
      AuthController.current_session st = Some ls ->
      exists u s, AuthController.get_user lu st = Some u /\
                  AuthController.get_session ls st = Some s /\
                  Session.user_id s = User.id u /\
                  (Session.status s = ACTIVE ->
                   Dict.get (Session.session_id s) (AuthController._sessions st)
                   = Some ls)
}.

(** A change of user objects that keeps the identifier. *)
Definition keeps_id (f : User.t -> User.t) : Prop :=
  forall x, User.id (f x) = User.id x.

(** A step that leaves the sessions alone and keeps every user object
    in place, with its identifier. *)
Definition users_step (st st' : AuthController.t) : Prop :=
  same_sessions st st' /\
  forall l u, AuthController.get_user l st = Some u ->
              exists u', AuthController.get_user l st' = Some u' /\
                         User.id u' = User.id u.

(** A change of session objects that revives no session. *)
Definition keeps_ended (f : Session.t -> Session.t) : Prop :=
  forall s, Session.status s <> ACTIVE -> Session.status (f s) <> ACTIVE.

(** A step after which every session object is still in place, and
    still not active if it was not active before. *)
Definition ended_stay_ended (st st' : AuthController.t) : Prop :=
  forall l s, AuthController.get_session l st = Some s ->
              exists s', AuthController.get_session l st' = Some s' /\
                         (Session.status s <> ACTIVE ->
                          Session.status s' <> ACTIVE).

(** *** Vocabulary for the properties of the other methods *)

(** Everything in a controller state but the trace of signals. *)
Definition core (st : AuthController.t) :=
  (AuthController.current_user st, AuthController.current_session st,
   AuthController._users st, AuthController._sessions st,
   AuthController.user_objects st, AuthController.session_objects st,
   (AuthController._session_timer st, AuthController._initialized st,
    AuthController.jwt_secret st, AuthController.max_login_attempts st,
    AuthController.lockout_duration_minutes st,
    AuthController.session_timeout_hours st,
    AuthController.password_min_length st)).

(** A call that at most emitted signals. *)
Definition same_but_trace (st st' : AuthController.t) : Prop :=
  core st' = core st.

(** The time at which a session opened at [now] runs out. *)
Definition session_end (st : AuthController.t) (remember_me : bool)
           (now : datetime) : datetime :=
  now + timedelta_hours
          (if remember_me then 24 else AuthController.session_timeout_hours st).

(** A second user, a Viewer, logged in on the controller. *)
Definition example_bob_session : AuthController.t :=
  exec example_hash (call_login "bob" "Secret123" false "sid-9") 9000
       example_with_bob.

(** The session object of that Viewer. *)
Definition example_bob_own_session : Session.t :=
  Session.new "sid-9" "user_20240101120000_a1b2c3d4" "bob" VIEWER
              (9000 + timedelta_hours 8) 9000.

(** The user object of that Viewer once logged in. *)
Definition example_bob_logged_in : User.t :=
  after_success 9000 (User.set_is_active true example_bob).

(** The identifier, user name and e-mail address of an account. *)
Definition idents (u : User.t) : string * string * string :=
  (User.id u, User.username u, User.email u).

(** A step that leaves [_users] alone and keeps the identifier, the
    user name and the e-mail address of every user object. *)
Definition same_directory (st st' : AuthController.t) : Prop :=
  AuthController._users st' = AuthController._users st /\
  map idents (AuthController.user_objects st')
  = map idents (AuthController.user_objects st).

(** What [_find_user_by_username_or_email] tests of a user. *)
Definition holds (identifier : string) (u : User.t) : Prop :=
  User.username u = identifier \/ User.email u = identifier.

(** The directory of users: [_users] has one entry per key, each entry
    is a user object stored under its own identifier, and no user name
    or e-mail address is the user name or e-mail address of two
    entries. *)
Record Directory (st : AuthController.t) : Prop := {
  dir_keys : NoDup (Dict.keys (AuthController._users st));
  dir_entries :
    forall k l,
      In (k, l) (Dict.items (AuthController._users st)) ->
      exists u, AuthController.get_user l st = Some u /\ User.id u = k;
  dir_unique :
    forall l1 l2 u1 u2 x,
      In l1 (Dict.values (AuthController._users st)) ->
      In l2 (Dict.values (AuthController._users st)) ->
      AuthController.get_user l1 st = Some u1 ->
      AuthController.get_user l2 st = Some u2 ->
      holds x u1 -> holds x u2 -> l1 = l2
}.

(** * Properties *)

(** ** Dictionaries and stores *)

Lemma Dict_get_In : forall (V : Type) (k : string) (v : V) (d : Dict.t V),
    Dict.get k d = Some v -> In (k, v) d.
Proof.
  induction d as [|[k' v'] d IH]; simpl; intros H; [discriminate|].
  destruct (String.eqb k k') eqn:E.
  - apply String.eqb_eq in E. inversion H; subst. now left.
  - right. now apply IH.
Qed.

Lemma Dict_In_keys : forall (V : Type) (k : string) (v : V) (d : Dict.t V),
    In (k, v) d -> In k (Dict.keys d).
Proof.
  intros V k v d H. change k with (fst (k, v)). now apply in_map.
Qed.

Lemma Dict_In_get : forall (V : Type) (k : string) (v : V) (d : Dict.t V),
    NoDup (Dict.keys d) -> In (k, v) d -> Dict.get k d = Some v.
Proof.
  induction d as [|[k' v'] d IH]; simpl; intros ND H; [contradiction|].
  inversion ND as [|? ? Hnotin ND']; subst.
  destruct H as [H|H].
  - inversion H; subst. now rewrite String.eqb_refl.
  - destruct (String.eqb k k') eqn:E.
    + apply String.eqb_eq in E; subst. exfalso. apply Hnotin.
      now apply Dict_In_keys with v.
    + now apply IH.
Qed.

Lemma Dict_In_set : forall (V : Type) (k k0 : string) (v v0 : V) (d : Dict.t V),
    In (k, v) (Dict.set k0 v0 d) -> (k, v) = (k0, v0) \/ In (k, v) d.
Proof.
  induction d as [|[k' v'] d IH]; simpl; intros H.
  - destruct H as [H|[]]. now left.
  - destruct (String.eqb k0 k').
    + destruct H as [H|H]; [now left | now right; right].
    + destruct H as [H|H]; [now right; left|].
      destruct (IH H); [now left | now right; right].
Qed.

Lemma Dict_keys_set : forall (V : Type) (k k0 : string) (v0 : V) (d : Dict.t V),
    In k (Dict.keys (Dict.set k0 v0 d)) -> k = k0 \/ In k (Dict.keys d).
Proof.
  induction d as [|[k' v'] d IH]; simpl; intros H.
  - destruct H as [H|[]]. now left.
  - destruct (String.eqb k0 k') eqn:E; simpl in H.
    + apply String.eqb_eq in E; subst k'.
      destruct H as [H|H]; [now left | now right; right].
    + destruct H as [H|H]; [now right; left|].
      destruct (IH H); [now left | now right; right].
Qed.

Lemma Dict_NoDup_set : forall (V : Type) (k0 : string) (v0 : V) (d : Dict.t V),
    NoDup (Dict.keys d) -> NoDup (Dict.keys (Dict.set k0 v0 d)).
Proof.
  induction d as [|[k' v'] d IH]; simpl; intros ND.
  - constructor; [intros [] | constructor].
  - inversion ND as [|? ? Hnotin ND']; subst.
    destruct (String.eqb k0 k') eqn:E; simpl.
    + apply String.eqb_eq in E; subst k'. now constructor.
    + apply String.eqb_neq in E. constructor; [|now apply IH].
      intro H. apply Dict_keys_set in H. destruct H; [congruence | contradiction].
Qed.

Lemma Dict_In_del : forall (V : Type) (k k0 : string) (v : V) (d : Dict.t V),
    In (k, v) (Dict.del k0 d) -> In (k, v) d.
Proof.
  induction d as [|[k' v'] d IH]; simpl; intros H; [contradiction|].
  destruct (String.eqb k0 k').
  - now right.
  - destruct H as [H|H]; [now left | right; now apply IH].
Qed.

Lemma Dict_NoDup_del : forall (V : Type) (k0 : string) (d : Dict.t V),
    NoDup (Dict.keys d) -> NoDup (Dict.keys (Dict.del k0 d)).
Proof.
  induction d as [|[k' v'] d IH]; simpl; intros ND; [constructor|].
  inversion ND as [|? ? Hnotin ND']; subst.
  destruct (String.eqb k0 k'); simpl; [assumption|].
  constructor; [|now apply IH].
  intro H. apply Hnotin.
  apply in_map_iff in H. destruct H as [[k v] [Hk Hin]]. simpl in Hk; subst.
  apply Dict_In_del in Hin. now apply Dict_In_keys with v.
Qed.

Lemma Dict_In_del_neq : forall (V : Type) (k k0 : string) (v : V) (d : Dict.t V),
    NoDup (Dict.keys d) -> In (k, v) (Dict.del k0 d) -> k <> k0.
Proof.
  induction d as [|[k' v'] d IH]; simpl; intros ND H; [contradiction|].
  inversion ND as [|? ? Hnotin ND']; subst.
  destruct (String.eqb k0 k') eqn:E.
  - apply String.eqb_eq in E; subst k'. intro; subst.
    apply Hnotin. now apply Dict_In_keys with v.
  - apply String.eqb_neq in E. destruct H as [H|H].
    + inversion H; subst. congruence.
    + now apply IH.
Qed.

Lemma Dict_get_del_neq : forall (V : Type) (k k0 : string) (d : Dict.t V),
    k <> k0 -> Dict.get k (Dict.del k0 d) = Dict.get k d.
Proof.
  induction d as [|[k' v'] d IH]; simpl; intros Hne; [reflexivity|].
  destruct (String.eqb k0 k') eqn:E.
  - apply String.eqb_eq in E; subst k'.
    apply String.eqb_neq in Hne. now rewrite Hne.
  - simpl. destruct (String.eqb k k'); [reflexivity | now apply IH].
Qed.

Lemma Dict_get_set_same : forall (V : Type) (k : string) (v : V) (d : Dict.t V),
    Dict.get k (Dict.set k v d) = Some v.
Proof.
  induction d as [|[k' v'] d IH]; simpl.
  - now rewrite String.eqb_refl.
  - destruct (String.eqb k k') eqn:E; simpl.
    + now rewrite String.eqb_refl.
    + now rewrite E.
Qed.

Lemma Store_get_update : forall (A : Type) (f : A -> A) (h : list A) (l l' : loc),
    Store.get l' (Store.update l f h)
    = if Nat.eqb l l' then option_map f (Store.get l' h) else Store.get l' h.
Proof.
  unfold Store.get. induction h as [|a h IH]; intros l l'.
  - destruct l, l'; simpl; try reflexivity; now destruct (Nat.eqb l l').
  - destruct l, l'; simpl; try reflexivity. apply IH.
Qed.

Lemma Store_get_update_same : forall (A : Type) (f : A -> A) (h : list A) (l : loc),
    Store.get l (Store.update l f h) = option_map f (Store.get l h).
Proof.
  intros. rewrite Store_get_update. now rewrite Nat.eqb_refl.
Qed.

Lemma Store_get_update_other : forall (A : Type) (f : A -> A) (h : list A) (l l' : loc),
    l <> l' -> Store.get l' (Store.update l f h) = Store.get l' h.
Proof.
  intros. rewrite Store_get_update.
  destruct (Nat.eqb l l') eqn:E; [apply Nat.eqb_eq in E; congruence | reflexivity].
Qed.

Lemma Store_get_alloc_old : forall (A : Type) (a b : A) (h : list A) (l : loc),
    Store.get l h = Some b -> Store.get l (snd (Store.alloc a h)) = Some b.
Proof.
  unfold Store.get, Store.alloc. simpl. intros A a b h l H.
  rewrite nth_error_app1; [assumption|].
  apply nth_error_Some. congruence.
Qed.

Lemma Store_get_alloc_new : forall (A : Type) (a : A) (h : list A),
    Store.get (fst (Store.alloc a h)) (snd (Store.alloc a h)) = Some a.
Proof.
  unfold Store.get, Store.alloc. simpl. intros.
  rewrite nth_error_app2 by lia. now rewrite Nat.sub_diag.
Qed.

Lemma Store_get_lt : forall (A : Type) (b : A) (h : list A) (l : loc),
    Store.get l h = Some b -> (l < List.length h)%nat.
Proof.
  unfold Store.get. intros. apply nth_error_Some. congruence.
Qed.

Lemma Store_update_update : forall (A : Type) (f g : A -> A) (h : list A) (l : loc),
    Store.update l g (Store.update l f h) = Store.update l (fun a => g (f a)) h.
Proof.
  induction h as [|a h IH]; intros l; destruct l; simpl; try reflexivity.
  now rewrite IH.
Qed.

Lemma Store_update_ext : forall (A : Type) (f g : A -> A) (h : list A) (l : loc),
    (forall a, Store.get l h = Some a -> f a = g a) ->
    Store.update l f h = Store.update l g h.
Proof.
  unfold Store.get. induction h as [|a h IH]; intros l H; destruct l; simpl;
    try reflexivity.
  - now rewrite (H a eq_refl).
  - f_equal. apply IH. intros b Hb. now apply H.
Qed.

Lemma Store_update_length : forall (A : Type) (f : A -> A) (h : list A) (l : loc),
    List.length (Store.update l f h) = List.length h.
Proof.
  induction h as [|a h IH]; intros l; destruct l; simpl; try reflexivity.
  now rewrite IH.
Qed.

(** ** Looking users up *)

Lemma find_user_sound : forall identifier objs ls l u,
    AuthController.find_user identifier objs ls = Some (l, u) ->
    In l ls /\ Store.get l objs = Some u /\
    (User.username u = identifier \/ User.email u = identifier).
Proof.
  induction ls as [|l0 ls IH]; simpl; intros l u H; [discriminate|].
  destruct (Store.get l0 objs) as [u0|] eqn:G.
  - destruct (String.eqb (User.username u0) identifier
              || String.eqb (User.email u0) identifier) eqn:E.
    + inversion H; subst. split; [now left|]. split; [assumption|].
      apply orb_true_iff in E. destruct E as [E|E]; apply String.eqb_eq in E; auto.
    + destruct (IH l u H) as [? ?]. split; [now right | assumption].
  - destruct (IH l u H) as [? ?]. split; [now right | assumption].
Qed.

Lemma find_user_none : forall identifier objs ls,
    AuthController.find_user identifier objs ls = None <->
    (forall l u, In l ls -> Store.get l objs = Some u ->
                 User.username u <> identifier /\ User.email u <> identifier).
Proof.
  induction ls as [|l0 ls IH]; simpl.
  - split; [intros _ l u [] | reflexivity].
  - destruct (Store.get l0 objs) as [u0|] eqn:G.
    + destruct (String.eqb (User.username u0) identifier
                || String.eqb (User.email u0) identifier) eqn:E.
      * split; [discriminate|]. intros H. exfalso.
        destruct (H l0 u0 (or_introl eq_refl) G) as [H1 H2].
        apply orb_true_iff in E. destruct E as [E|E]; apply String.eqb_eq in E;
          contradiction.
      * apply orb_false_iff in E. destruct E as [E1 E2].
        apply String.eqb_neq in E1, E2. rewrite IH. split.
        -- intros H l u [->|Hin] Hg; [|exact (H l u Hin Hg)].
           rewrite G in Hg. inversion Hg; subst. now split.
        -- intros H l u Hin. apply (H l u). now right.
    + rewrite IH. split.
      * intros H l u [->|Hin] Hg; [congruence | exact (H l u Hin Hg)].
      * intros H l u Hin. apply (H l u). now right.
Qed.

(** An assignment that keeps the user name and the e-mail address of
    the object it changes does not change who a lookup finds. *)
Lemma find_user_update : forall identifier f objs l' ls,
    (forall x, User.username (f x) = User.username x /\
               User.email (f x) = User.email x) ->
    AuthController.find_user identifier (Store.update l' f objs) ls
    = option_map (fun r => (fst r, if Nat.eqb l' (fst r) then f (snd r) else snd r))
                 (AuthController.find_user identifier objs ls).
Proof.
  intros identifier f objs l' ls Hf. induction ls as [|l0 ls IH]; simpl;
    [reflexivity|].
  rewrite Store_get_update.
  destruct (Nat.eqb l' l0) eqn:E; destruct (Store.get l0 objs) as [u0|]; simpl;
    try assumption.
  - destruct (Hf u0) as [-> ->].
    destruct (String.eqb (User.username u0) identifier
              || String.eqb (User.email u0) identifier); simpl;
      [now rewrite E | assumption].
  - destruct (String.eqb (User.username u0) identifier
              || String.eqb (User.email u0) identifier); simpl;
      [now rewrite E | assumption].
Qed.

(** ** Roles and permissions *)

Lemma Permission_eqb_eq : forall p q, Permission_eqb p q = true <-> p = q.
Proof.
  intros p q; split.
  - destruct p, q; intros H; try reflexivity; discriminate H.
  - intros ->. destruct q; reflexivity.
Qed.

Lemma has_permission_In : forall u p,
    User.has_permission u p = true <-> In p (User.get_permissions u).
Proof.
  intros u p. unfold User.has_permission. rewrite existsb_exists. split.
  - intros [q [Hin Heq]]. apply Permission_eqb_eq in Heq. now subst.
  - intros Hin. exists p. split; [assumption | now apply Permission_eqb_eq].
Qed.

(** C8.  A user whose role is Admin has every permission of the
    enumeration; a user whose role is Viewer has a permission only if
    it is one of the three read permissions: client read, diet read,
    report view. *)
Theorem admin_has_all_viewer_reads_only :
  forall (u : User.t) (p : Permission),
    (User.role u = ADMIN -> User.has_permission u p = true) /\
    (User.role u = VIEWER -> User.has_permission u p = true ->
     p = CLIENT_READ \/ p = DIET_READ \/ p = REPORT_VIEW).
Proof.
  intros u p. unfold User.has_permission, User.get_permissions. split.
  - intros ->. destruct p; reflexivity.
  - intros -> H. destruct p; try discriminate H; auto.
Qed.

Lemma admin_has_all_viewer_reads_only_witness :
  User.has_permission (AuthController._create_default_admin example_hash "5a17" 0)
                      BACKUP_RESTORE = true /\
  (DIET_READ = CLIENT_READ \/ DIET_READ = DIET_READ \/ DIET_READ = REPORT_VIEW).
Proof.
  split.
  - apply (proj1 (admin_has_all_viewer_reads_only
                    (AuthController._create_default_admin example_hash "5a17" 0)
                    BACKUP_RESTORE)).
    reflexivity.
  - apply (proj2 (admin_has_all_viewer_reads_only
                    (User.set_role VIEWER
                       (AuthController._create_default_admin example_hash "5a17" 0))
                    DIET_READ)); reflexivity.
Defined.

(** ** Token verification *)




(** ** Login *)

Section LoginFacts.

Variable hash : string -> string -> string.

Let login := AuthController.login hash.

Lemma login_unknown_user :
  forall username password remember_me sid now st,
    login_data_accepted username password = true ->
    AuthController._find_user_by_username_or_email username st = None ->
    login username password remember_me sid now st
    = (false,
       AuthController.emit_error "Login Failed"
         [Lit "Invalid username or password"]
         (AuthController.emit (login_failed username "User not found") st)).
Proof.
  intros username password remember_me sid now st Hacc Hfind.
  unfold login, AuthController.login. unfold login_data_accepted in Hacc.
  destruct (validation.validate_login_data _) as [r|]; [|discriminate].
  rewrite Hacc, Hfind. reflexivity.
Qed.

Lemma login_inactive :
  forall username password remember_me sid now st l u,
    login_data_accepted username password = true ->
    AuthController._find_user_by_username_or_email username st = Some (l, u) ->
    User.is_active u = false ->
    login username password remember_me sid now st
    = (false,
       AuthController.emit_error "Login Failed" [Lit "Account is inactive"]
         (AuthController.emit (login_failed username "Account inactive") st)).
Proof.
  intros username password remember_me sid now st l u Hacc Hfind Hact.
  unfold login, AuthController.login. unfold login_data_accepted in Hacc.
  destruct (validation.validate_login_data _) as [r|]; [|discriminate].
  rewrite Hacc, Hfind, Hact. reflexivity.
Qed.

Lemma login_locked :
  forall username password remember_me sid now st l u,
    login_data_accepted username password = true ->
    AuthController._find_user_by_username_or_email username st = Some (l, u) ->
    User.is_active u = true ->
    User.is_locked u now = true ->
    login username password remember_me sid now st
    = (false,
       AuthController.emit_error "Account Locked"
         [Lit "Account is locked until "; FmtDateTime (User.locked_until u)]
         (AuthController.emit (account_locked username) st)).
Proof.
  intros username password remember_me sid now st l u Hacc Hfind Hact Hlock.
  unfold login, AuthController.login. unfold login_data_accepted in Hacc.
  destruct (validation.validate_login_data _) as [r|]; [|discriminate].
  rewrite Hacc, Hfind, Hact, Hlock. reflexivity.
Qed.

Lemma login_wrong_password :
  forall username password remember_me sid now st l u,
    login_data_accepted username password = true ->
    AuthController._find_user_by_username_or_email username st = Some (l, u) ->
    User.is_active u = true ->
    User.is_locked u now = false ->
    AuthController._verify_password hash password (User.password_hash u)
                                    (User.salt u) = false ->
    exists st',
      login username password remember_me sid now st = (false, st') /\
      AuthController.user_objects st'
      = Store.update l (fun _ => after_failure st now u)
                     (AuthController.user_objects st) /\
      AuthController._users st' = AuthController._users st /\
      AuthController._sessions st' = AuthController._sessions st /\
      AuthController.session_objects st' = AuthController.session_objects st /\
      AuthController.current_user st' = AuthController.current_user st /\
      AuthController.current_session st' = AuthController.current_session st /\
      AuthController.max_login_attempts st' = AuthController.max_login_attempts st /\
      AuthController.lockout_duration_minutes st'
      = AuthController.lockout_duration_minutes st /\
      AuthController.session_timeout_hours st'
      = AuthController.session_timeout_hours st /\
      error_messages (AuthController.trace st')
      = error_messages (AuthController.trace st) ++ [failure_message st u] /\
      login_failed_reasons (AuthController.trace st')
      = login_failed_reasons (AuthController.trace st) ++ ["Invalid password"].
Proof.
  intros username password remember_me sid now st l u Hacc Hfind Hact Hlock Hpw.
  unfold login, AuthController.login. unfold login_data_accepted in Hacc.
  destruct (validation.validate_login_data _) as [r|]; [|discriminate].
  rewrite Hacc, Hfind, Hact, Hlock, Hpw. cbn [negb].
  apply find_user_sound in Hfind. destruct Hfind as [_ [Hget _]].
  eexists. split; [reflexivity|].
  unfold failure_message. cbn -[Z.add Z.sub Z.leb timedelta_minutes].
  destruct (AuthController.max_login_attempts st <=? _) eqn:E;
    cbn -[Z.add Z.sub Z.leb timedelta_minutes];
    unfold error_messages, login_failed_reasons;
    rewrite ?flat_map_app; cbn -[Z.add Z.sub Z.leb timedelta_minutes];
    rewrite ?app_nil_r; repeat split;
    rewrite ?Store_update_update; apply Store_update_ext; intros a Ha;
    rewrite Hget in Ha; inversion Ha; subst a; unfold after_failure;
    cbn -[Z.add Z.sub Z.leb timedelta_minutes]; now rewrite E.
Qed.

Lemma login_wrong_password_lookup :
  forall username password remember_me sid now st l u,
    login_data_accepted username password = true ->
    AuthController._find_user_by_username_or_email username st = Some (l, u) ->
    User.is_active u = true ->
    User.is_locked u now = false ->
    AuthController._verify_password hash password (User.password_hash u)
                                    (User.salt u) = false ->
    AuthController._find_user_by_username_or_email
      username (snd (login username password remember_me sid now st))
    = Some (l, after_failure st now u).
Proof.
  intros username password remember_me sid now st l u Hacc Hfind Hact Hlock Hpw.
  unfold login, AuthController.login. unfold login_data_accepted in Hacc.
  destruct (validation.validate_login_data _) as [r|]; [|discriminate].
  rewrite Hacc, Hfind, Hact, Hlock, Hpw. cbn [negb].
  unfold AuthController._find_user_by_username_or_email in *.
  unfold after_failure.
  cbn -[Z.add Z.sub Z.leb timedelta_minutes Dict.values AuthController.find_user].
  destruct (AuthController.max_login_attempts st <=? _) eqn:E;
    cbn -[Z.add Z.sub Z.leb timedelta_minutes Dict.values AuthController.find_user];
    rewrite !find_user_update by (intros x; split; reflexivity);
    rewrite Hfind; cbn -[Z.add Z.sub Z.leb timedelta_minutes Dict.values AuthController.find_user];
    rewrite Nat.eqb_refl; reflexivity.
Qed.

Lemma login_success :
  forall username password remember_me sid now st l u,
    login_data_accepted username password = true ->
    AuthController._find_user_by_username_or_email username st = Some (l, u) ->
    User.is_active u = true ->
    User.is_locked u now = false ->
    AuthController._verify_password hash password (User.password_hash u)
                                    (User.salt u) = true ->
    exists st',
      login username password remember_me sid now st = (true, st') /\
      AuthController.user_objects st'
      = Store.update l (fun _ => after_success now u)
                     (AuthController.user_objects st) /\
      AuthController._users st' = AuthController._users st /\
      AuthController.session_objects st'
      = AuthController.session_objects st
        ++ [Session.new sid (User.id u) (User.username u) (User.role u)
              (now + timedelta_hours
                       (if remember_me then 24
                        else AuthController.session_timeout_hours st)) now] /\
      AuthController._sessions st'
      = Dict.set sid (List.length (AuthController.session_objects st))
                 (AuthController._sessions st) /\
      AuthController.current_user st' = Some l /\
      AuthController.current_session st'
      = Some (List.length (AuthController.session_objects st)) /\
      AuthController.max_login_attempts st' = AuthController.max_login_attempts st /\
      AuthController.lockout_duration_minutes st'
      = AuthController.lockout_duration_minutes st /\
      AuthController.session_timeout_hours st'
      = AuthController.session_timeout_hours st.
Proof.
  intros username password remember_me sid now st l u Hacc Hfind Hact Hlock Hpw.
  unfold login, AuthController.login. unfold login_data_accepted in Hacc.
  destruct (validation.validate_login_data _) as [r|]; [|discriminate].
  rewrite Hacc, Hfind, Hact, Hlock, Hpw. cbn [negb].
  apply find_user_sound in Hfind. destruct Hfind as [_ [Hget _]].
  eexists. split; [reflexivity|].
  cbn -[Z.add Z.mul timedelta_hours]. repeat split.
  apply Store_update_ext. intros a Ha. rewrite Hget in Ha.
  now inversion Ha.
Qed.

End LoginFacts.




(** ** Lockout *)




(** ** User management *)

(** C10.  A caller that is logged in cannot delete its own account:
    when the identifier is that of the current user, [delete_user]
    returns [False] and leaves the users, their objects, the sessions
    and their objects as they were. *)
Theorem delete_user_refuses_own_account :
  forall (user_id : string) (now : datetime) (st : AuthController.t)
         (lc : loc) (cu : User.t),
    AuthController.current_user st = Some lc ->
    AuthController.get_user lc st = Some cu ->
    User.id cu = user_id ->
    let r := AuthController.delete_user user_id now st in
    fst r = false /\
    AuthController.user_objects (snd r) = AuthController.user_objects st /\
    AuthController._users (snd r) = AuthController._users st /\
    AuthController.session_objects (snd r) = AuthController.session_objects st /\
    AuthController._sessions (snd r) = AuthController._sessions st /\
    AuthController.current_user (snd r) = AuthController.current_user st /\
    AuthController.current_session (snd r) = AuthController.current_session st.
Proof.
  intros user_id now st lc cu Hcur Hget Hid r. subst r.
  unfold AuthController.delete_user.
  destruct (AuthController.has_permission USER_MANAGE now st); cbn [negb];
    [|now repeat split].
  destruct (Dict.get user_id (AuthController._users st)); [|now repeat split].
  rewrite Hcur, Hget, Hid, String.eqb_refl. now repeat split.
Qed.

Lemma delete_user_refuses_own_account_witness :
  fst (AuthController.delete_user "admin_001" 5000 example_admin_session) = false.
Proof.
  apply (fun H1 H2 H3 =>
           proj1 (delete_user_refuses_own_account "admin_001" 5000
                    example_admin_session 0%nat
                    (after_success 1000
                       (AuthController._create_default_admin example_hash
                                                             "5a17" 0))
                    H1 H2 H3));
    vm_compute; reflexivity.
Defined.

Ltac differing_trace H :=
  apply (f_equal AuthController.trace) in H; cbn in H;
  apply app_inj_tail in H; destruct H as [_ H]; discriminate H.

(** C6, as the code has it.  For a caller allowed to manage users and
    user data that pass validation, [create_user] stops with a
    duplicate error exactly when the requested user name or e-mail
    address is the user name or the e-mail address of some stored
    user, whether that user is active or not. *)
Theorem create_user_duplicate_iff_held_by_any_user :
  forall (hash : string -> string -> string) (user_data : Dict.t pyval)
         (stamp token salt : string) (now : datetime) (st : AuthController.t)
         (username email : string),
    AuthController.has_permission USER_MANAGE now st = true ->
    validation.is_valid (validation.validate_user_data user_data false) = true ->
    validation.v_username
      (validation.data (validation.validate_user_data user_data false))
    = Some username ->
    validation.v_email
      (validation.data (validation.validate_user_data user_data false))
    = Some email ->
    let r := AuthController.create_user hash user_data stamp token salt now st in
    (fst r = None /\
     (snd r = AuthController.emit_error "User Creation Error"
                [Lit "Username already exists"] st \/
      snd r = AuthController.emit_error "User Creation Error"
                [Lit "Email already exists"] st))
    <->
    (exists l u,
        In l (Dict.values (AuthController._users st)) /\
        AuthController.get_user l st = Some u /\
        (User.username u = username \/ User.email u = username \/
         User.username u = email \/ User.email u = email)).
Proof.
  intros hash user_data stamp token salt now st username email
         Hperm Hvalid Hun Hem r. subst r.
  unfold AuthController.create_user. rewrite Hperm, Hvalid, Hun. cbn [negb].
  destruct (AuthController._find_user_by_username_or_email username st)
    as [[l u]|] eqn:F1.
  - split; [intros _ | intros _; split; [reflexivity | now left]].
    apply find_user_sound in F1. destruct F1 as [Hin [Hget Hm]].
    exists l, u. repeat split; try assumption. tauto.
  - rewrite Hem.
    destruct (AuthController._find_user_by_username_or_email email st)
      as [[l u]|] eqn:F2.
    + split; [intros _ | intros _; split; [reflexivity | now right]].
      apply find_user_sound in F2. destruct F2 as [Hin [Hget Hm]].
      exists l, u. repeat split; try assumption. tauto.
    + split.
      * intros [_ Hs]. exfalso.
        destruct (validation.v_password _);
          [|destruct Hs as [Hs|Hs]; differing_trace Hs].
        destruct (validation.v_role _);
          [|destruct Hs as [Hs|Hs]; differing_trace Hs].
        destruct (UserRole_of_value _);
          [|destruct Hs as [Hs|Hs]; differing_trace Hs].
        destruct Hs as [Hs|Hs]; differing_trace Hs.
      * intros [l [u [Hin [Hget Hm]]]]. exfalso.
        pose proof (proj1 (find_user_none _ _ _) F1 l u Hin Hget) as [A1 A2].
        pose proof (proj1 (find_user_none _ _ _) F2 l u Hin Hget) as [B1 B2].
        tauto.
Qed.

Lemma create_user_duplicate_iff_held_by_any_user_witness :
  fst (AuthController.create_user example_hash example_second_bob_data
         "20240102090000" "e5f6a7b8" "88bb" 7000 example_bob_deleted) = None.
Proof.
  apply (fun H1 H2 H3 H4 H5 =>
           proj1 (proj2 (create_user_duplicate_iff_held_by_any_user
                           example_hash example_second_bob_data
                           "20240102090000" "e5f6a7b8" "88bb" 7000
                           example_bob_deleted "bob" "robert@example.org"
                           H1 H2 H3 H4) H5));
    try (vm_compute; reflexivity).
  exists 1%nat, example_bob.
  split; [vm_compute; auto | split; [vm_compute; reflexivity | now left]].
Defined.

(** C6 as stated fails.  The only holder of the user name [bob] has
    been deleted, that is, deactivated; creating a user of that name
    with a fresh e-mail address is refused as a duplicate all the same. *)
Lemma create_user_blocked_by_inactive_user :
  let r := AuthController.create_user example_hash example_second_bob_data
             "20240102090000" "e5f6a7b8" "88bb" 7000 example_bob_deleted in
  directory example_bob_deleted
  = [("admin", "admin@pharmacy.local", true);
     ("bob", "bob@example.org", false)] /\
  validation.is_valid
    (validation.validate_user_data example_second_bob_data false) = true /\
  AuthController.has_permission USER_MANAGE 7000 example_bob_deleted = true /\
  fst r = None /\
  error_messages (AuthController.trace (snd r))
  = [("User Creation Error", [Lit "Username already exists"])].
Proof. vm_compute. repeat split. Qed.

Lemma Store_update_id : forall (A : Type) (h : list A) (l : loc),
    Store.update l (fun a => a) h = h.
Proof.
  induction h as [|a h IH]; intros l; destruct l; simpl; try reflexivity.
  now rewrite IH.
Qed.

Lemma UserRole_of_value_value : forall r,
    UserRole_of_value (UserRole_value r) = Some r.
Proof. destruct r; reflexivity. Qed.

Lemma update_username_true : forall l user_id vd st st1,
    AuthController.update_username l user_id vd st = (true, st1) ->
    same_sessions st st1 /\
    AuthController._users st1 = AuthController._users st /\
    exists f, keeps_id_and_role f /\
              AuthController.user_objects st1
              = Store.update l f (AuthController.user_objects st).
Proof.
  intros l user_id vd st st1. unfold AuthController.update_username.
  assert (Hset : forall v, keeps_id_and_role (User.set_username v))
    by (intros v x; split; reflexivity).
  destruct (validation.v_username vd) as [un|].
  - destruct (AuthController._find_user_by_username_or_email un st)
      as [[l0 eu]|].
    + destruct (negb (String.eqb (User.id eu) user_id)); intros H;
        inversion H; subst.
      repeat split. exists (User.set_username un). now split.
    + intros H; inversion H; subst.
      repeat split. exists (User.set_username un). now split.
  - intros H; inversion H; subst. repeat split.
    exists (fun x => x). split; [intros x; now split|].
    now rewrite Store_update_id.
Qed.

Lemma update_email_true : forall l user_id vd st st1,
    AuthController.update_email l user_id vd st = (true, st1) ->
    same_sessions st st1 /\
    AuthController._users st1 = AuthController._users st /\
    exists f, keeps_id_and_role f /\
              AuthController.user_objects st1
              = Store.update l f (AuthController.user_objects st).
Proof.
  intros l user_id vd st st1. unfold AuthController.update_email.
  assert (Hset : forall v, keeps_id_and_role (User.set_email v))
    by (intros v x; split; reflexivity).
  destruct (validation.v_email vd) as [em|].
  - destruct (AuthController._find_user_by_username_or_email em st)
      as [[l0 eu]|].
    + destruct (negb (String.eqb (User.id eu) user_id)); intros H;
        inversion H; subst.
      repeat split. exists (User.set_email em). now split.
    + intros H; inversion H; subst.
      repeat split. exists (User.set_email em). now split.
  - intros H; inversion H; subst. repeat split.
    exists (fun x => x). split; [intros x; now split|].
    now rewrite Store_update_id.
Qed.

(** ** Permission checks and role changes *)

(** C1, as the code has it.  A permission check made through the
    current session is answered from the role the user object has at
    the time of the check, not from the role stored in the session.
    After [update_user] has given the logged-in user the role [r], the
    session object is unchanged (its [role] field still holds the role
    captured at login), yet every later check made through it is
    answered as for role [r], with no new login. *)
Theorem permission_checks_follow_the_user_role :
  forall (user_id : string) (updated_data : Dict.t pyval) (now : datetime)
         (st : AuthController.t) (lu ls : loc) (s : Session.t) (r : UserRole),
    AuthController.current_user st = Some lu ->
    AuthController.current_session st = Some ls ->
    AuthController.get_session ls st = Some s ->
    Dict.get user_id (AuthController._users st) = Some lu ->
    validation.v_role
      (validation.data (validation.validate_user_data updated_data true))
    = Some (UserRole_value r) ->
    fst (AuthController.update_user user_id updated_data now st) = true ->
    let st' := snd (AuthController.update_user user_id updated_data now st) in
    AuthController.current_session st' = Some ls /\
    AuthController.get_session ls st' = Some s /\
    forall (p : Permission) (t : datetime),
      AuthController.has_permission p t st'
      = Session.is_valid s t && existsb (Permission_eqb p) (User.role_permissions r).
Proof.
  intros user_id updated_data now st lu ls s r Hcu Hcs Hs Hget Hrole.
  unfold AuthController.update_user.
  destruct (AuthController.has_permission USER_MANAGE now st); cbn [negb];
    [|discriminate].
  rewrite Hget.
  destruct (validation.is_valid _); cbn [negb]; [|discriminate].
  destruct (AuthController.update_username lu user_id _ st) as [ok1 st1] eqn:U1.
  destruct ok1; cbn [negb]; [|discriminate].
  destruct (AuthController.update_email lu user_id _ st1) as [ok2 st2] eqn:U2.
  destruct ok2; cbn [negb]; [|discriminate].
  rewrite Hrole, UserRole_of_value_value.
  apply update_username_true in U1.
  destruct U1 as [[C1 [C2 [C3 C4]]] [_ [f1 [K1 O1]]]].
  apply update_email_true in U2.
  destruct U2 as [[D1 [D2 [D3 D4]]] [_ [f2 [K2 O2]]]].
  set (st3 := AuthController.update_user_object lu (User.set_role r) st2).
  set (st4 := match validation.v_is_active _ with
              | Some b => AuthController.update_user_object lu (User.set_is_active b) st3
              | None => st3
              end).
  assert (S4 : same_sessions st st4).
  { unfold same_sessions, st4, st3.
    destruct (validation.v_is_active _); cbn; repeat split; congruence. }
  assert (R4 : forall u, AuthController.get_user lu st4 = Some u -> User.role u = r).
  { intros u. unfold st4, st3, AuthController.get_user.
    destruct (validation.v_is_active _); cbn;
      rewrite ?Store_get_update_same;
      destruct (Store.get lu (AuthController.user_objects st2)); cbn;
      intros H; inversion H; reflexivity. }
  destruct (AuthController.get_user lu st4) as [user|] eqn:G; [|discriminate].
  intros _. cbn [snd].
  destruct S4 as [E1 [E2 [E3 E4]]].
  split; [cbn; congruence|].
  split; [unfold AuthController.get_session in *; cbn; congruence|].
  intros p t. unfold AuthController.has_permission, AuthController.current.
  cbn. rewrite E1, E2, Hcu, Hcs.
  unfold AuthController.get_user, AuthController.get_session in *. cbn.
  rewrite G, E4, Hs.
  unfold User.has_permission, User.get_permissions. rewrite (R4 user eq_refl).
  now destruct (Session.is_valid s t).
Qed.

Lemma permission_checks_follow_the_user_role_witness :
  AuthController.get_session 0%nat
    (snd (AuthController.update_user "admin_001" [("role", PyStr "viewer")]
                                     5000 example_admin_session))
  = Some example_session.
Proof.
  apply (fun H1 H2 H3 H4 H5 H6 =>
           proj1 (proj2 (permission_checks_follow_the_user_role
                           "admin_001" [("role", PyStr "viewer")] 5000
                           example_admin_session 0%nat 0%nat example_session
                           VIEWER H1 H2 H3 H4 H5 H6)));
    vm_compute; reflexivity.
Defined.

(** C1 as stated fails.  The administrator logs in, so the session is
    created with role Admin, and then changes the own role to Viewer.
    The session object still says Admin and is still valid, but the
    permission check made through it is now answered as for a Viewer:
    the check that succeeded before the update is refused after it. *)
Lemma session_role_is_not_consulted :
  AuthController.current_session example_demoted = Some 0%nat /\
  option_map Session.role (AuthController.get_session 0%nat example_demoted)
  = Some ADMIN /\
  option_map (fun s => Session.is_valid s 6000)
             (AuthController.get_session 0%nat example_demoted) = Some true /\
  existsb (Permission_eqb USER_MANAGE) (User.role_permissions ADMIN) = true /\
  AuthController.has_permission USER_MANAGE 6000 example_admin_session = true /\
  AuthController.has_permission USER_MANAGE 6000 example_demoted = false.
Proof. vm_compute. repeat split. Qed.

(** ** The lockout threshold *)

Lemma is_locked_later : forall u t1 t2,
    User.is_locked u t1 = false -> t1 <= t2 -> User.is_locked u t2 = false.
Proof.
  unfold User.is_locked. intros u t1 t2 H Hle.
  destruct (User.locked_until u); [|reflexivity].
  apply Z.ltb_ge in H. apply Z.ltb_ge. lia.
Qed.

Lemma after_failure_fields : forall st now u,
    User.is_active (after_failure st now u) = User.is_active u /\
    User.password_hash (after_failure st now u) = User.password_hash u /\
    User.salt (after_failure st now u) = User.salt u /\
    User.failed_login_attempts (after_failure st now u)
    = User.failed_login_attempts u + 1 /\
    User.locked_until (after_failure st now u)
    = if AuthController.max_login_attempts st <=? User.failed_login_attempts u + 1
      then Some (now + timedelta_minutes
                         (AuthController.lockout_duration_minutes st))
      else User.locked_until u.
Proof.
  intros st now u. unfold after_failure.
  cbn -[Z.add Z.leb timedelta_minutes].
  destruct (AuthController.max_login_attempts st <=? _); repeat split.
Qed.

Section Lockout.

Variable hash : string -> string -> string.
Variable username : string.

Lemma one_wrong_attempt : forall st l u a,
    AuthController._find_user_by_username_or_email username st = Some (l, u) ->
    User.is_active u = true ->
    User.is_locked u (a_time a) = false ->
    wrong_attempt hash username u a ->
    let r := try_login hash username a st in
    fst r = false /\
    AuthController._find_user_by_username_or_email username (snd r)
    = Some (l, after_failure st (a_time a) u) /\
    AuthController.max_login_attempts (snd r)
    = AuthController.max_login_attempts st /\
    AuthController.lockout_duration_minutes (snd r)
    = AuthController.lockout_duration_minutes st /\
    AuthController.session_timeout_hours (snd r)
    = AuthController.session_timeout_hours st.
Proof.
  intros st l u a Hfind Hact Hlock [Hacc Hpw] r. subst r. unfold try_login.
  pose proof (login_wrong_password_lookup hash username _ (a_remember_me a)
                (a_session_id a) _ st l u Hacc Hfind Hact Hlock Hpw) as HF.
  destruct (login_wrong_password hash username _ (a_remember_me a)
              (a_session_id a) _ st l u Hacc Hfind Hact Hlock Hpw)
    as [st' [E [_ [_ [_ [_ [_ [_ [M [D [T _]]]]]]]]]]].
  rewrite E in *. cbn [fst snd] in *. repeat split; assumption.
Qed.

Lemma denied_attempts : forall l u until denied st,
    AuthController._find_user_by_username_or_email username st = Some (l, u) ->
    User.is_active u = true ->
    User.locked_until u = Some until ->
    Forall (fun a => a_time a < until /\
                     login_data_accepted username (a_password a) = true)
           denied ->
    let st' := try_logins hash username denied st in
    AuthController._find_user_by_username_or_email username st' = Some (l, u) /\
    AuthController.session_timeout_hours st'
    = AuthController.session_timeout_hours st.
Proof.
  intros l u until denied. induction denied as [|a denied IH];
    intros st Hfind Hact Hu Hall; [now split|].
  inversion Hall as [|? ? [Ht Hacc] Hall']; subst.
  cbn [try_logins fold_left].
  assert (Hlock : User.is_locked u (a_time a) = true).
  { unfold User.is_locked. rewrite Hu. now apply Z.ltb_lt. }
  pose proof (login_locked hash username _ (a_remember_me a) (a_session_id a)
                           _ st l u Hacc Hfind Hact Hlock) as E.
  fold (try_login hash username a st) in E. rewrite !E.
  cbn [snd].
  match goal with
  | |- context [fold_left _ denied ?s] =>
      destruct (IH s) as [A B]; try assumption
  end.
  split; [exact A | exact B].
Qed.

End Lockout.



(** ** Steps that touch only the users *)

Lemma US_refl : forall st, users_step st st.
Proof.
  intros st. split; [repeat split|]. intros l u H. now exists u.
Qed.

Lemma US_emit : forall st x e,
    users_step st x -> users_step st (AuthController.emit e x).
Proof. intros st x e H. exact H. Qed.

Lemma US_emit_error : forall st x title message,
    users_step st x -> users_step st (AuthController.emit_error title message x).
Proof. intros st x title message H. exact H. Qed.

Lemma US_emit_success : forall st x title message,
    users_step st x -> users_step st (AuthController.emit_success title message x).
Proof. intros st x title message H. exact H. Qed.

Lemma US_emit_data_changed : forall st x operation payload,
    users_step st x ->
    users_step st (AuthController.emit_data_changed operation payload x).
Proof. intros st x operation payload H. exact H. Qed.

Lemma US_failed_with : forall st x what title prefix exc,
    users_step st x ->
    users_step st (AuthController.failed_with what title prefix exc x).
Proof. intros st x what title prefix exc H. exact H. Qed.

Lemma US_set_config : forall st x a b c d e f g,
    users_step st x -> users_step st (AuthController.set_config a b c d e f g x).
Proof. intros st x a b c d e f g H. exact H. Qed.

Lemma US_update : forall st x l f,
    keeps_id f -> users_step st x ->
    users_step st (AuthController.update_user_object l f x).
Proof.
  intros st x l f Hf [Hs Hu]. split; [exact Hs|].
  intros l0 u H. destruct (Hu l0 u H) as [u' [G I]].
  unfold AuthController.get_user in *. cbn.
  rewrite Store_get_update. destruct (Nat.eqb l l0).
  - rewrite G. cbn. exists (f u'). split; [reflexivity|]. now rewrite Hf.
  - now exists u'.
Qed.

Lemma US_alloc : forall st x d u,
    users_step st x ->
    users_step st (AuthController.set_users
                     d (AuthController.user_objects x ++ [u]) x).
Proof.
  intros st x d u [Hs Hu]. split; [exact Hs|].
  intros l0 u0 H. destruct (Hu l0 u0 H) as [u' [G I]].
  exists u'. split; [|assumption].
  unfold AuthController.get_user in *. cbn.
  apply (Store_get_alloc_old _ u u' _ _ G).
Qed.

Lemma Inv_users_step : forall st st', Inv st -> users_step st st' -> Inv st'.
Proof.
  intros st st' [K E B C] [[S1 [S2 [S3 S4]]] U].
  unfold AuthController.get_session in *.
  constructor; unfold AuthController.get_session; rewrite ?S1, ?S2, ?S3, ?S4;
    try assumption.
  intros lu ls H1 H2. destruct (C lu ls H1 H2) as [u [s [G1 [G2 [G3 G4]]]]].
  destruct (U lu u G1) as [u' [G1' I]].
  exists u', s. repeat split; try assumption. congruence.
Qed.

Ltac break_match :=
  match goal with
  | |- context [match ?x with _ => _ end] => destruct x eqn:?
  end.

Ltac users_steps :=
  cbn [fst snd];
  repeat first
    [ apply US_emit | apply US_emit_error | apply US_emit_success
    | apply US_emit_data_changed | apply US_failed_with
    | apply US_set_config
    | apply US_update; [intros ?; reflexivity|]
    | apply US_alloc ];
  try apply US_refl.

Lemma require_permission_users_step : forall p now st,
    users_step st (snd (AuthController.require_permission p now st)).
Proof.
  intros. unfold AuthController.require_permission.
  repeat break_match; users_steps.
Qed.

Lemma change_password_users_step : forall hash cur new salt st,
    users_step st (snd (AuthController.change_password hash cur new salt st)).
Proof.
  intros. unfold AuthController.change_password.
  repeat break_match; users_steps.
Qed.

Lemma reset_failed_login_attempts_users_step : forall username now st,
    users_step st (snd (AuthController.reset_failed_login_attempts username now st)).
Proof.
  intros. unfold AuthController.reset_failed_login_attempts.
  repeat break_match; users_steps.
Qed.

Lemma create_user_users_step : forall hash data stamp token salt now st,
    users_step st (snd (AuthController.create_user hash data stamp token salt now st)).
Proof.
  intros. unfold AuthController.create_user, Store.alloc.
  repeat break_match; users_steps.
Qed.

Lemma do_initialize_users_step : forall hash security secret salt now st,
    users_step st (snd (AuthController._do_initialize hash security secret
                                                      salt now st)).
Proof.
  intros. unfold AuthController._do_initialize, AuthController._load_users,
            Store.alloc.
  repeat break_match; users_steps.
Qed.

Lemma initialize_users_step : forall hash security secret salt now st,
    users_step st (snd (AuthController.initialize hash security secret salt now st)).
Proof.
  intros. unfold AuthController.initialize.
  destruct (AuthController._initialized st); [users_steps|].
  pose proof (do_initialize_users_step hash security secret salt now st) as H.
  destruct (AuthController._do_initialize _ _ _ _ _ _) as [b t].
  cbn [snd] in H. destruct b; users_steps; exact H.
Qed.

Lemma US_trans : forall st1 st2 st3,
    users_step st1 st2 -> users_step st2 st3 -> users_step st1 st3.
Proof.
  intros st1 st2 st3 [[A1 [A2 [A3 A4]]] U1] [[B1 [B2 [B3 B4]]] U2].
  split; [repeat split; congruence|].
  intros l u H. destruct (U1 l u H) as [u' [G I]].
  destruct (U2 l u' G) as [u'' [G' I']]. exists u''. split; congruence.
Qed.

Lemma update_username_users_step : forall l user_id vd st,
    users_step st (snd (AuthController.update_username l user_id vd st)).
Proof.
  intros. unfold AuthController.update_username.
  repeat break_match; users_steps.
Qed.

Lemma update_email_users_step : forall l user_id vd st,
    users_step st (snd (AuthController.update_email l user_id vd st)).
Proof.
  intros. unfold AuthController.update_email.
  repeat break_match; users_steps.
Qed.

Lemma update_user_users_step : forall user_id data now st,
    users_step st (snd (AuthController.update_user user_id data now st)).
Proof.
  intros. unfold AuthController.update_user.
  destruct (negb (AuthController.has_permission USER_MANAGE now st));
    [users_steps|].
  destruct (Dict.get user_id (AuthController._users st)) as [l|]; [|users_steps].
  destruct (negb (validation.is_valid _)); [users_steps|].
  pose proof (update_username_users_step l user_id
                (validation.data (validation.validate_user_data data true)) st)
    as H1.
  destruct (AuthController.update_username _ _ _ _) as [ok1 st1].
  cbn [snd] in H1. destruct ok1; cbn [negb]; [|exact H1].
  pose proof (update_email_users_step l user_id
                (validation.data (validation.validate_user_data data true)) st1)
    as H2.
  destruct (AuthController.update_email _ _ _ _) as [ok2 st2].
  cbn [snd] in H2. pose proof (US_trans _ _ _ H1 H2) as H.
  destruct ok2; cbn [negb]; [|exact H].
  match goal with
  | |- context [match ?x with Some st => _ | None => _ end] =>
      assert (HR : forall t, x = Some t -> users_step st t);
      [ intros t; destruct (validation.v_role _);
        [destruct (UserRole_of_value _)|];
        intros E; inversion E; subst; users_steps; assumption
      | destruct x as [t|]; [specialize (HR t eq_refl)|users_steps; assumption] ]
  end.
  repeat break_match; users_steps; assumption.
Qed.

(** ** The invariant of the session registry *)

Lemma Inv_init : Inv AuthController.init.
Proof.
  constructor; cbn.
  - constructor.
  - intros sid l [].
  - tauto.
  - discriminate.
Qed.

Lemma Inv_cleared : forall st st',
    Inv st ->
    AuthController.current_user st' = None ->
    AuthController.current_session st' = None ->
    AuthController._sessions st' = AuthController._sessions st ->
    AuthController.session_objects st' = AuthController.session_objects st ->
    Inv st'.
Proof.
  intros st st' [K E B C] H1 H2 H3 H4.
  constructor; unfold AuthController.get_session in *;
    rewrite ?H1, ?H2, ?H3, ?H4; try assumption; try tauto; discriminate.
Qed.

Lemma Inv_removed : forall st st' sid l status,
    Inv st ->
    Dict.get sid (AuthController._sessions st) = Some l ->
    status <> ACTIVE ->
    AuthController.current_user st' = AuthController.current_user st ->
    AuthController.current_session st' = AuthController.current_session st ->
    AuthController._sessions st' = Dict.del sid (AuthController._sessions st) ->
    AuthController.session_objects st'
    = Store.update l (Session.set_status status)
                   (AuthController.session_objects st) ->
    AuthController.user_objects st' = AuthController.user_objects st ->
    Inv st'.
Proof.
  intros st st' sid l status [K E B C] Hget Hst H1 H2 H3 H4 H5.
  pose proof (Dict_get_In _ _ _ _ Hget) as Hin.
  destruct (E sid l Hin) as [s1 [G1 [I1 A1]]].
  constructor; unfold AuthController.get_session, AuthController.get_user in *;
    rewrite ?H1, ?H2, ?H3, ?H4, ?H5; try assumption.
  - now apply Dict_NoDup_del.
  - intros k v Hk. unfold Dict.items in *.
    pose proof (Dict_In_del_neq _ _ _ _ _ K Hk) as Hne.
    apply Dict_In_del in Hk. destruct (E k v Hk) as [s0 [G0 [I0 A0]]].
    exists s0. repeat split; try assumption.
    rewrite Store_get_update_other; [assumption|].
    intro; subst v. congruence.
  - intros lu ls Hu Hs. destruct (C lu ls Hu Hs) as [u [s [G2 [G3 [G4 G5]]]]].
    rewrite Store_get_update. destruct (Nat.eqb l ls) eqn:El.
    + rewrite G3. cbn. exists u, (Session.set_status status s).
      repeat split; try assumption. cbn. intros; contradiction.
    + exists u, s. repeat split; try assumption.
      intros Ha. specialize (G5 Ha).
      rewrite Dict_get_del_neq; [assumption|].
      intro Heq. rewrite Heq in G5. rewrite Hget in G5.
      inversion G5; subst. now rewrite Nat.eqb_refl in El.
Qed.

Lemma logout_Inv : forall st, Inv st -> Inv (snd (AuthController.logout st)).
Proof.
  intros st HI. unfold AuthController.logout.
  destruct (AuthController.current st) as [[[lu u] [ls s]]|]; cbn [snd].
  - match goal with
    | |- context [AuthController.set_current None None ?x] =>
        apply (Inv_cleared x); [|reflexivity..]
    end.
    destruct (Dict.get (Session.session_id s) (AuthController._sessions st))
      as [l|] eqn:G; [|assumption].
    apply (Inv_removed st _ (Session.session_id s) l TERMINATED);
      (assumption || discriminate || reflexivity).
  - apply (Inv_users_step st); [assumption | users_steps].
Qed.

Lemma terminate_session_Inv : forall sid now st,
    Inv st -> Inv (snd (AuthController.terminate_session sid now st)).
Proof.
  intros sid now st HI. unfold AuthController.terminate_session.
  destruct (negb (AuthController.has_permission USER_MANAGE now st));
    [apply (Inv_users_step st); [assumption | users_steps]|].
  destruct (Dict.get sid (AuthController._sessions st)) as [l|] eqn:G;
    [|apply (Inv_users_step st); [assumption | users_steps]].
  cbn [snd].
  apply (Inv_removed st _ sid l TERMINATED);
    (assumption || discriminate || reflexivity).
Qed.

Lemma cleanup_Inv : forall st, Inv (AuthController.cleanup st).
Proof.
  intros st. constructor; cbn.
  - constructor.
  - intros sid l [].
  - tauto.
  - discriminate.
Qed.

Lemma handle_session_expiry_Inv : forall st,
    Inv st -> Inv (AuthController._handle_session_expiry st).
Proof.
  intros st HI. unfold AuthController._handle_session_expiry.
  repeat break_match; try assumption.
  apply (Inv_cleared st); (assumption || reflexivity).
Qed.

Lemma expire_one_Inv : forall st sid,
    Inv st -> Inv (AuthController.expire_one st sid).
Proof.
  intros st sid HI. unfold AuthController.expire_one.
  destruct (Dict.get sid (AuthController._sessions st)) as [l|] eqn:G;
    [|assumption].
  cbv zeta.
  repeat break_match; try apply handle_session_expiry_Inv;
    apply (Inv_removed st _ sid l EXPIRED);
    (assumption || discriminate || reflexivity).
Qed.

Lemma check_session_expiry_Inv : forall now st,
    Inv st -> Inv (AuthController._check_session_expiry now st).
Proof.
  intros now st. unfold AuthController._check_session_expiry.
  generalize (AuthController.expired_sessions now st) as ids.
  intros ids. revert st. induction ids as [|sid ids IH]; intros st HI;
    [assumption|].
  cbn [fold_left]. apply IH. now apply expire_one_Inv.
Qed.

Lemma Inv_session_update : forall st l f,
    Inv st ->
    (forall s, Session.session_id (f s) = Session.session_id s /\
               Session.user_id (f s) = Session.user_id s /\
               Session.status (f s) = Session.status s) ->
    Inv (AuthController.update_session_object l f st).
Proof.
  intros st l f [K E B C] Hf.
  constructor; unfold AuthController.get_session, AuthController.get_user in *;
    cbn; try assumption.
  - intros k v Hk. destruct (E k v Hk) as [s [G [I A]]].
    rewrite Store_get_update, G. destruct (Hf s) as [F1 [F2 F3]].
    destruct (Nat.eqb l v); cbn; [exists (f s) | exists s];
      repeat split; congruence.
  - intros lu ls Hu Hs. destruct (C lu ls Hu Hs) as [u [s [G1 [G2 [G3 G4]]]]].
    rewrite Store_get_update, G2. destruct (Hf s) as [F1 [F2 F3]].
    destruct (Nat.eqb l ls); cbn; [exists u, (f s) | exists u, s];
      repeat split; try congruence; try assumption.
    rewrite F1, F3. assumption.
Qed.

Lemma extend_current_session_Inv : forall hours now st,
    Inv st -> Inv (snd (AuthController.extend_current_session hours now st)).
Proof.
  intros hours now st HI. unfold AuthController.extend_current_session.
  destruct (AuthController.current_session st) as [l|]; cbn [snd];
    [|assumption].
  apply Inv_session_update; [assumption|]. intros s. repeat split.
Qed.

Lemma Inv_logged_in : forall st st' sid l u u' new,
    Inv st ->
    Session.session_id new = sid ->
    Session.status new = ACTIVE ->
    Session.user_id new = User.id u ->
    AuthController.get_user l st' = Some u' ->
    User.id u' = User.id u ->
    AuthController.current_user st' = Some l ->
    AuthController.current_session st'
    = Some (List.length (AuthController.session_objects st)) ->
    AuthController._sessions st'
    = Dict.set sid (List.length (AuthController.session_objects st))
               (AuthController._sessions st) ->
    AuthController.session_objects st'
    = AuthController.session_objects st ++ [new] ->
    Inv st'.
Proof.
  intros st st' sid l u u' new [K E B C] N1 N2 N3 G I H1 H2 H3 H4.
  assert (Hnew : Store.get (List.length (AuthController.session_objects st))
                           (AuthController.session_objects st ++ [new])
                 = Some new).
  { unfold Store.get. rewrite nth_error_app2 by lia. now rewrite Nat.sub_diag. }
  constructor; unfold AuthController.get_session in *;
    rewrite ?H1, ?H2, ?H3, ?H4.
  - now apply Dict_NoDup_set.
  - intros k v Hk. apply Dict_In_set in Hk. destruct Hk as [Hk|Hk].
    + inversion Hk; subst. exists new. now repeat split.
    + destruct (E k v Hk) as [s [G0 [I0 A0]]]. exists s.
      repeat split; try assumption.
      apply (Store_get_alloc_old _ new s _ _ G0).
  - split; discriminate.
  - intros lu ls Hu Hs. inversion Hu; inversion Hs; subst.
    exists u', new. repeat split; try assumption; try congruence.
    intros _. apply Dict_get_set_same.
Qed.

Lemma login_Inv : forall hash username password remember_me sid now st,
    Inv st ->
    Inv (snd (AuthController.login hash username password remember_me sid now st)).
Proof.
  intros hash username password remember_me sid now st HI.
  unfold AuthController.login.
  destruct (validation.validate_login_data _) as [r|];
    [|apply (Inv_users_step st); [assumption | users_steps]].
  destruct (negb (validation.is_valid r));
    [apply (Inv_users_step st); [assumption | users_steps]|].
  destruct (AuthController._find_user_by_username_or_email username st)
    as [[l u]|] eqn:F;
    [|apply (Inv_users_step st); [assumption | users_steps]].
  destruct (negb (User.is_active u));
    [apply (Inv_users_step st); [assumption | users_steps]|].
  destruct (User.is_locked u now);
    [apply (Inv_users_step st); [assumption | users_steps]|].
  destruct (negb (AuthController._verify_password _ _ _ _)).
  - apply (Inv_users_step st); [assumption|].
    cbv zeta. repeat break_match; users_steps.
  - apply find_user_sound in F. destruct F as [_ [G _]].
    unfold AuthController._create_session, Store.alloc. cbn [snd].
    eapply (Inv_logged_in st _ sid l u (after_success now u)
                          (Session.new sid (User.id u) (User.username u)
                                       (User.role u) _ now) HI);
      try reflexivity.
    unfold AuthController.get_user. cbn -[Store.get Store.update].
    rewrite Store_get_update_same, G. reflexivity.
Qed.

Lemma Dict_fold_del_In : forall (V : Type) ids k (v : V) (d : Dict.t V),
    In (k, v) (fold_left (fun d sid => Dict.del sid d) ids d) -> In (k, v) d.
Proof.
  induction ids as [|sid ids IH]; cbn; intros k v d H; [assumption|].
  apply IH in H. now apply Dict_In_del in H.
Qed.

Lemma Dict_fold_del_NoDup : forall (V : Type) ids (d : Dict.t V),
    NoDup (Dict.keys d) ->
    NoDup (Dict.keys (fold_left (fun d sid => Dict.del sid d) ids d)).
Proof.
  induction ids as [|sid ids IH]; cbn; intros d H; [assumption|].
  apply IH. now apply Dict_NoDup_del.
Qed.

Lemma Dict_fold_del_get : forall (V : Type) ids k (d : Dict.t V),
    ~ In k ids ->
    Dict.get k (fold_left (fun d sid => Dict.del sid d) ids d) = Dict.get k d.
Proof.
  induction ids as [|sid ids IH]; cbn; intros k d H; [reflexivity|].
  rewrite IH by tauto. apply Dict_get_del_neq. intro; subst. tauto.
Qed.

Lemma drop_sessions_fields : forall ids st,
    let st' :=
      fold_left (fun st sid =>
                   AuthController.set_sessions
                     (Dict.del sid (AuthController._sessions st))
                     (AuthController.session_objects st) st) ids st in
    AuthController.current_user st' = AuthController.current_user st /\
    AuthController.current_session st' = AuthController.current_session st /\
    AuthController.session_objects st' = AuthController.session_objects st /\
    AuthController.user_objects st' = AuthController.user_objects st /\
    AuthController._sessions st'
    = fold_left (fun d sid => Dict.del sid d) ids (AuthController._sessions st).
Proof.
  induction ids as [|sid ids IH]; intros st; [now repeat split|].
  cbn [fold_left]. cbv zeta in IH.
  destruct (IH (AuthController.set_sessions
                  (Dict.del sid (AuthController._sessions st))
                  (AuthController.session_objects st) st))
    as [A [B [C [D E]]]].
  cbv zeta. rewrite A, B, C, D, E. now repeat split.
Qed.

Lemma Inv_dropped : forall st st' ids,
    Inv st ->
    AuthController.current_user st' = AuthController.current_user st ->
    AuthController.current_session st' = AuthController.current_session st ->
    AuthController.session_objects st' = AuthController.session_objects st ->
    AuthController.user_objects st' = AuthController.user_objects st ->
    AuthController._sessions st'
    = fold_left (fun d sid => Dict.del sid d) ids (AuthController._sessions st) ->
    (forall ls s,
        AuthController.current_session st = Some ls ->
        AuthController.get_session ls st = Some s ->
        Session.status s = ACTIVE ->
        ~ In (Session.session_id s) ids) ->
    Inv st'.
Proof.
  intros st st' ids [K E B C] H1 H2 H3 H4 H5 Hkeep.
  constructor; unfold AuthController.get_session, AuthController.get_user in *;
    rewrite ?H1, ?H2, ?H3, ?H4, ?H5; try assumption.
  - now apply Dict_fold_del_NoDup.
  - intros k v Hk. apply Dict_fold_del_In in Hk. now apply E.
  - intros lu ls Hu Hs. destruct (C lu ls Hu Hs) as [u [s [G1 [G2 [G3 G4]]]]].
    exists u, s. repeat split; try assumption.
    intros Ha. rewrite Dict_fold_del_get; [now apply G4|].
    now apply (Hkeep ls s).
Qed.

Lemma delete_user_Inv : forall user_id now st,
    Inv st -> Inv (snd (AuthController.delete_user user_id now st)).
Proof.
  intros user_id now st HI. unfold AuthController.delete_user.
  destruct (negb (AuthController.has_permission USER_MANAGE now st));
    [apply (Inv_users_step st); [assumption | users_steps]|].
  destruct (Dict.get user_id (AuthController._users st)) as [l|];
    [|apply (Inv_users_step st); [assumption | users_steps]].
  match goal with
  | |- context [if ?c then _ else _] => destruct c eqn:Hself
  end; [apply (Inv_users_step st); [assumption | users_steps]|].
  cbv zeta. cbn [snd].
  set (sta := AuthController.update_user_object l (User.set_is_active false) st).
  assert (Ha : Inv sta)
    by (apply (Inv_users_step st); [assumption | unfold sta; users_steps]).
  set (ids := AuthController.sessions_to_remove user_id sta).
  destruct (drop_sessions_fields ids sta) as [A [B [C [D E]]]].
  set (stb := fold_left _ ids sta) in *.
  assert (Hb : Inv stb).
  { apply (Inv_dropped sta stb ids); try assumption.
    intros ls s Hcs Hs Hact Hin.
    destruct Ha as [K Ee Bb Cc].
    destruct (AuthController.current_user sta) as [lu|] eqn:Hcu;
      [|pose proof (proj1 Bb eq_refl); congruence].
    destruct (Cc lu ls eq_refl Hcs) as [u [s' [G1 [G2 [G3 G4]]]]].
    rewrite Hs in G2. inversion G2; subst s'. specialize (G4 Hact).
    unfold ids, AuthController.sessions_to_remove in Hin.
    apply in_map_iff in Hin. destruct Hin as [[k l'] [Hk Hin]].
    cbn in Hk. subst k. apply filter_In in Hin. destruct Hin as [Hin Hf].
    cbn [snd] in Hf.
    apply (Dict_In_get _ _ _ _ K) in Hin. unfold Dict.items in *.
    rewrite G4 in Hin. inversion Hin; subst l'.
    rewrite Hs in Hf. apply String.eqb_eq in Hf.
    (* the current user is not the one deleted *)
    change (AuthController.current_user sta) with (AuthController.current_user st)
      in Hcu.
    rewrite Hcu in Hself.
    unfold sta, AuthController.get_user in G1. cbn in G1.
    rewrite Store_get_update in G1.
    unfold AuthController.get_user in Hself.
    destruct (Store.get lu (AuthController.user_objects st)) as [cu|];
      [|destruct (Nat.eqb l lu); discriminate].
    assert (Hid : User.id u = User.id cu)
      by (destruct (Nat.eqb l lu); cbn in G1; inversion G1; reflexivity).
    apply String.eqb_neq in Hself. congruence. }
  apply (Inv_users_step stb); [assumption | users_steps].
Qed.

Lemma exec_Inv : forall hash c now st, Inv st -> Inv (exec hash c now st).
Proof.
  intros hash c now st HI. destruct c; cbn [exec].
  - apply (Inv_users_step st); [assumption | apply initialize_users_step].
  - now apply login_Inv.
  - now apply logout_Inv.
  - apply (Inv_users_step st); [assumption | apply change_password_users_step].
  - apply (Inv_users_step st); [assumption | apply create_user_users_step].
  - apply (Inv_users_step st); [assumption | apply update_user_users_step].
  - now apply delete_user_Inv.
  - apply (Inv_users_step st); [assumption | apply require_permission_users_step].
  - now apply extend_current_session_Inv.
  - now apply terminate_session_Inv.
  - apply (Inv_users_step st);
      [assumption | apply reset_failed_login_attempts_users_step].
  - now apply check_session_expiry_Inv.
  - apply cleanup_Inv.
Qed.

Lemma reachable_Inv : forall hash st, reachable hash st -> Inv st.
Proof.
  intros hash st H. induction H as [|st c now H IH].
  - apply Inv_init.
  - now apply exec_Inv.
Qed.

(** C9.  In every state the controller can reach, each session stored
    in [_sessions] is an active session object.  Hence a call that
    takes a session out of the active status (logout, termination by
    an administrator, the expiry sweep) leaves it out of [_sessions] in
    the state it returns: no expired or terminated session is ever
    seen in the map. *)
Theorem registry_holds_only_active_sessions :
  forall (hash : string -> string -> string) (st : AuthController.t),
    reachable hash st ->
    (forall sid l,
        In (sid, l) (Dict.items (AuthController._sessions st)) ->
        exists s, AuthController.get_session l st = Some s /\
                  Session.status s = ACTIVE) /\
    (forall (c : Call) (now : datetime) (l : loc) (s s' : Session.t),
        AuthController.get_session l st = Some s ->
        Session.status s = ACTIVE ->
        AuthController.get_session l (exec hash c now st) = Some s' ->
        Session.status s' <> ACTIVE ->
        ~ In l (Dict.values (AuthController._sessions (exec hash c now st)))).
Proof.
  intros hash st Hreach. split.
  - intros sid l Hin. apply reachable_Inv in Hreach.
    destruct (inv_entries st Hreach sid l Hin) as [s [G [_ A]]].
    now exists s.
  - intros c now l s s' _ _ G' Hs' Hin.
    pose proof (reachable_Inv hash _ (reachable_exec hash st c now Hreach)) as HI.
    apply in_map_iff in Hin. destruct Hin as [[sid l0] [Hl Hin]].
    cbn in Hl. subst l0.
    destruct (inv_entries _ HI sid l Hin) as [s0 [G0 [_ A0]]].
    congruence.
Qed.

Lemma registry_holds_only_active_sessions_witness :
  exists s, AuthController.get_session 0%nat example_admin_session = Some s /\
            Session.status s = ACTIVE.
Proof.
  apply (fun H1 H2 =>
           proj1 (registry_holds_only_active_sessions example_hash
                    example_admin_session H1) "sid-1" 0%nat H2).
  - unfold example_admin_session, example_started. repeat constructor.
  - vm_compute. now left.
Defined.

(** ** Sessions that have ended *)

Lemma ESE_refl : forall st, ended_stay_ended st st.
Proof. intros st l s H. now exists s. Qed.

Lemma ESE_trans : forall st1 st2 st3,
    ended_stay_ended st1 st2 -> ended_stay_ended st2 st3 ->
    ended_stay_ended st1 st3.
Proof.
  intros st1 st2 st3 H1 H2 l s G. destruct (H1 l s G) as [s' [G' K']].
  destruct (H2 l s' G') as [s'' [G'' K'']]. exists s''. split; auto.
Qed.

Lemma ESE_same_objects : forall st st',
    AuthController.session_objects st' = AuthController.session_objects st ->
    ended_stay_ended st st'.
Proof.
  intros st st' H l s G. exists s. unfold AuthController.get_session in *.
  rewrite H. auto.
Qed.

Lemma ESE_alloc : forall st st' new,
    AuthController.session_objects st'
    = AuthController.session_objects st ++ [new] ->
    ended_stay_ended st st'.
Proof.
  intros st st' new H l s G. exists s. unfold AuthController.get_session in *.
  rewrite H. split; [|auto]. apply (Store_get_alloc_old _ new s _ _ G).
Qed.

Lemma ESE_update : forall st st' l f,
    keeps_ended f ->
    AuthController.session_objects st'
    = Store.update l f (AuthController.session_objects st) ->
    ended_stay_ended st st'.
Proof.
  intros st st' l f Hf H l0 s G. unfold AuthController.get_session in *.
  rewrite H, Store_get_update, G. destruct (Nat.eqb l l0); cbn.
  - exists (f s). split; [reflexivity | apply Hf].
  - exists s. auto.
Qed.

Lemma keeps_ended_set_status : forall status,
    status <> ACTIVE -> keeps_ended (Session.set_status status).
Proof. intros status H s _. exact H. Qed.

Lemma keeps_ended_extend_session : forall hours now,
    keeps_ended (Session.extend_session hours now).
Proof. intros hours now s H. exact H. Qed.

Lemma ESE_users_step : forall st st', users_step st st' -> ended_stay_ended st st'.
Proof.
  intros st st' [[_ [_ [_ H]]] _]. now apply ESE_same_objects.
Qed.

Ltac ended_steps :=
  cbn [fst snd];
  solve [ apply ESE_refl
        | apply ESE_same_objects; reflexivity
        | eapply ESE_alloc; reflexivity
        | eapply (ESE_update _ _ _ (Session.set_status EXPIRED));
          [apply keeps_ended_set_status; discriminate | reflexivity]
        | eapply (ESE_update _ _ _ (Session.set_status TERMINATED));
          [apply keeps_ended_set_status; discriminate | reflexivity]
        | eapply ESE_update;
          [apply keeps_ended_extend_session | reflexivity] ].

Lemma expire_one_ESE : forall st sid,
    ended_stay_ended st (AuthController.expire_one st sid).
Proof.
  intros st sid. unfold AuthController.expire_one,
                   AuthController._handle_session_expiry.
  cbv zeta. repeat break_match; ended_steps.
Qed.

Lemma check_session_expiry_ESE : forall now st,
    ended_stay_ended st (AuthController._check_session_expiry now st).
Proof.
  intros now st. unfold AuthController._check_session_expiry.
  generalize (AuthController.expired_sessions now st) as ids.
  intros ids. revert st. induction ids as [|sid ids IH]; intros st;
    cbn [fold_left]; [apply ESE_refl|].
  eapply ESE_trans; [apply expire_one_ESE | apply IH].
Qed.

Lemma login_ESE : forall hash username password remember_me sid now st,
    ended_stay_ended st
      (snd (AuthController.login hash username password remember_me sid now st)).
Proof.
  intros. unfold AuthController.login, AuthController._create_session,
            Store.alloc.
  cbv beta iota zeta. repeat break_match; ended_steps.
Qed.

Lemma logout_ESE : forall st,
    ended_stay_ended st (snd (AuthController.logout st)).
Proof.
  intros. unfold AuthController.logout. cbv zeta.
  repeat break_match; ended_steps.
Qed.

Lemma terminate_session_ESE : forall sid now st,
    ended_stay_ended st (snd (AuthController.terminate_session sid now st)).
Proof.
  intros. unfold AuthController.terminate_session. cbv zeta.
  repeat break_match; ended_steps.
Qed.

Lemma extend_current_session_ESE : forall hours now st,
    ended_stay_ended st (snd (AuthController.extend_current_session hours now st)).
Proof.
  intros. unfold AuthController.extend_current_session.
  repeat break_match; ended_steps.
Qed.

Lemma delete_user_ESE : forall user_id now st,
    ended_stay_ended st (snd (AuthController.delete_user user_id now st)).
Proof.
  intros. unfold AuthController.delete_user. cbv zeta.
  repeat break_match; try ended_steps;
    cbn [snd]; apply ESE_same_objects;
    match goal with
    | |- context [fold_left ?f ?ids ?x] =>
        destruct (drop_sessions_fields ids x) as [_ [_ [H _]]]
    end;
    exact H.
Qed.

Lemma exec_ESE : forall hash c now st, ended_stay_ended st (exec hash c now st).
Proof.
  intros hash c now st. destruct c; cbn [exec].
  - apply ESE_users_step, initialize_users_step.
  - apply login_ESE.
  - apply logout_ESE.
  - apply ESE_users_step, change_password_users_step.
  - apply ESE_users_step, create_user_users_step.
  - apply ESE_users_step, update_user_users_step.
  - apply delete_user_ESE.
  - apply ESE_users_step, require_permission_users_step.
  - apply extend_current_session_ESE.
  - apply terminate_session_ESE.
  - apply ESE_users_step, reset_failed_login_attempts_users_step.
  - apply check_session_expiry_ESE.
  - apply ESE_same_objects. reflexivity.
Qed.

Lemma run_ESE : forall hash calls st, ended_stay_ended st (run hash calls st).
Proof.
  intros hash calls. induction calls as [|[c now] calls IH]; intros st;
    cbn [run fold_left fst snd]; [apply ESE_refl|].
  eapply ESE_trans; [apply exec_ESE | apply IH].
Qed.

Lemma reachable_run : forall hash calls st,
    reachable hash st -> reachable hash (run hash calls st).
Proof.
  intros hash calls. induction calls as [|[c now] calls IH]; intros st H;
    cbn [run fold_left fst snd]; [assumption|].
  apply IH. now constructor.
Qed.

Lemma is_valid_ended : forall s t,
    Session.status s <> ACTIVE -> Session.is_valid s t = false.
Proof.
  intros s t H. unfold Session.is_valid.
  destruct (Session.status s); [contradiction | reflexivity..].
Qed.

Lemma logout_without_user : forall st,
    AuthController.current_user st = None ->
    AuthController.logout st
    = (false,
       AuthController.emit_error "Logout Error"
                                 [Lit "No active session to logout"] st).
Proof.
  intros st H. unfold AuthController.logout, AuthController.current.
  now rewrite H.
Qed.

Lemma error_messages_emit_error : forall title message st,
    error_messages (AuthController.trace
                      (AuthController.emit_error title message st))
    = error_messages (AuthController.trace st) ++ [(title, message)].
Proof.
  intros. unfold error_messages. cbn. rewrite !flat_map_app. cbn.
  now rewrite !app_nil_r.
Qed.

(** C7.  In a reachable state whose current session is active, the
    first [logout] returns [True] and leaves the session object with
    status Terminated; a second [logout] right after it returns [False]
    with the error [No active session to logout].  Whatever calls
    follow the first logout, the session object stays where it is with
    a status other than Active, so it is never valid again, it is
    never again an entry of [_sessions], and a permission check made
    through it is refused. *)
Theorem logout_twice :
  forall (hash : string -> string -> string) (st : AuthController.t)
         (lu ls : loc) (u : User.t) (s : Session.t),
    reachable hash st ->
    AuthController.current st = Some (lu, u, (ls, s)) ->
    Session.status s = ACTIVE ->
    let r1 := AuthController.logout st in
    let r2 := AuthController.logout (snd r1) in
    fst r1 = true /\
    fst r2 = false /\
    error_messages (AuthController.trace (snd r2))
    = error_messages (AuthController.trace (snd r1))
      ++ [("Logout Error", [Lit "No active session to logout"])] /\
    option_map Session.status (AuthController.get_session ls (snd r1))
    = Some TERMINATED /\
    forall calls : list (Call * datetime),
      let st' := run hash calls (snd r1) in
      (exists s', AuthController.get_session ls st' = Some s' /\
                  Session.status s' <> ACTIVE /\
                  forall t, Session.is_valid s' t = false) /\
      ~ In ls (Dict.values (AuthController._sessions st')) /\
      (AuthController.current_session st' = Some ls ->
       forall p t, AuthController.has_permission p t st' = false).
Proof.
  intros hash st lu ls u s Hreach Hcur Hact r1 r2.
  pose proof (reachable_Inv hash st Hreach) as HI.
  assert (Hr1 : reachable hash (snd r1))
    by (apply (reachable_exec hash st call_logout 0 Hreach)).
  pose proof Hcur as Hcur'. unfold AuthController.current in Hcur'.
  destruct (AuthController.current_user st) as [lu'|] eqn:Hcu; [|discriminate].
  destruct (AuthController.current_session st) as [ls'|] eqn:Hcs; [|discriminate].
  destruct (AuthController.get_user lu' st) as [u'|] eqn:Gu; [|discriminate].
  destruct (AuthController.get_session ls' st) as [s'|] eqn:Gs; [|discriminate].
  inversion Hcur'; subst lu' u' ls' s'. clear Hcur'.
  destruct (inv_current st HI lu ls Hcu Hcs) as [u0 [s0 [G1 [G2 [_ G4]]]]].
  rewrite Gs in G2. inversion G2; subst s0. specialize (G4 Hact).
  assert (E1 : r1 = AuthController.logout st) by reflexivity.
  unfold AuthController.logout in E1. rewrite Hcur, G4 in E1. cbv zeta in E1.
  assert (Hst : option_map Session.status
                           (AuthController.get_session ls (snd r1))
                = Some TERMINATED).
  { rewrite E1. unfold AuthController.get_session in *.
    cbn -[Store.get Store.update]. now rewrite Store_get_update_same, Gs. }
  assert (E2 : r2 = (false,
                     AuthController.emit_error "Logout Error"
                       [Lit "No active session to logout"] (snd r1))).
  { apply logout_without_user. now rewrite E1. }
  split; [now rewrite E1|]. split; [now rewrite E2|].
  split; [rewrite E2; apply error_messages_emit_error|].
  split; [exact Hst|].
  intros calls st'.
  pose proof (reachable_Inv hash st' (reachable_run hash calls _ Hr1)) as HI'.
  destruct (AuthController.get_session ls (snd r1)) as [s1|] eqn:G1';
    [|discriminate].
  cbn in Hst. inversion Hst as [Hs1].
  destruct (run_ESE hash calls (snd r1) ls s1 G1') as [s' [G' K']].
  assert (Hs' : Session.status s' <> ACTIVE)
    by (apply K'; rewrite Hs1; discriminate).
  split; [|split].
  - exists s'. split; [assumption|]. split; [assumption|].
    intros t. now apply is_valid_ended.
  - intros Hin. apply in_map_iff in Hin. destruct Hin as [[sid l0] [Hl Hin]].
    cbn in Hl. subst l0.
    destruct (inv_entries st' HI' sid ls Hin) as [s2 [G2' [_ A2]]].
    fold st' in G'. congruence.
  - intros Hc p t. unfold AuthController.has_permission, AuthController.current.
    rewrite Hc. fold st' in G'. rewrite G'.
    destruct (AuthController.current_user st') as [lc|]; [|reflexivity].
    destruct (AuthController.get_user lc st'); [|reflexivity].
    now rewrite (is_valid_ended s' t Hs').
Qed.

Lemma logout_twice_witness :
  fst (AuthController.logout example_admin_session) = true.
Proof.
  apply (fun H1 H2 H3 =>
           proj1 (logout_twice example_hash example_admin_session
                    0%nat 0%nat
                    (after_success 1000
                       (AuthController._create_default_admin example_hash
                                                             "5a17" 0))
                    example_session H1 H2 H3)).
  - unfold example_admin_session, example_started. repeat constructor.
  - vm_compute. reflexivity.
  - reflexivity.
Defined.

(** * Further properties of the controller *)

Lemma Dict_In_set_other : forall (V : Type) (k k0 : string) (v v0 : V)
                                 (d : Dict.t V),
    In (k, v) d -> k <> k0 -> In (k, v) (Dict.set k0 v0 d).
Proof.
  induction d as [|[k' v'] d IH]; simpl; intros H Hne; [contradiction|].
  destruct (String.eqb k0 k') eqn:E.
  - apply String.eqb_eq in E; subst k'. destruct H as [H|H].
    + inversion H; subst. congruence.
    + now right.
  - destruct H as [H|H]; [now left | right; now apply IH].
Qed.

(** ** Opening a session *)

Lemma login_success_current :
  forall (hash : string -> string -> string) (username password : string)
         (remember_me : bool) (sid : string) (now : datetime)
         (st : AuthController.t) (l : loc) (u : User.t),
    login_data_accepted username password = true ->
    AuthController._find_user_by_username_or_email username st = Some (l, u) ->
    User.is_active u = true ->
    User.is_locked u now = false ->
    AuthController._verify_password hash password (User.password_hash u)
                                    (User.salt u) = true ->
    AuthController.current
      (snd (AuthController.login hash username password remember_me sid now st))
    = Some (l, after_success now u,
            (List.length (AuthController.session_objects st),
             Session.new sid (User.id u) (User.username u) (User.role u)
                         (session_end st remember_me now) now)).
Proof.
  intros hash username password remember_me sid now st l u
         Hacc Hfind Hact Hlock Hpw.
  destruct (login_success hash username password remember_me sid now st l u
                          Hacc Hfind Hact Hlock Hpw)
    as [st1 [E [Hu [_ [Hs [Hd [Hcu [Hcs _]]]]]]]].
  rewrite E. cbn [snd].
  apply find_user_sound in Hfind. destruct Hfind as [_ [Hget _]].
  unfold AuthController.current, AuthController.get_user,
    AuthController.get_session.
  rewrite Hcu, Hcs, Hu, Hs, Store_get_update_same, Hget.
  unfold Store.get. rewrite nth_error_app2 by lia.
  now rewrite Nat.sub_diag.
Qed.

Lemma has_permission_of_current : forall st lu u ls s p t,
    AuthController.current st = Some (lu, u, (ls, s)) ->
    AuthController.has_permission p t st
    = Session.is_valid s t && User.has_permission u p.
Proof.
  intros st lu u ls s p t H. unfold AuthController.has_permission.
  rewrite H. now destruct (Session.is_valid s t).
Qed.



(** X2.  A login that fails, for whatever reason, leaves the current
    user, the current session, the session registry and the session
    objects as they were. *)
Theorem failed_login_keeps_sessions :
  forall (hash : string -> string -> string) (username password : string)
         (remember_me : bool) (sid : string) (now : datetime)
         (st : AuthController.t),
    fst (AuthController.login hash username password remember_me sid now st)
    = false ->
    same_sessions st
      (snd (AuthController.login hash username password remember_me sid now st)).
Proof.
  intros hash username password remember_me sid now st.
  unfold AuthController.login, AuthController._create_session, Store.alloc.
  cbv beta iota zeta.
  repeat break_match; cbn [fst snd]; intros H; try discriminate H;
    repeat split.
Qed.

Lemma failed_login_keeps_sessions_witness :
  same_sessions example_admin_session
    (snd (AuthController.login example_hash "admin" "wrong-1" false "sid-2"
                               2000 example_admin_session)).
Proof.
  apply (failed_login_keeps_sessions example_hash "admin" "wrong-1" false
           "sid-2" 2000 example_admin_session).
  vm_compute. reflexivity.
Defined.

(** ** First start *)


(** ** Calls that need a permission *)

Lemma emit_error_same_but_trace : forall title message st,
    same_but_trace st (AuthController.emit_error title message st).
Proof. reflexivity. Qed.

Lemma refused_management : forall hash now st,
    AuthController.has_permission USER_MANAGE now st = false ->
    (forall data stamp token salt,
        let r := AuthController.create_user hash data stamp token salt now st in
        fst r = None /\ same_but_trace st (snd r)) /\
    (forall user_id data,
        let r := AuthController.update_user user_id data now st in
        fst r = false /\ same_but_trace st (snd r)) /\
    (forall user_id,
        let r := AuthController.delete_user user_id now st in
        fst r = false /\ same_but_trace st (snd r)) /\
    (forall sid,
        let r := AuthController.terminate_session sid now st in
        fst r = false /\ same_but_trace st (snd r)) /\
    (forall username,
        let r := AuthController.reset_failed_login_attempts username now st in
        fst r = false /\ same_but_trace st (snd r)) /\
    (forall include_inactive,
        AuthController.get_all_users include_inactive now st = []).
Proof.
  intros hash now st H.
  unfold AuthController.create_user, AuthController.update_user,
    AuthController.delete_user, AuthController.terminate_session,
    AuthController.reset_failed_login_attempts, AuthController.get_all_users.
  rewrite H. cbn [negb]. repeat split.
Qed.

Lemma not_authenticated_no_permission : forall p now st,
    AuthController.is_authenticated now st = false ->
    AuthController.has_permission p now st = false.
Proof.
  intros p now st. unfold AuthController.is_authenticated,
                     AuthController.has_permission.
  destruct (AuthController.current st) as [[[lu u] [ls s]]|]; [|reflexivity].
  now intros ->.
Qed.

(** X4.  Without a valid current session (nobody logged in, or the
    current session terminated or past its expiry time, swept or not)
    every permission check is refused, the five calls that manage
    users and sessions fail and change nothing but the trace of
    signals, and the two listings are empty. *)
Theorem calls_without_valid_session_are_refused :
  forall (hash : string -> string -> string) (now : datetime)
         (st : AuthController.t),
    AuthController.is_authenticated now st = false ->
    (forall p, AuthController.has_permission p now st = false) /\
    (forall data stamp token salt,
        let r := AuthController.create_user hash data stamp token salt now st in
        fst r = None /\ same_but_trace st (snd r)) /\
    (forall user_id data,
        let r := AuthController.update_user user_id data now st in
        fst r = false /\ same_but_trace st (snd r)) /\
    (forall user_id,
        let r := AuthController.delete_user user_id now st in
        fst r = false /\ same_but_trace st (snd r)) /\
    (forall sid,
        let r := AuthController.terminate_session sid now st in
        fst r = false /\ same_but_trace st (snd r)) /\
    (forall username,
        let r := AuthController.reset_failed_login_attempts username now st in
        fst r = false /\ same_but_trace st (snd r)) /\
    (forall include_inactive,
        AuthController.get_all_users include_inactive now st = []) /\
    AuthController.get_active_sessions now st = [].
Proof.
  intros hash now st H.
  split; [intros p; now apply not_authenticated_no_permission|].
  pose proof (refused_management hash now st
                (not_authenticated_no_permission USER_MANAGE now st H))
    as [A [B [C [D [E F]]]]].
  repeat (split; [assumption|]).
  unfold AuthController.get_active_sessions.
  now rewrite (not_authenticated_no_permission AUDIT_VIEW now st H).
Qed.

Lemma calls_without_valid_session_are_refused_witness :
  AuthController.has_permission USER_MANAGE 30000000000 example_admin_session
  = false.
Proof.
  apply (fun H =>
           proj1 (calls_without_valid_session_are_refused example_hash
                    30000000000 example_admin_session H) USER_MANAGE).
  vm_compute. reflexivity.
Defined.

(** X5.  Managing users and sessions is reserved to administrators:
    when the user logged in has any other role, the five management
    calls fail and change nothing but the trace of signals, and the
    listings of users and of active sessions are empty. *)
Theorem only_administrators_manage :
  forall (hash : string -> string -> string) (now : datetime)
         (st : AuthController.t) (lu ls : loc) (u : User.t) (s : Session.t),
    AuthController.current st = Some (lu, u, (ls, s)) ->
    User.role u <> ADMIN ->
    (forall data stamp token salt,
        let r := AuthController.create_user hash data stamp token salt now st in
        fst r = None /\ same_but_trace st (snd r)) /\
    (forall user_id data,
        let r := AuthController.update_user user_id data now st in
        fst r = false /\ same_but_trace st (snd r)) /\
    (forall user_id,
        let r := AuthController.delete_user user_id now st in
        fst r = false /\ same_but_trace st (snd r)) /\
    (forall sid,
        let r := AuthController.terminate_session sid now st in
        fst r = false /\ same_but_trace st (snd r)) /\
    (forall username,
        let r := AuthController.reset_failed_login_attempts username now st in
        fst r = false /\ same_but_trace st (snd r)) /\
    (forall include_inactive,
        AuthController.get_all_users include_inactive now st = []) /\
    AuthController.get_active_sessions now st = [].
Proof.
  intros hash now st lu ls u s Hc Hrole.
  assert (HM : AuthController.has_permission USER_MANAGE now st = false).
  { rewrite (has_permission_of_current _ _ _ _ _ USER_MANAGE now Hc).
    unfold User.has_permission, User.get_permissions.
    destruct (User.role u); try contradiction;
      now destruct (Session.is_valid s now). }
  assert (HA : AuthController.has_permission AUDIT_VIEW now st = false).
  { rewrite (has_permission_of_current _ _ _ _ _ AUDIT_VIEW now Hc).
    unfold User.has_permission, User.get_permissions.
    destruct (User.role u); try contradiction;
      now destruct (Session.is_valid s now). }
  pose proof (refused_management hash now st HM) as [A [B [C [D [E F]]]]].
  repeat (split; [assumption|]).
  unfold AuthController.get_active_sessions. now rewrite HA.
Qed.

Lemma only_administrators_manage_witness :
  fst (AuthController.delete_user "admin_001" 9500 example_bob_session) = false.
Proof.
  apply (fun H1 H2 =>
           proj1 (proj1 (proj2 (proj2
             (only_administrators_manage example_hash 9500 example_bob_session
                1%nat 1%nat example_bob_logged_in example_bob_own_session
                H1 H2)))
             "admin_001")).
  - vm_compute. reflexivity.
  - discriminate.
Defined.

(** ** Extending the current session *)



(** ** Changing the password *)

Lemma find_user_after_update : forall identifier f l u st,
    (forall x, User.username (f x) = User.username x /\
               User.email (f x) = User.email x) ->
    AuthController._find_user_by_username_or_email identifier st = Some (l, u) ->
    AuthController._find_user_by_username_or_email
      identifier (AuthController.update_user_object l f st)
    = Some (l, f u).
Proof.
  intros identifier f l u st Hf H.
  unfold AuthController._find_user_by_username_or_email in *.
  cbn -[AuthController.find_user Dict.values].
  rewrite find_user_update by assumption. rewrite H. cbn.
  now rewrite Nat.eqb_refl.
Qed.



(** ** Resetting the failed attempts *)



(** ** Deleting a user *)

Lemma Dict_In_del_other : forall (V : Type) (k k0 : string) (v : V)
                                 (d : Dict.t V),
    In (k, v) d -> k <> k0 -> In (k, v) (Dict.del k0 d).
Proof.
  induction d as [|[k' v'] d IH]; simpl; intros H Hne; [contradiction|].
  destruct (String.eqb k0 k') eqn:E.
  - apply String.eqb_eq in E; subst k'. destruct H as [H|H]; [|assumption].
    inversion H; subst. congruence.
  - destruct H as [H|H]; [now left | right; now apply IH].
Qed.

Lemma Dict_fold_del_iff : forall (V : Type) ids k (v : V) (d : Dict.t V),
    NoDup (Dict.keys d) ->
    (In (k, v) (fold_left (fun d sid => Dict.del sid d) ids d) <->
     In (k, v) d /\ ~ In k ids).
Proof.
  induction ids as [|sid ids IH]; cbn; intros k v d ND; [tauto|].
  rewrite IH by now apply Dict_NoDup_del. split.
  - intros [H Hn]. pose proof (Dict_In_del_neq _ _ _ _ _ ND H) as Hne.
    apply Dict_In_del in H. split; [assumption|]. intros [E|E]; congruence.
  - intros [H Hn]. split; [|tauto]. apply Dict_In_del_other; [assumption|].
    intro; subst. tauto.
Qed.

Lemma drop_sessions_users : forall ids st,
    AuthController._users
      (fold_left (fun st sid =>
                    AuthController.set_sessions
                      (Dict.del sid (AuthController._sessions st))
                      (AuthController.session_objects st) st) ids st)
    = AuthController._users st.
Proof.
  induction ids as [|sid ids IH]; intros st; [reflexivity|].
  cbn [fold_left]. now rewrite IH.
Qed.

Lemma error_messages_emit_login_failed : forall username reason st,
    error_messages (AuthController.trace
                      (AuthController.emit (login_failed username reason) st))
    = error_messages (AuthController.trace st).
Proof.
  intros. unfold error_messages. cbn. rewrite flat_map_app. cbn.
  now rewrite app_nil_r.
Qed.

(** X9.  In a reachable state, when an administrator deletes another
    user, the call returns [True]; the user object stays in place and
    is only marked inactive, no other user object changes; exactly the
    registered sessions of that user leave the registry, all others
    stay; and from then on a login that resolves to that user is
    refused with the message [Account is inactive], whatever the
    password. *)
Theorem delete_user_deactivates_and_drops_sessions :
  forall (hash : string -> string -> string) (user_id : string)
         (now : datetime) (st : AuthController.t) (l : loc) (u : User.t),
    reachable hash st ->
    AuthController.has_permission USER_MANAGE now st = true ->
    Dict.get user_id (AuthController._users st) = Some l ->
    AuthController.get_user l st = Some u ->
    (forall lc cu, AuthController.current_user st = Some lc ->
                   AuthController.get_user lc st = Some cu ->
                   User.id cu <> user_id) ->
    let r := AuthController.delete_user user_id now st in
    fst r = true /\
    AuthController.get_user l (snd r) = Some (User.set_is_active false u) /\
    (forall l', l' <> l ->
                AuthController.get_user l' (snd r) = AuthController.get_user l' st) /\
    (forall k v,
        In (k, v) (Dict.items (AuthController._sessions (snd r))) <->
        In (k, v) (Dict.items (AuthController._sessions st)) /\
        forall s, AuthController.get_session v st = Some s ->
                  Session.user_id s <> user_id) /\
    (forall username password remember_me sid t,
        login_data_accepted username password = true ->
        AuthController._find_user_by_username_or_email username st
        = Some (l, u) ->
        let r' := AuthController.login hash username password remember_me
                                       sid t (snd r) in
        fst r' = false /\
        error_messages (AuthController.trace (snd r'))
        = error_messages (AuthController.trace (snd r))
          ++ [("Login Failed", [Lit "Account is inactive"])]).
Proof.
  intros hash user_id now st l u Hreach Hperm Hget Hu Hself r.
  pose proof (reachable_Inv hash st Hreach) as HI.
  assert (Hnot : match AuthController.current_user st with
                 | Some lc =>
                     match AuthController.get_user lc st with
                     | Some cu => String.eqb user_id (User.id cu)
                     | None => false
                     end
                 | None => false
                 end = false).
  { destruct (AuthController.current_user st) as [lc|] eqn:Hc; [|reflexivity].
    destruct (AuthController.get_user lc st) as [cu|] eqn:Hg; [|reflexivity].
    apply String.eqb_neq. intro E. apply (Hself lc cu eq_refl Hg). congruence. }
  subst r. unfold AuthController.delete_user.
  rewrite Hperm, Hget. cbn [negb]. rewrite Hnot. cbv zeta. cbn [fst snd].
  set (sta := AuthController.update_user_object l (User.set_is_active false) st).
  set (ids := AuthController.sessions_to_remove user_id sta).
  destruct (drop_sessions_fields ids sta) as [A [B [C [D E]]]].
  pose proof (drop_sessions_users ids sta) as U.
  remember (fold_left _ ids sta) as stb eqn:Hstb. clear Hstb.
  unfold AuthController.get_user, AuthController.get_session,
    AuthController._find_user_by_username_or_email, Dict.items in *.
  cbn [AuthController.user_objects AuthController._sessions
       AuthController._users AuthController.session_objects
       AuthController.trace
       AuthController.emit AuthController.emit_success
       AuthController.emit_data_changed].
  rewrite D, E.
  change (AuthController.user_objects sta)
    with (Store.update l (User.set_is_active false)
                       (AuthController.user_objects st)).
  change (AuthController._sessions sta) with (AuthController._sessions st).
  split; [reflexivity|].
  split; [now rewrite Store_get_update_same, Hu|].
  split; [intros l' Hne; apply Store_get_update_other; congruence|].
  split.
  - intros k v. rewrite Dict_fold_del_iff by apply (inv_keys st HI).
    split; intros [Hin Hn]; (split; [assumption|]).
    + intros s Hs Huid. apply Hn. unfold ids, AuthController.sessions_to_remove.
      apply in_map_iff. exists (k, v). split; [reflexivity|].
      apply filter_In. split; [exact Hin|]. cbn [snd].
      change (AuthController.get_session v sta) with
        (Store.get v (AuthController.session_objects st)).
      rewrite Hs. now apply String.eqb_eq.
    + intros Hk. unfold ids, AuthController.sessions_to_remove in Hk.
      apply in_map_iff in Hk. destruct Hk as [[k' v'] [Ek Hk]].
      cbn in Ek. subst k'. apply filter_In in Hk. destruct Hk as [Hin' Hf].
      cbn [snd] in Hf.
      change (AuthController.get_session v' sta) with
        (Store.get v' (AuthController.session_objects st)) in Hf.
      pose proof (Dict_In_get _ _ _ _ (inv_keys st HI) Hin) as G1.
      pose proof (Dict_In_get _ _ _ _ (inv_keys st HI) Hin') as G2.
      rewrite G1 in G2. inversion G2; subst v'.
      destruct (Store.get v (AuthController.session_objects st)) as [s|] eqn:Gs;
        [|discriminate].
      apply String.eqb_eq in Hf. exact (Hn s eq_refl Hf).
  - intros username password remember_me sid t Hacc Hfind.
    match goal with
    | |- context [AuthController.login _ _ _ _ _ _ ?x] => set (stf := x)
    end.
    assert (F : AuthController._find_user_by_username_or_email username stf
                = Some (l, User.set_is_active false u)).
    { unfold AuthController._find_user_by_username_or_email, stf.
      cbn [AuthController.user_objects AuthController._users
           AuthController.emit AuthController.emit_success
           AuthController.emit_data_changed].
      rewrite D, U.
      change (AuthController.user_objects sta)
        with (Store.update l (User.set_is_active false)
                           (AuthController.user_objects st)).
      change (AuthController._users sta) with (AuthController._users st).
      rewrite find_user_update by (intros x; now split).
      rewrite Hfind. cbn. now rewrite Nat.eqb_refl. }
    rewrite (login_inactive hash username password remember_me sid t stf l _
                            Hacc F eq_refl).
    cbn [fst snd]. split; [reflexivity|].
    rewrite error_messages_emit_error, error_messages_emit_login_failed.
    reflexivity.
Qed.

Lemma delete_user_deactivates_and_drops_sessions_witness :
  fst (AuthController.delete_user "user_20240101120000_a1b2c3d4" 6000
                                  example_with_bob) = true.
Proof.
  apply (fun H1 H2 H3 H4 H5 =>
           proj1 (delete_user_deactivates_and_drops_sessions example_hash
                    "user_20240101120000_a1b2c3d4" 6000 example_with_bob
                    1%nat (User.set_is_active true example_bob)
                    H1 H2 H3 H4 H5)).
  - unfold example_with_bob, example_admin_session, example_started.
    repeat constructor.
  - vm_compute. reflexivity.
  - vm_compute. reflexivity.
  - vm_compute. reflexivity.
  - intros lc cu H1 H2. vm_compute in H1. inversion H1; subst lc.
    vm_compute in H2. inversion H2; subst cu. vm_compute. discriminate.
Defined.

(** ** Updating a user *)

Lemma find_user_update_elsewhere : forall identifier f objs l l2 o ls,
    AuthController.find_user identifier objs ls = Some (l2, o) ->
    l2 <> l ->
    (forall x, Store.get l objs = Some x ->
               String.eqb (User.username x) identifier
               || String.eqb (User.email x) identifier = false ->
               String.eqb (User.username (f x)) identifier
               || String.eqb (User.email (f x)) identifier = false) ->
    AuthController.find_user identifier (Store.update l f objs) ls
    = Some (l2, o).
Proof.
  intros identifier f objs l l2 o ls H Hne Hf. induction ls as [|l0 ls IH];
    [discriminate|].
  cbn [AuthController.find_user] in *. rewrite Store_get_update.
  destruct (Nat.eqb l l0) eqn:E.
  - apply Nat.eqb_eq in E; subst l0.
    destruct (Store.get l objs) as [x|] eqn:G; cbn [option_map];
      [|now apply IH].
    destruct (String.eqb (User.username x) identifier
              || String.eqb (User.email x) identifier) eqn:M.
    + inversion H; subst. congruence.
    + rewrite (Hf x eq_refl M). now apply IH.
  - destruct (Store.get l0 objs) as [x|]; [|now apply IH].
    destruct (String.eqb (User.username x) identifier
              || String.eqb (User.email x) identifier); [assumption|].
    now apply IH.
Qed.

(** X10.  [update_user] is not all-or-nothing.  When the update data
    carry a new user name that is free and a new e-mail address that
    belongs to another user, the call returns [False] with the error
    [Email already exists], and the user name has been changed all
    the same. *)
Theorem update_user_keeps_username_when_email_is_taken :
  forall (user_id : string) (updated_data : Dict.t pyval) (now : datetime)
         (st : AuthController.t) (l l2 : loc) (u other : User.t)
         (username email : string),
    AuthController.has_permission USER_MANAGE now st = true ->
    Dict.get user_id (AuthController._users st) = Some l ->
    AuthController.get_user l st = Some u ->
    validation.is_valid (validation.validate_user_data updated_data true)
    = true ->
    validation.v_username
      (validation.data (validation.validate_user_data updated_data true))
    = Some username ->
    validation.v_email
      (validation.data (validation.validate_user_data updated_data true))
    = Some email ->
    username <> email ->
    AuthController._find_user_by_username_or_email username st = None ->
    AuthController._find_user_by_username_or_email email st = Some (l2, other) ->
    l2 <> l ->
    User.id other <> user_id ->
    let r := AuthController.update_user user_id updated_data now st in
    fst r = false /\
    AuthController.get_user l (snd r) = Some (User.set_username username u) /\
    error_messages (AuthController.trace (snd r))
    = error_messages (AuthController.trace st)
      ++ [("Update Error", [Lit "Email already exists"])].
Proof.
  intros user_id updated_data now st l l2 u other username email
         Hperm Hget Hu Hvalid Hun Hem Hne F1 F2 Hl Hid r.
  subst r. unfold AuthController.update_user.
  rewrite Hperm, Hget, Hvalid. cbn [negb].
  unfold AuthController.update_username. rewrite Hun, F1. cbn [negb].
  unfold AuthController.update_email. rewrite Hem.
  assert (F : AuthController._find_user_by_username_or_email
                email (AuthController.update_user_object
                         l (User.set_username username) st)
              = Some (l2, other)).
  { unfold AuthController._find_user_by_username_or_email in *.
    cbn -[AuthController.find_user Dict.values].
    apply find_user_update_elsewhere; [assumption | assumption|].
    intros x _ M. cbn. apply orb_false_iff in M. destruct M as [_ M].
    rewrite M. apply String.eqb_neq in Hne. now rewrite Hne. }
  rewrite F. apply String.eqb_neq in Hid. rewrite Hid. cbn [negb fst snd].
  split; [reflexivity|]. split.
  - unfold AuthController.get_user in *. cbn -[Store.get Store.update].
    now rewrite Store_get_update_same, Hu.
  - now rewrite error_messages_emit_error.
Qed.

Lemma update_user_keeps_username_when_email_is_taken_witness :
  fst (AuthController.update_user
         "user_20240101120000_a1b2c3d4"
         [("username", PyStr "robert"); ("email", PyStr "admin@pharmacy.local")]
         6000 example_with_bob) = false.
Proof.
  apply (fun H1 H2 H3 H4 H5 H6 H7 H8 H9 H10 H11 =>
           proj1 (update_user_keeps_username_when_email_is_taken
                    "user_20240101120000_a1b2c3d4"
                    [("username", PyStr "robert");
                     ("email", PyStr "admin@pharmacy.local")]
                    6000 example_with_bob 1%nat 0%nat
                    (User.set_is_active true example_bob)
                    (after_success 1000
                       (AuthController._create_default_admin example_hash
                                                             "5a17" 0))
                    "robert" "admin@pharmacy.local"
                    H1 H2 H3 H4 H5 H6 H7 H8 H9 H10 H11));
    try (vm_compute; reflexivity); try discriminate.
Defined.

(** ** The expiry sweep *)

Lemma Dict_del_absent : forall (V : Type) (k : string) (d : Dict.t V),
    Dict.get k d = None -> Dict.del k d = d.
Proof.
  induction d as [|[k' v'] d IH]; simpl; intros H; [reflexivity|].
  destruct (String.eqb k k'); [discriminate|]. now rewrite IH.
Qed.

Lemma expire_one_sessions : forall st sid,
    AuthController._sessions (AuthController.expire_one st sid)
    = Dict.del sid (AuthController._sessions st).
Proof.
  intros st sid. unfold AuthController.expire_one,
                   AuthController._handle_session_expiry.
  destruct (Dict.get sid (AuthController._sessions st)) eqn:G;
    [|now rewrite Dict_del_absent].
  cbv zeta. repeat break_match; reflexivity.
Qed.

Lemma expire_one_session_objects : forall st sid,
    AuthController.session_objects (AuthController.expire_one st sid)
    = match Dict.get sid (AuthController._sessions st) with
      | Some l => Store.update l (Session.set_status EXPIRED)
                               (AuthController.session_objects st)
      | None => AuthController.session_objects st
      end.
Proof.
  intros st sid. unfold AuthController.expire_one,
                   AuthController._handle_session_expiry.
  destruct (Dict.get sid (AuthController._sessions st)) eqn:G; [|reflexivity].
  cbv zeta. repeat break_match; reflexivity.
Qed.

Lemma expire_many_sessions : forall ids st,
    AuthController._sessions (fold_left AuthController.expire_one ids st)
    = fold_left (fun d sid => Dict.del sid d) ids (AuthController._sessions st).
Proof.
  induction ids as [|sid ids IH]; intros st; [reflexivity|].
  cbn [fold_left]. now rewrite IH, expire_one_sessions.
Qed.

Lemma expire_one_keeps_registered : forall st sid k v,
    Inv st ->
    In (k, v) (AuthController._sessions (AuthController.expire_one st sid)) ->
    AuthController.get_session v (AuthController.expire_one st sid)
    = AuthController.get_session v st.
Proof.
  intros st sid k v HI Hin. rewrite expire_one_sessions in Hin.
  unfold AuthController.get_session. rewrite expire_one_session_objects.
  destruct (Dict.get sid (AuthController._sessions st)) as [l|] eqn:G;
    [|reflexivity].
  apply Store_get_update_other. intro; subst v.
  pose proof (Dict_In_del_neq _ _ _ _ _ (inv_keys st HI) Hin) as Hne.
  apply Dict_In_del in Hin.
  destruct (inv_entries st HI k l Hin) as [s1 [G1 [I1 _]]].
  destruct (inv_entries st HI sid l (Dict_get_In _ _ _ _ G)) as [s2 [G2 [I2 _]]].
  congruence.
Qed.

Lemma expire_many_keeps_registered : forall ids st k v,
    Inv st ->
    In (k, v) (AuthController._sessions
                 (fold_left AuthController.expire_one ids st)) ->
    AuthController.get_session v (fold_left AuthController.expire_one ids st)
    = AuthController.get_session v st.
Proof.
  induction ids as [|sid ids IH]; intros st k v HI Hin; [reflexivity|].
  cbn [fold_left] in *.
  rewrite (IH _ k v (expire_one_Inv st sid HI) Hin).
  apply (expire_one_keeps_registered st sid k); [assumption|].
  rewrite expire_many_sessions in Hin. now apply Dict_fold_del_In in Hin.
Qed.

(** X11.  In a reachable state, the expiry sweep run at time [now]
    leaves in the registry exactly the sessions that are valid at
    [now], each with its session object unchanged: after the sweep
    every registered session is valid. *)
Theorem sweep_keeps_exactly_the_valid_sessions :
  forall (hash : string -> string -> string) (now : datetime)
         (st : AuthController.t),
    reachable hash st ->
    let st' := AuthController._check_session_expiry now st in
    (forall k v,
        In (k, v) (Dict.items (AuthController._sessions st')) <->
        In (k, v) (Dict.items (AuthController._sessions st)) /\
        exists s, AuthController.get_session v st = Some s /\
                  Session.is_valid s now = true) /\
    (forall k v,
        In (k, v) (Dict.items (AuthController._sessions st')) ->
        exists s, AuthController.get_session v st' = Some s /\
                  AuthController.get_session v st = Some s /\
                  Session.is_valid s now = true).
Proof.
  intros hash now st Hreach st'.
  pose proof (reachable_Inv hash st Hreach) as HI.
  assert (Hiff : forall k v,
             In (k, v) (AuthController._sessions st') <->
             In (k, v) (AuthController._sessions st) /\
             exists s, AuthController.get_session v st = Some s /\
                       Session.is_valid s now = true).
  { intros k v. unfold st', AuthController._check_session_expiry.
    rewrite expire_many_sessions.
    rewrite Dict_fold_del_iff by apply (inv_keys st HI).
    unfold AuthController.expired_sessions, Dict.items. split.
    - intros [Hin Hn]. split; [assumption|].
      destruct (inv_entries st HI k v Hin) as [s [G _]]. exists s.
      split; [assumption|].
      destruct (Session.is_valid s now) eqn:V; [reflexivity|].
      exfalso. apply Hn. apply in_map_iff. exists (k, v).
      split; [reflexivity|]. apply filter_In. split; [assumption|].
      cbn [snd]. now rewrite G, V.
    - intros [Hin [s [G V]]]. split; [assumption|]. intros Hk.
      apply in_map_iff in Hk. destruct Hk as [[k' v'] [Ek Hk]].
      cbn in Ek. subst k'. apply filter_In in Hk. destruct Hk as [Hin' Hf].
      cbn [snd] in Hf.
      pose proof (Dict_In_get _ _ _ _ (inv_keys st HI) Hin) as G1.
      pose proof (Dict_In_get _ _ _ _ (inv_keys st HI) Hin') as G2.
      rewrite G1 in G2. inversion G2; subst v'.
      rewrite G, V in Hf. discriminate. }
  split; [exact Hiff|].
  intros k v Hin. destruct (proj1 (Hiff k v) Hin) as [_ [s [G V]]].
  exists s. repeat split; try assumption.
  unfold st', AuthController._check_session_expiry in *.
  now rewrite (expire_many_keeps_registered _ st k v HI Hin).
Qed.

Lemma sweep_keeps_exactly_the_valid_sessions_witness :
  In ("sid-1", 0%nat)
     (Dict.items (AuthController._sessions
                    (AuthController._check_session_expiry
                       5000 example_admin_session))) <->
  In ("sid-1", 0%nat)
     (Dict.items (AuthController._sessions example_admin_session)) /\
  exists s, AuthController.get_session 0%nat example_admin_session = Some s /\
            Session.is_valid s 5000 = true.
Proof.
  apply (fun H =>
           proj1 (sweep_keeps_exactly_the_valid_sessions example_hash 5000
                    example_admin_session H) "sid-1" 0%nat).
  unfold example_admin_session, example_started. repeat constructor.
Defined.

Lemma expire_one_no_current : forall st sid,
    AuthController.current_user st = None ->
    AuthController.current_session st = None ->
    AuthController.current_user (AuthController.expire_one st sid) = None /\
    AuthController.current_session (AuthController.expire_one st sid) = None.
Proof.
  intros st sid Hu Hs. unfold AuthController.expire_one.
  destruct (Dict.get sid (AuthController._sessions st)); [|now split].
  cbv zeta.
  change (AuthController.current_session
            (AuthController.emit (session_expired sid)
               (AuthController.update_session_object l
                  (Session.set_status EXPIRED)
                  (AuthController.set_sessions
                     (Dict.del sid (AuthController._sessions st))
                     (AuthController.session_objects st) st))))
    with (AuthController.current_session st).
  rewrite Hs. now split.
Qed.

Lemma expire_many_no_current : forall ids st,
    AuthController.current_user st = None ->
    AuthController.current_session st = None ->
    AuthController.current_user (fold_left AuthController.expire_one ids st)
    = None /\
    AuthController.current_session (fold_left AuthController.expire_one ids st)
    = None.
Proof.
  induction ids as [|sid ids IH]; intros st Hu Hs; [now split|].
  cbn [fold_left]. destruct (expire_one_no_current st sid Hu Hs).
  now apply IH.
Qed.

Lemma expire_one_current : forall st sid lu ls u s,
    Inv st ->
    AuthController.current st = Some (lu, u, (ls, s)) ->
    Session.status s = ACTIVE ->
    if String.eqb (Session.session_id s) sid then
      AuthController.current_user (AuthController.expire_one st sid) = None /\
      AuthController.current_session (AuthController.expire_one st sid) = None
    else
      AuthController.current (AuthController.expire_one st sid)
      = Some (lu, u, (ls, s)).
Proof.
  intros st sid lu ls u s HI Hc Hact.
  unfold AuthController.current in Hc.
  destruct (AuthController.current_user st) as [lu'|] eqn:Hcu; [|discriminate].
  destruct (AuthController.current_session st) as [ls'|] eqn:Hcs; [|discriminate].
  destruct (AuthController.get_user lu' st) as [u'|] eqn:Gu; [|discriminate].
  destruct (AuthController.get_session ls' st) as [s'|] eqn:Gs; [|discriminate].
  inversion Hc; subst lu' u' ls' s'. clear Hc.
  destruct (inv_current st HI lu ls Hcu Hcs) as [u0 [s0 [_ [G2 [_ G4]]]]].
  rewrite Gs in G2. inversion G2; subst s0. specialize (G4 Hact).
  unfold AuthController.expire_one.
  destruct (String.eqb (Session.session_id s) sid) eqn:E.
  - apply String.eqb_eq in E. subst sid. rewrite G4. cbv zeta.
    set (st1 := AuthController.emit _ _).
    assert (C1 : AuthController.current_session st1 = Some ls) by exact Hcs.
    assert (G1 : AuthController.get_session ls st1
                 = Some (Session.set_status EXPIRED s)).
    { unfold st1, AuthController.get_session in *.
      cbn -[Store.get Store.update]. now rewrite Store_get_update_same, Gs. }
    rewrite C1, G1. cbn [Session.session_id Session.set_status].
    rewrite String.eqb_refl. unfold AuthController._handle_session_expiry.
    assert (C2 : AuthController.current_user st1 = Some lu) by exact Hcu.
    assert (G3 : AuthController.get_user lu st1 = Some u) by exact Gu.
    rewrite C2, G3. now split.
  - destruct (Dict.get sid (AuthController._sessions st)) as [l|] eqn:G.
    + cbv zeta. set (st1 := AuthController.emit _ _).
      assert (Hl : l <> ls).
      { intro; subst l.
        destruct (inv_entries st HI sid ls (Dict_get_In _ _ _ _ G))
          as [s1 [G1 [I1 _]]].
        rewrite Gs in G1. inversion G1; subst s1.
        rewrite I1, String.eqb_refl in E. discriminate. }
      assert (C1 : AuthController.current_session st1 = Some ls) by exact Hcs.
      assert (G1 : AuthController.get_session ls st1 = Some s).
      { unfold st1, AuthController.get_session in *.
        cbn -[Store.get Store.update].
        now rewrite Store_get_update_other. }
      rewrite C1, G1, E. unfold AuthController.current.
      assert (C2 : AuthController.current_user st1 = Some lu) by exact Hcu.
      assert (G3 : AuthController.get_user lu st1 = Some u) by exact Gu.
      now rewrite C2, C1, G3, G1.
    + unfold AuthController.current. now rewrite Hcu, Hcs, Gu, Gs.
Qed.

Lemma expire_many_current : forall ids st lu ls u s,
    Inv st ->
    AuthController.current st = Some (lu, u, (ls, s)) ->
    Session.status s = ACTIVE ->
    In (Session.session_id s) ids ->
    AuthController.current_user (fold_left AuthController.expire_one ids st)
    = None /\
    AuthController.current_session (fold_left AuthController.expire_one ids st)
    = None.
Proof.
  induction ids as [|sid ids IH]; intros st lu ls u s HI Hc Hact Hin;
    [contradiction|].
  cbn [fold_left].
  pose proof (expire_one_current st sid lu ls u s HI Hc Hact) as H.
  destruct (String.eqb (Session.session_id s) sid) eqn:E.
  - destruct H as [H1 H2]. now apply expire_many_no_current.
  - apply (IH _ lu ls u s); try assumption.
    + now apply expire_one_Inv.
    + destruct Hin as [Hin|Hin]; [|assumption].
      subst sid. now rewrite String.eqb_refl in E.
Qed.

(** X12.  In a reachable state whose current session is registered as
    active but past its expiry time, the sweep logs the user out: after
    it there is no current user and no current session, the session
    has left the registry, and the controller is authenticated at no
    time. *)
Theorem sweep_logs_out_an_expired_current_session :
  forall (hash : string -> string -> string) (now : datetime)
         (st : AuthController.t) (lu ls : loc) (u : User.t) (s : Session.t),
    reachable hash st ->
    AuthController.current st = Some (lu, u, (ls, s)) ->
    Session.status s = ACTIVE ->
    Session.expires_at s <= now ->
    let st' := AuthController._check_session_expiry now st in
    AuthController.current_user st' = None /\
    AuthController.current_session st' = None /\
    ~ In ls (Dict.values (AuthController._sessions st')) /\
    forall t, AuthController.is_authenticated t st' = false.
Proof.
  intros hash now st lu ls u s Hreach Hc Hact Hexp st'.
  pose proof (reachable_Inv hash st Hreach) as HI.
  pose proof Hc as Hc'. unfold AuthController.current in Hc'.
  destruct (AuthController.current_user st) as [lu'|] eqn:Hcu; [|discriminate].
  destruct (AuthController.current_session st) as [ls'|] eqn:Hcs; [|discriminate].
  destruct (AuthController.get_user lu' st) as [u'|] eqn:Gu; [|discriminate].
  destruct (AuthController.get_session ls' st) as [s'|] eqn:Gs; [|discriminate].
  inversion Hc'; subst lu' u' ls' s'. clear Hc'.
  destruct (inv_current st HI lu ls Hcu Hcs) as [u0 [s0 [_ [G2 [_ G4]]]]].
  rewrite Gs in G2. inversion G2; subst s0. specialize (G4 Hact).
  assert (Hinv : Session.is_valid s now = false).
  { unfold Session.is_valid. rewrite Hact. cbn. now apply Z.ltb_ge. }
  assert (Hin : In (Session.session_id s)
                   (AuthController.expired_sessions now st)).
  { unfold AuthController.expired_sessions. apply in_map_iff.
    exists (Session.session_id s, ls). split; [reflexivity|].
    apply filter_In. split; [now apply Dict_get_In|].
    cbn [snd]. now rewrite Gs, Hinv. }
  destruct (expire_many_current _ st lu ls u s HI Hc Hact Hin) as [H1 H2].
  fold (AuthController._check_session_expiry now st) in H1, H2.
  fold st' in H1, H2.
  split; [assumption|]. split; [assumption|]. split.
  - intros Hv. apply in_map_iff in Hv. destruct Hv as [[k v] [Ev Hv]].
    cbn in Ev. subst v. unfold st', AuthController._check_session_expiry in Hv.
    rewrite expire_many_sessions in Hv.
    apply (Dict_fold_del_iff _ _ _ _ _ (inv_keys st HI)) in Hv.
    destruct Hv as [Hk Hn].
    destruct (inv_entries st HI k ls Hk) as [s1 [G1 [I1 _]]].
    rewrite Gs in G1. inversion G1; subst s1. subst k. contradiction.
  - intros t. unfold AuthController.is_authenticated, AuthController.current.
    now rewrite H1.
Qed.

Lemma sweep_logs_out_an_expired_current_session_witness :
  AuthController.current_user
    (AuthController._check_session_expiry 30000000000 example_admin_session)
  = None.
Proof.
  apply (fun H1 H2 H3 H4 =>
           proj1 (sweep_logs_out_an_expired_current_session example_hash
                    30000000000 example_admin_session 0%nat 0%nat
                    (after_success 1000
                       (AuthController._create_default_admin example_hash
                                                             "5a17" 0))
                    example_session H1 H2 H3 H4)).
  - unfold example_admin_session, example_started. repeat constructor.
  - vm_compute. reflexivity.
  - reflexivity.
  - vm_compute. discriminate.
Defined.

(** ** The validators *)

Lemma list_of_string_length : forall s,
    List.length (list_ascii_of_string s) = String.length s.
Proof. induction s as [|c s IH]; cbn; [reflexivity | now rewrite IH]. Qed.

Lemma Text_len_list : forall l,
    Text.len (string_of_list_ascii l) = Z.of_nat (List.length l).
Proof.
  intros l. unfold Text.len.
  now rewrite <- list_of_string_length, list_ascii_of_string_of_list_ascii.
Qed.

Lemma Text_take_len : forall m s, 0 <= m -> Text.len (Text.take m s) <= m.
Proof.
  intros m s Hm. unfold Text.take. rewrite Text_len_list.
  pose proof (firstn_le_length (Z.to_nat m) (list_ascii_of_string s)). lia.
Qed.

Lemma Text_take_chars : forall m s c,
    In c (list_ascii_of_string (Text.take m s)) ->
    In c (list_ascii_of_string s).
Proof.
  intros m s c. unfold Text.take.
  rewrite list_ascii_of_string_of_list_ascii. intros H.
  rewrite <- (firstn_skipn (Z.to_nat m) (list_ascii_of_string s)).
  apply in_or_app. now left.
Qed.

Lemma Text_remove_chars : forall f s c,
    In c (list_ascii_of_string (Text.remove f s)) ->
    f c = false /\ In c (list_ascii_of_string s).
Proof.
  intros f s c. unfold Text.remove.
  rewrite list_ascii_of_string_of_list_ascii. intros H.
  apply filter_In in H. destruct H as [H1 H2]. split; [|assumption].
  now destruct (f c).
Qed.

Lemma In_lstrip : forall c l, In c (Text.lstrip l) -> In c l.
Proof.
  induction l as [|a l IH]; cbn; [tauto|].
  destruct (Text.is_space a); [intros H; right; now apply IH | tauto].
Qed.

Lemma Text_strip_chars : forall s c,
    In c (list_ascii_of_string (Text.strip s)) ->
    In c (list_ascii_of_string s).
Proof.
  intros s c. unfold Text.strip.
  rewrite list_ascii_of_string_of_list_ascii. intros H.
  apply in_rev in H. apply In_lstrip in H. apply in_rev in H.
  now apply In_lstrip in H.
Qed.

(** X13.  [sanitize_input] gives a string made of characters of its
    argument, none of them one of the control characters it removes,
    and of at most [max_length] characters when a positive maximum is
    given; what is not a string gives the empty string. *)
Theorem sanitize_input_output :
  forall (text : pyval) (max_length : option Z),
    (forall m, max_length = Some m -> 0 <= m) ->
    let out := validators.sanitize_input text max_length in
    (forall c, In c (list_ascii_of_string out) -> Text.is_control c = false) /\
    (forall s c, text = PyStr s -> In c (list_ascii_of_string out) ->
                 In c (list_ascii_of_string s)) /\
    (forall m, max_length = Some m -> 0 < m -> Text.len out <= m) /\
    ((forall s, text <> PyStr s) -> out = "").
Proof.
  intros text max_length Hm out. subst out.
  assert (K : forall s c,
             In c (list_ascii_of_string
                     (validators.sanitize_input (PyStr s) max_length)) ->
             Text.is_control c = false /\ In c (list_ascii_of_string s)).
  { intros s c H. cbn [validators.sanitize_input] in H.
    assert (R : forall c,
               In c (list_ascii_of_string
                       (Text.remove Text.is_control (Text.strip s))) ->
               Text.is_control c = false /\ In c (list_ascii_of_string s)).
    { intros c0 H0. apply Text_remove_chars in H0. destruct H0 as [H1 H2].
      split; [assumption | now apply Text_strip_chars]. }
    destruct max_length as [m|]; [|now apply R].
    destruct (negb (m =? 0)
              && (m <? Text.len (Text.remove Text.is_control (Text.strip s))));
      [|now apply R].
    apply Text_take_chars in H. now apply R. }
  split; [|split; [|split]].
  - intros c H. destruct text; try (cbn in H; contradiction).
    now apply (K _ _ H).
  - intros s c E H. subst text. now apply (K _ _ H).
  - intros m E Hpos. subst max_length.
    destruct text; try (cbn; unfold Text.len; cbn; lia).
    cbn [validators.sanitize_input].
    destruct (m <? Text.len (Text.remove Text.is_control (Text.strip s)))
      eqn:L.
    + replace (negb (m =? 0)) with true
        by (symmetry; apply negb_true_iff; apply Z.eqb_neq; lia).
      cbn [andb]. apply Text_take_len. lia.
    + rewrite andb_false_r. now apply Z.ltb_ge.
  - intros H. destruct text; try reflexivity. now destruct (H s).
Qed.

Lemma sanitize_input_output_witness :
  Text.len (validators.sanitize_input (PyStr "  pharmacist-in-charge  ")
                                      (Some 10)) <= 10.
Proof.
  apply (fun H =>
           proj1 (proj2 (proj2 (sanitize_input_output
                                  (PyStr "  pharmacist-in-charge  ")
                                  (Some 10) H))) 10 eq_refl).
  - intros m E. inversion E. lia.
  - lia.
Defined.

Lemma filter_split_length : forall (A : Type) (f : A -> bool) (l : list A),
    (List.length (filter f l)
     + List.length (filter (fun x => negb (f x)) l))%nat = List.length l.
Proof.
  induction l as [|a l IH]; cbn; [reflexivity|].
  destruct (f a); cbn; lia.
Qed.

Lemma checks_met_and_missed : forall (checks : list (bool * fstring)),
    List.length checks = 5%nat ->
    Z.of_nat (List.length (filter fst checks))
    + Z.of_nat (List.length
                  (map snd (filter (fun c => negb (fst c)) checks))) = 5 /\
    ((3 <=? Z.of_nat (List.length (filter fst checks))) = true <->
     (List.length (map snd (filter (fun c => negb (fst c)) checks)) <= 2)%nat).
Proof.
  intros checks Lc. rewrite length_map.
  pose proof (filter_split_length _ fst checks) as L.
  rewrite Z.leb_le. lia.
Qed.

(** X14.  For a non-empty password, [validate_password] counts the
    requirements met out of five and lists one suggestion for each
    requirement missed; the password is valid exactly when at most two
    suggestions are listed.  The minimum length is one requirement
    among the five: a password with an upper-case letter, a lower-case
    letter and a digit is valid whatever [min_length] is. *)
Theorem validate_password_counts_requirements :
  forall (pw : string) (min_length : Z),
    pw <> "" ->
    let r := validators.validate_password (PyStr pw) min_length in
    validators.score r
    + Z.of_nat (List.length (validators.suggestions r)) = 5 /\
    (validators.is_valid r = true <->
     (List.length (validators.suggestions r) <= 2)%nat) /\
    (Text.search Text.is_upper pw = true ->
     Text.search Text.is_lower pw = true ->
     Text.search Text.is_digit pw = true ->
     validators.is_valid r = true).
Proof.
  intros pw min_length Hne r. subst r.
  unfold validators.validate_password.
  destruct (String.eqb pw "") eqn:E;
    [apply String.eqb_eq in E; contradiction|].
  cbv zeta. cbn [validators.score validators.suggestions validators.is_valid].
  match goal with
  | |- context [filter fst ?c] =>
      destruct (checks_met_and_missed c eq_refl) as [H1 H2]
  end.
  split; [exact H1|]. split; [exact H2|].
  intros U Lo D. rewrite U, Lo, D. cbn [filter fst].
  destruct (min_length <=? Text.len pw);
    destruct (Text.search (Text.one_of validators.special_characters) pw);
    reflexivity.
Qed.

Lemma validate_password_counts_requirements_witness :
  validators.is_valid (validators.validate_password (PyStr "Ab1") 8) = true.
Proof.
  apply (fun H =>
           proj2 (proj2 (validate_password_counts_requirements "Ab1" 8 H))).
  - discriminate.
  - reflexivity.
  - reflexivity.
  - reflexivity.
Defined.

(** ** The user-name pattern *)

Lemma accepts_seq_void : forall s l, Re.accepts (Re.Seq Re.Void s) l = false.
Proof. intros s l. induction l as [|c l IH]; [reflexivity | exact IH]. Qed.

Lemma accepts_alt : forall l a b,
    Re.accepts (Re.Alt a b) l = Re.accepts a l || Re.accepts b l.
Proof.
  induction l as [|c l IH]; intros a b; [reflexivity|].
  cbn [Re.accepts Re.deriv]. apply IH.
Qed.

Lemma accepts_star_cls : forall f l,
    Re.accepts (Re.Seq Re.Eps (Re.Star (Re.Cls f))) l = forallb f l.
Proof.
  intros f. induction l as [|c l IH]; [reflexivity|].
  cbn [Re.accepts Re.deriv Re.nullable forallb].
  rewrite accepts_alt, accepts_seq_void. cbn [orb].
  destruct (f c); [exact IH | apply accepts_seq_void].
Qed.

Lemma accepts_plus_cls : forall f l,
    Re.accepts (Re.Plus (Re.Cls f)) l
    = match l with [] => false | _ :: _ => forallb f l end.
Proof.
  intros f [|c l]; [reflexivity|].
  unfold Re.Plus. cbn [Re.accepts Re.deriv Re.nullable forallb].
  destruct (f c); [apply accepts_star_cls | apply accepts_seq_void].
Qed.

Lemma validated_username : forall d is_update,
    validation.v_username
      (validation.data (validation.validate_user_data d is_update))
    = match validation.present "username" d with
      | Some v =>
          let username := validation._sanitize_string v 50 in
          if (3 <=? Text.len username) && (Text.len username <=? 50)
             && Re.fullmatch validation.username_pattern username
          then Some username else None
      | None => None
      end.
Proof.
  intros d is_update. unfold validation.validate_user_data.
  cbv zeta.
  set (ms0 := if negb is_update then _ else _). clearbody ms0.
  destruct (validation.present "username" d) as [v|].
  - unfold validation._validate_length.
    set (username := validation._sanitize_string v 50).
    replace (Text.len username <? 3) with (negb (3 <=? Text.len username))
      by (destruct (Z.leb_spec 3 (Text.len username));
          destruct (Z.ltb_spec (Text.len username) 3); cbn; lia || reflexivity).
    replace (50 <? Text.len username) with (negb (Text.len username <=? 50))
      by (destruct (Z.leb_spec (Text.len username) 50);
          destruct (Z.ltb_spec 50 (Text.len username)); cbn; lia || reflexivity).
    cbn [Z.eqb negb andb].
    destruct (3 <=? Text.len username); cbn [negb andb];
      [destruct (Text.len username <=? 50); cbn [negb andb];
       [destruct (Re.fullmatch validation.username_pattern username)|]|];
      repeat break_match; reflexivity.
  - repeat break_match; reflexivity.
Qed.

(** X15.  A user name that passes [validate_user_data] has between 3
    and 50 characters, all of them letters, digits, hyphens or
    underscores, except that one line feed may follow them at the
    end. *)
Theorem validated_username_characters :
  forall (d : Dict.t pyval) (is_update : bool) (name : string),
    validation.v_username
      (validation.data (validation.validate_user_data d is_update))
    = Some name ->
    3 <= Text.len name <= 50 /\
    exists body : list ascii,
      body <> [] /\
      (list_ascii_of_string name = body \/
       list_ascii_of_string name = body ++ ["010"%char]) /\
      forall c, In c body ->
                Text.is_alnum c || Text.one_of "_-" c = true.
Proof.
  intros d is_update name H. rewrite validated_username in H.
  destruct (validation.present "username" d) as [v|]; [|discriminate].
  cbv zeta in H.
  destruct (3 <=? Text.len (validation._sanitize_string v 50)) eqn:L1;
    [|discriminate].
  destruct (Text.len (validation._sanitize_string v 50) <=? 50) eqn:L2;
    [|discriminate].
  destruct (Re.fullmatch validation.username_pattern
                         (validation._sanitize_string v 50)) eqn:M;
    [|discriminate].
  cbn [andb] in H. inversion H; subst name. clear H.
  apply Z.leb_le in L1, L2. split; [lia|].
  unfold Re.fullmatch, validation.username_pattern in M.
  set (l := list_ascii_of_string (validation._sanitize_string v 50)) in *.
  clearbody l. apply orb_true_iff in M. destruct M as [M|M].
  - rewrite accepts_plus_cls in M. destruct l as [|c l]; [discriminate|].
    exists (c :: l). split; [discriminate|]. split; [now left|].
    intros x Hx. rewrite forallb_forall in M. now apply M.
  - destruct (rev l) as [|c l'] eqn:R; [discriminate|].
    apply andb_true_iff in M. destruct M as [Mc M].
    apply Ascii.eqb_eq in Mc. subst c.
    rewrite accepts_plus_cls in M.
    assert (El : l = rev l' ++ ["010"%char]).
    { rewrite <- (rev_involutive l), R. reflexivity. }
    destruct (rev l') as [|c b]; [discriminate|].
    exists (c :: b). split; [discriminate|]. split; [now right|].
    intros x Hx. rewrite forallb_forall in M. now apply M.
Qed.

Lemma validated_username_characters_witness :
  3 <= Text.len "bob" <= 50.
Proof.
  apply (fun H =>
           proj1 (validated_username_characters example_bob_data false
                    "bob" H)).
  vm_compute. reflexivity.
Defined.

(** ** A created user can log in *)

Lemma find_user_alloc : forall identifier user objs ls,
    AuthController.find_user identifier objs ls = None ->
    User.username user = identifier ->
    In (List.length objs) ls ->
    AuthController.find_user identifier (objs ++ [user]) ls
    = Some (List.length objs, user).
Proof.
  intros identifier user objs. induction ls as [|l ls IH]; intros Hn Hu Hin;
    [contradiction|].
  cbn [AuthController.find_user] in *. unfold Store.get in *.
  destruct (nth_error objs l) as [u|] eqn:G.
  - assert (Hl : (l < List.length objs)%nat)
      by (apply nth_error_Some; congruence).
    rewrite nth_error_app1, G by assumption.
    destruct (String.eqb (User.username u) identifier
              || String.eqb (User.email u) identifier); [discriminate|].
    apply IH; try assumption. destruct Hin as [Hin|Hin]; [lia | assumption].
  - apply nth_error_None in G.
    destruct (Nat.eq_dec l (List.length objs)) as [E|E].
    + subst l. rewrite nth_error_app2, Nat.sub_diag by lia. cbn [nth_error].
      rewrite Hu, String.eqb_refl. reflexivity.
    + replace (nth_error (objs ++ [user]) l) with (@None User.t).
      * apply IH; try assumption. destruct Hin as [Hin|Hin]; [congruence|assumption].
      * symmetry. apply nth_error_None. rewrite length_app. cbn. lia.
Qed.

Lemma Dict_values_set : forall (V : Type) (k : string) (v : V) (d : Dict.t V),
    In v (Dict.values (Dict.set k v d)).
Proof.
  intros V k v d. unfold Dict.values. apply in_map_iff.
  exists (k, v). split; [reflexivity|].
  apply Dict_get_In, Dict_get_set_same.
Qed.

Lemma Dict_values_old : forall (V : Type) (k : string) (v v0 : V)
                               (d : Dict.t V),
    In v (Dict.values (Dict.set k v0 d)) -> In v (Dict.values d) \/ v = v0.
Proof.
  intros V k v v0 d H. unfold Dict.values in *. apply in_map_iff in H.
  destruct H as [[k1 v1] [E H]]. cbn in E. subst v1.
  apply Dict_In_set in H. destruct H as [H|H].
  - right. congruence.
  - left. apply in_map_iff. now exists (k1, v).
Qed.

Lemma UserRole_value_of_value : forall s r,
    UserRole_of_value s = Some r -> UserRole_value r = s.
Proof.
  intros s r H. unfold UserRole_of_value in H. apply find_some in H.
  now apply String.eqb_eq.
Qed.



(** ** The directory of users *)

Lemma map_idents_update : forall (f : User.t -> User.t) l objs,
    (forall u, idents (f u) = idents u) ->
    map idents (Store.update l f objs) = map idents objs.
Proof.
  intros f l objs Hf. revert l.
  induction objs as [|a objs IH]; intros [|l]; cbn; try reflexivity.
  - now rewrite Hf.
  - now rewrite IH.
Qed.

Lemma SD_refl : forall st, same_directory st st.
Proof. intros st. split; reflexivity. Qed.

Lemma SD_trans : forall st1 st2 st3,
    same_directory st1 st2 -> same_directory st2 st3 -> same_directory st1 st3.
Proof.
  intros st1 st2 st3 [A1 A2] [B1 B2]. split; congruence.
Qed.

Lemma SD_sym : forall st st', same_directory st st' -> same_directory st' st.
Proof. intros st st' [A B]. split; congruence. Qed.

Lemma SD_get : forall st st' l u',
    same_directory st st' ->
    AuthController.get_user l st' = Some u' ->
    exists u, AuthController.get_user l st = Some u /\ idents u = idents u'.
Proof.
  intros st st' l u' [_ H] G. unfold AuthController.get_user, Store.get in *.
  apply (f_equal (fun m => nth_error m l)) in H.
  rewrite !nth_error_map, G in H. cbn in H.
  destruct (nth_error (AuthController.user_objects st) l) as [u|];
    [|discriminate].
  exists u. split; [reflexivity|]. cbn in H. congruence.
Qed.

Lemma holds_idents : forall x u u',
    idents u = idents u' -> holds x u -> holds x u'.
Proof.
  intros x u u' E H. unfold idents in E. inversion E. unfold holds in *.
  congruence.
Qed.

Lemma Directory_same : forall st st',
    Directory st -> same_directory st st' -> Directory st'.
Proof.
  intros st st' D S. pose proof S as [S1 S2]. constructor.
  - rewrite S1. apply (dir_keys st D).
  - intros k l Hin. rewrite S1 in Hin.
    destruct (dir_entries st D k l Hin) as [u [G I]].
    destruct (SD_get st' st l u (SD_sym _ _ S) G) as [u' [G' E]].
    exists u'. split; [assumption|]. unfold idents in E. inversion E.
    congruence.
  - intros l1 l2 u1 u2 x H1 H2 G1 G2 X1 X2. rewrite S1 in H1, H2.
    destruct (SD_get st st' l1 u1 S G1) as [v1 [K1 E1]].
    destruct (SD_get st st' l2 u2 S G2) as [v2 [K2 E2]].
    apply (dir_unique st D l1 l2 v1 v2 x); try assumption.
    + now apply (holds_idents x u1 v1).
    + now apply (holds_idents x u2 v2).
Qed.

Ltac directory_steps :=
  cbn [fst snd];
  solve [ apply SD_refl
        | split; [reflexivity|];
          cbn -[Store.update];
          rewrite ?map_idents_update by (intros ?; reflexivity);
          reflexivity ].

Lemma expire_one_same_directory : forall st sid,
    same_directory st (AuthController.expire_one st sid).
Proof.
  intros st sid. unfold AuthController.expire_one,
                   AuthController._handle_session_expiry.
  cbv zeta. repeat break_match; directory_steps.
Qed.

Lemma check_session_expiry_same_directory : forall now st,
    same_directory st (AuthController._check_session_expiry now st).
Proof.
  intros now st. unfold AuthController._check_session_expiry.
  generalize (AuthController.expired_sessions now st) as ids.
  intros ids. revert st. induction ids as [|sid ids IH]; intros st;
    cbn [fold_left]; [apply SD_refl|].
  eapply SD_trans; [apply expire_one_same_directory | apply IH].
Qed.

Lemma login_same_directory :
  forall hash username password remember_me sid now st,
    same_directory st
      (snd (AuthController.login hash username password remember_me sid now st)).
Proof.
  intros. unfold AuthController.login, AuthController._create_session,
            Store.alloc.
  cbv beta iota zeta. repeat break_match; directory_steps.
Qed.

Lemma logout_same_directory : forall st,
    same_directory st (snd (AuthController.logout st)).
Proof.
  intros. unfold AuthController.logout. cbv zeta.
  repeat break_match; directory_steps.
Qed.

Lemma change_password_same_directory : forall hash cur new salt st,
    same_directory st
      (snd (AuthController.change_password hash cur new salt st)).
Proof.
  intros. unfold AuthController.change_password. cbv zeta.
  repeat break_match; directory_steps.
Qed.

Lemma require_permission_same_directory : forall p now st,
    same_directory st (snd (AuthController.require_permission p now st)).
Proof.
  intros. unfold AuthController.require_permission.
  repeat break_match; directory_steps.
Qed.

Lemma extend_current_session_same_directory : forall hours now st,
    same_directory st
      (snd (AuthController.extend_current_session hours now st)).
Proof.
  intros. unfold AuthController.extend_current_session.
  repeat break_match; directory_steps.
Qed.

Lemma terminate_session_same_directory : forall sid now st,
    same_directory st (snd (AuthController.terminate_session sid now st)).
Proof.
  intros. unfold AuthController.terminate_session. cbv zeta.
  repeat break_match; directory_steps.
Qed.

Lemma reset_failed_login_attempts_same_directory : forall username now st,
    same_directory st
      (snd (AuthController.reset_failed_login_attempts username now st)).
Proof.
  intros. unfold AuthController.reset_failed_login_attempts. cbv zeta.
  repeat break_match; directory_steps.
Qed.

Lemma delete_user_same_directory : forall user_id now st,
    same_directory st (snd (AuthController.delete_user user_id now st)).
Proof.
  intros. unfold AuthController.delete_user. cbv zeta.
  repeat break_match; try directory_steps;
    cbn [snd];
    match goal with
    | |- context [fold_left ?f ?ids ?x] =>
        pose proof (drop_sessions_users ids x) as H1;
        destruct (drop_sessions_fields ids x) as [_ [_ [_ [H2 _]]]];
        split;
        [ change (AuthController._users (fold_left f ids x)
                  = AuthController._users st);
          rewrite H1; reflexivity
        | change (map idents (AuthController.user_objects (fold_left f ids x))
                  = map idents (AuthController.user_objects st));
          rewrite H2; cbn -[Store.update];
          rewrite map_idents_update by (intros ?; reflexivity); reflexivity ]
    end.
Qed.

Lemma Dict_values_items : forall (V : Type) (v : V) (d : Dict.t V),
    In v (Dict.values d) <-> exists k, In (k, v) (Dict.items d).
Proof.
  intros V v d. unfold Dict.values, Dict.items. rewrite in_map_iff. split.
  - intros [[k v'] [E H]]. cbn in E. subst v'. now exists k.
  - intros [k H]. now exists (k, v).
Qed.

Lemma Directory_entry_loc : forall st k l l' u,
    Directory st ->
    Dict.get k (AuthController._users st) = Some l ->
    In l' (Dict.values (AuthController._users st)) ->
    AuthController.get_user l' st = Some u ->
    User.id u = k ->
    l' = l.
Proof.
  intros st k l l' u D G Hin Gu Hid.
  apply Dict_values_items in Hin. destruct Hin as [k' Hin].
  destruct (dir_entries st D k' l' Hin) as [u' [Gu' Hid']].
  rewrite Gu in Gu'. inversion Gu'; subst u'.
  assert (k' = k) by congruence. subst k'.
  apply (Dict_In_get _ _ _ _ (dir_keys st D)) in Hin. congruence.
Qed.

(** Giving the user at [l] an identifier [x] that no other entry
    holds. *)
Lemma Directory_assign : forall st l f x,
    Directory st ->
    (forall u, User.id (f u) = User.id u) ->
    (forall u y, holds y (f u) -> y = x \/ holds y u) ->
    (forall l2 u2, In l2 (Dict.values (AuthController._users st)) ->
                   AuthController.get_user l2 st = Some u2 ->
                   holds x u2 -> l2 = l) ->
    Directory (AuthController.update_user_object l f st).
Proof.
  intros st l f x D Hid Hf Hx. constructor.
  - apply (dir_keys st D).
  - intros k l0 Hin.
    change (In (k, l0) (Dict.items (AuthController._users st))) in Hin.
    destruct (dir_entries st D k l0 Hin) as [u [G I]].
    unfold AuthController.get_user in *. cbn -[Store.update Store.get].
    rewrite Store_get_update, G.
    destruct (Nat.eqb l l0); cbn; eexists; split; try reflexivity.
    + now rewrite Hid.
    + assumption.
  - intros l1 l2 u1 u2 y H1 H2 G1 G2 X1 X2.
    change (In l1 (Dict.values (AuthController._users st))) in H1.
    change (In l2 (Dict.values (AuthController._users st))) in H2.
    unfold AuthController.get_user in *.
    cbn -[Store.update Store.get] in G1, G2.
    rewrite Store_get_update in G1, G2.
    destruct (Nat.eqb l l1) eqn:E1; destruct (Nat.eqb l l2) eqn:E2.
    + apply Nat.eqb_eq in E1, E2. congruence.
    + apply Nat.eqb_eq in E1. subst l1.
      destruct (Store.get l (AuthController.user_objects st)) as [v1|] eqn:K1;
        [|discriminate].
      cbn in G1. inversion G1; subst u1.
      destruct (Hf _ _ X1) as [Ey|Hy].
      * subst y. symmetry. now apply (Hx l2 u2).
      * now apply (dir_unique st D l l2 v1 u2 y).
    + apply Nat.eqb_eq in E2. subst l2.
      destruct (Store.get l (AuthController.user_objects st)) as [v2|] eqn:K2;
        [|discriminate].
      cbn in G2. inversion G2; subst u2.
      destruct (Hf _ _ X2) as [Ey|Hy].
      * subst y. now apply (Hx l1 u1).
      * now apply (dir_unique st D l1 l v1 v2 y) || now apply (dir_unique st D l1 l u1 v2 y).
    + now apply (dir_unique st D l1 l2 u1 u2 y).
Qed.

Lemma found_is_entry : forall st k l x l' u',
    Directory st ->
    Dict.get k (AuthController._users st) = Some l ->
    AuthController._find_user_by_username_or_email x st = Some (l', u') ->
    User.id u' = k ->
    forall l2 u2, In l2 (Dict.values (AuthController._users st)) ->
                  AuthController.get_user l2 st = Some u2 ->
                  holds x u2 -> l2 = l.
Proof.
  intros st k l x l' u' D G F Hid l2 u2 Hin G2 X2.
  apply find_user_sound in F. destruct F as [Hin' [G' X']].
  assert (l' = l) by now apply (Directory_entry_loc st k l l' u').
  subst l'. now apply (dir_unique st D l2 l u2 u' x).
Qed.

Lemma not_found_no_holder : forall st x,
    AuthController._find_user_by_username_or_email x st = None ->
    forall l2 u2, In l2 (Dict.values (AuthController._users st)) ->
                  AuthController.get_user l2 st = Some u2 ->
                  ~ holds x u2.
Proof.
  intros st x F l2 u2 Hin G2 X2.
  unfold AuthController._find_user_by_username_or_email in F.
  rewrite find_user_none in F. destruct (F l2 u2 Hin G2) as [A B].
  destruct X2; contradiction.
Qed.

Lemma holds_set_username : forall x u y,
    holds y (User.set_username x u) -> y = x \/ holds y u.
Proof.
  intros x u y [H|H]; cbn in H; [left; congruence | right; now right].
Qed.

Lemma holds_set_email : forall x u y,
    holds y (User.set_email x u) -> y = x \/ holds y u.
Proof.
  intros x u y [H|H]; cbn in H; [right; now left | left; congruence].
Qed.

Lemma update_username_Directory : forall l user_id vd st,
    Directory st ->
    Dict.get user_id (AuthController._users st) = Some l ->
    Directory (snd (AuthController.update_username l user_id vd st)) /\
    AuthController._users (snd (AuthController.update_username l user_id vd st))
    = AuthController._users st.
Proof.
  intros l user_id vd st D G. unfold AuthController.update_username.
  destruct (validation.v_username vd) as [x|]; [|now split].
  destruct (AuthController._find_user_by_username_or_email x st)
    as [[l' u']|] eqn:F.
  - destruct (String.eqb (User.id u') user_id) eqn:E; cbn [negb snd].
    + apply String.eqb_eq in E. split; [|reflexivity].
      apply (Directory_assign st l _ x D).
      * intros u. reflexivity.
      * apply holds_set_username.
      * now apply (found_is_entry st user_id l x l' u').
    + split; [|reflexivity]. apply (Directory_same st); [assumption|].
      directory_steps.
  - cbn [snd]. split; [|reflexivity].
    apply (Directory_assign st l _ x D).
    + intros u. reflexivity.
    + apply holds_set_username.
    + intros l2 u2 Hin G2 X2.
      now destruct (not_found_no_holder st x F l2 u2 Hin G2).
Qed.

Lemma update_email_Directory : forall l user_id vd st,
    Directory st ->
    Dict.get user_id (AuthController._users st) = Some l ->
    Directory (snd (AuthController.update_email l user_id vd st)) /\
    AuthController._users (snd (AuthController.update_email l user_id vd st))
    = AuthController._users st.
Proof.
  intros l user_id vd st D G. unfold AuthController.update_email.
  destruct (validation.v_email vd) as [x|]; [|now split].
  destruct (AuthController._find_user_by_username_or_email x st)
    as [[l' u']|] eqn:F.
  - destruct (String.eqb (User.id u') user_id) eqn:E; cbn [negb snd].
    + apply String.eqb_eq in E. split; [|reflexivity].
      apply (Directory_assign st l _ x D).
      * intros u. reflexivity.
      * apply holds_set_email.
      * now apply (found_is_entry st user_id l x l' u').
    + split; [|reflexivity]. apply (Directory_same st); [assumption|].
      directory_steps.
  - cbn [snd]. split; [|reflexivity].
    apply (Directory_assign st l _ x D).
    + intros u. reflexivity.
    + apply holds_set_email.
    + intros l2 u2 Hin G2 X2.
      now destruct (not_found_no_holder st x F l2 u2 Hin G2).
Qed.

Lemma update_user_Directory : forall user_id data now st,
    Directory st ->
    Directory (snd (AuthController.update_user user_id data now st)).
Proof.
  intros user_id data now st D. unfold AuthController.update_user.
  destruct (negb (AuthController.has_permission USER_MANAGE now st));
    [apply (Directory_same st); [assumption | directory_steps]|].
  destruct (Dict.get user_id (AuthController._users st)) as [l|] eqn:G;
    [|apply (Directory_same st); [assumption | directory_steps]].
  destruct (negb (validation.is_valid
                    (validation.validate_user_data data true)));
    [apply (Directory_same st); [assumption | directory_steps]|].
  cbv zeta.
  destruct (update_username_Directory l user_id
              (validation.data (validation.validate_user_data data true))
              st D G) as [D1 U1].
  destruct (AuthController.update_username l user_id _ st) as [ok1 st1].
  cbn [snd] in D1, U1.
  destruct ok1; cbn [negb]; [|exact D1].
  assert (G1 : Dict.get user_id (AuthController._users st1) = Some l)
    by (rewrite U1; exact G).
  destruct (update_email_Directory l user_id
              (validation.data (validation.validate_user_data data true))
              st1 D1 G1) as [D2 U2].
  destruct (AuthController.update_email l user_id _ st1) as [ok2 st2].
  cbn [snd] in D2, U2.
  destruct ok2; cbn [negb]; [|exact D2].
  match goal with
  | |- context [match ?x with Some st => _ | None => _ end] =>
      assert (HR : forall t, x = Some t -> same_directory st2 t);
      [ intros t; destruct (validation.v_role _);
        [destruct (UserRole_of_value _)|];
        intros E; inversion E; subst; directory_steps
      | destruct x as [t|];
        [ specialize (HR t eq_refl)
        | apply (Directory_same st2); [assumption | directory_steps] ] ]
  end.
  apply (Directory_same t); [now apply (Directory_same st2)|].
  repeat break_match; directory_steps.
Qed.

(** Adding a user whose name and address no entry holds. *)
Lemma Directory_add : forall st st' k user,
    Directory st ->
    User.id user = k ->
    (forall l2 u2 x, In l2 (Dict.values (AuthController._users st)) ->
                     AuthController.get_user l2 st = Some u2 ->
                     holds x user -> ~ holds x u2) ->
    AuthController._users st'
    = Dict.set k (List.length (AuthController.user_objects st))
               (AuthController._users st) ->
    AuthController.user_objects st' = AuthController.user_objects st ++ [user] ->
    Directory st'.
Proof.
  intros st st' k user D Hid Hnew EU EO.
  assert (Gnew : AuthController.get_user
                   (List.length (AuthController.user_objects st)) st'
                 = Some user).
  { unfold AuthController.get_user, Store.get. rewrite EO.
    rewrite nth_error_app2, Nat.sub_diag by lia. reflexivity. }
  assert (Gold : forall l u, AuthController.get_user l st = Some u ->
                             AuthController.get_user l st' = Some u /\
                             l <> List.length (AuthController.user_objects st)).
  { intros l u G. pose proof (Store_get_lt _ _ _ _ G) as L.
    unfold AuthController.get_user, Store.get in *. rewrite EO.
    rewrite nth_error_app1 by assumption. split; [assumption | lia]. }
  assert (V : forall l, In l (Dict.values (AuthController._users st')) ->
                        (In l (Dict.values (AuthController._users st)) /\
                         exists u, AuthController.get_user l st = Some u /\
                                   AuthController.get_user l st' = Some u) \/
                        l = List.length (AuthController.user_objects st)).
  { intros l Hin. rewrite EU in Hin. apply Dict_values_old in Hin.
    destruct Hin as [Hin|Hin]; [left | now right].
    split; [assumption|].
    apply Dict_values_items in Hin. destruct Hin as [k' Hin].
    destruct (dir_entries st D k' l Hin) as [u [G _]].
    exists u. split; [assumption|]. now apply Gold. }
  constructor.
  - rewrite EU. apply Dict_NoDup_set, (dir_keys st D).
  - intros k0 l0 Hin. unfold Dict.items in Hin. rewrite EU in Hin.
    apply Dict_In_set in Hin. destruct Hin as [E|Hin].
    + inversion E; subst k0 l0. exists user. now split.
    + destruct (dir_entries st D k0 l0 Hin) as [u [G I]].
      exists u. split; [now apply Gold | assumption].
  - intros l1 l2 u1 u2 x H1 H2 G1 G2 X1 X2.
    destruct (V l1 H1) as [[I1 [v1 [K1 K1']]]|E1];
      destruct (V l2 H2) as [[I2 [v2 [K2 K2']]]|E2].
    + rewrite G1 in K1'. rewrite G2 in K2'.
      inversion K1'; inversion K2'; subst v1 v2.
      now apply (dir_unique st D l1 l2 u1 u2 x).
    + subst l2. rewrite Gnew in G2. inversion G2; subst u2.
      rewrite G1 in K1'. inversion K1'; subst v1.
      now destruct (Hnew l1 u1 x I1 K1 X2).
    + subst l1. rewrite Gnew in G1. inversion G1; subst u1.
      rewrite G2 in K2'. inversion K2'; subst v2.
      now destruct (Hnew l2 u2 x I2 K2 X1).
    + congruence.
Qed.

Lemma create_user_Directory : forall hash data stamp token salt now st,
    Directory st ->
    Directory (snd (AuthController.create_user hash data stamp token salt
                                               now st)).
Proof.
  intros hash data stamp token salt now st D.
  unfold AuthController.create_user.
  destruct (negb (AuthController.has_permission USER_MANAGE now st));
    [apply (Directory_same st); [assumption | directory_steps]|].
  destruct (negb (validation.is_valid
                    (validation.validate_user_data data false)));
    [apply (Directory_same st); [assumption | directory_steps]|].
  destruct (validation.v_username _) as [username|];
    [|apply (Directory_same st); [assumption | directory_steps]].
  destruct (AuthController._find_user_by_username_or_email username st)
    eqn:F1; [apply (Directory_same st); [assumption | directory_steps]|].
  destruct (validation.v_email _) as [email|];
    [|apply (Directory_same st); [assumption | directory_steps]].
  destruct (AuthController._find_user_by_username_or_email email st)
    eqn:F2; [apply (Directory_same st); [assumption | directory_steps]|].
  destruct (validation.v_password _) as [password|];
    [|apply (Directory_same st); [assumption | directory_steps]].
  destruct (validation.v_role _) as [role_value|];
    [|apply (Directory_same st); [assumption | directory_steps]].
  destruct (UserRole_of_value role_value) as [role|];
    [|apply (Directory_same st); [assumption | directory_steps]].
  cbv zeta. unfold Store.alloc. cbn [snd].
  match goal with
  | |- context [AuthController.set_users (Dict.set ?k _ _) (_ ++ [?u]) st] =>
      apply (Directory_add st _ k u D)
  end.
  - reflexivity.
  - intros l2 u2 x Hin G2 [X|X]; cbn in X; subst x.
    + now apply (not_found_no_holder st username F1 l2 u2).
    + now apply (not_found_no_holder st email F2 l2 u2).
  - reflexivity.
  - reflexivity.
Qed.

Lemma load_users_Directory : forall hash salt now st,
    Directory st -> Directory (AuthController._load_users hash salt now st).
Proof.
  intros hash salt now st D. unfold AuthController._load_users.
  destruct (AuthController._users st) as [|e d] eqn:E; [|assumption].
  cbv zeta. unfold Store.alloc.
  apply (Directory_add st _ "admin_001"
           (AuthController._create_default_admin hash salt now) D).
  - reflexivity.
  - intros l2 u2 x Hin. rewrite E in Hin. destruct Hin.
  - rewrite E. reflexivity.
  - reflexivity.
Qed.

Lemma initialize_Directory : forall hash security secret salt now st,
    Directory st ->
    Directory (snd (AuthController.initialize hash security secret salt now st)).
Proof.
  intros hash security secret salt now st D.
  unfold AuthController.initialize.
  destruct (AuthController._initialized st); [assumption|].
  unfold AuthController._do_initialize.
  destruct security as [sec|]; cbn [fst snd];
    [|apply (Directory_same st); [assumption | directory_steps]].
  cbv zeta.
  match goal with
  | |- context [AuthController._load_users hash salt now ?x] =>
      apply (Directory_same (AuthController._load_users hash salt now x));
      [ apply load_users_Directory, (Directory_same st);
        [assumption | directory_steps]
      | directory_steps ]
  end.
Qed.

Lemma Directory_init : Directory AuthController.init.
Proof.
  constructor; cbn.
  - constructor.
  - intros k l [].
  - intros l1 l2 u1 u2 x [].
Qed.

Lemma exec_Directory : forall hash c now st,
    Directory st -> Directory (exec hash c now st).
Proof.
  intros hash c now st D. destruct c; cbn [exec].
  - now apply initialize_Directory.
  - apply (Directory_same st); [assumption | apply login_same_directory].
  - apply (Directory_same st); [assumption | apply logout_same_directory].
  - apply (Directory_same st);
      [assumption | apply change_password_same_directory].
  - now apply create_user_Directory.
  - now apply update_user_Directory.
  - apply (Directory_same st); [assumption | apply delete_user_same_directory].
  - apply (Directory_same st);
      [assumption | apply require_permission_same_directory].
  - apply (Directory_same st);
      [assumption | apply extend_current_session_same_directory].
  - apply (Directory_same st);
      [assumption | apply terminate_session_same_directory].
  - apply (Directory_same st);
      [assumption | apply reset_failed_login_attempts_same_directory].
  - apply (Directory_same st);
      [assumption | apply check_session_expiry_same_directory].
  - apply (Directory_same st); [assumption|].
    unfold AuthController.cleanup. directory_steps.
Qed.

Lemma reachable_Directory : forall hash st, reachable hash st -> Directory st.
Proof.
  intros hash st H. induction H as [|st c now H IH].
  - apply Directory_init.
  - now apply exec_Directory.
Qed.

Lemma find_user_first : forall x objs ls l u,
    In l ls -> Store.get l objs = Some u -> holds x u ->
    exists l' u', AuthController.find_user x objs ls = Some (l', u').
Proof.
  intros x objs. induction ls as [|a ls IH]; intros l u Hin G X;
    [contradiction|].
  cbn [AuthController.find_user].
  destruct (Store.get a objs) as [v|] eqn:Ga.
  - destruct (String.eqb (User.username v) x || String.eqb (User.email v) x)
      eqn:E; [now eexists _, _|].
    destruct Hin as [Hin|Hin].
    + subst a. rewrite G in Ga. inversion Ga; subst v.
      apply orb_false_iff in E. destruct E as [E1 E2].
      apply String.eqb_neq in E1, E2. destruct X; contradiction.
    + now apply (IH l u).
  - destruct Hin as [Hin|Hin]; [congruence|]. now apply (IH l u).
Qed.

(** X17.  In every state the controller can reach, [_users] holds one
    user object per identifier, stored under its own identifier, and
    no user name or e-mail address is the user name or the e-mail
    address of two of them; so the look-up that [login] makes with the
    user name or the e-mail address of a stored user finds that user
    and no other. *)
Theorem lookup_finds_the_holder :
  forall (hash : string -> string -> string) (st : AuthController.t)
         (k : string) (l : loc),
    reachable hash st ->
    In (k, l) (Dict.items (AuthController._users st)) ->
    exists u,
      AuthController.get_user l st = Some u /\ User.id u = k /\
      Dict.get k (AuthController._users st) = Some l /\
      AuthController._find_user_by_username_or_email (User.username u) st
      = Some (l, u) /\
      AuthController._find_user_by_username_or_email (User.email u) st
      = Some (l, u) /\
      forall k2 l2 u2 x,
        In (k2, l2) (Dict.items (AuthController._users st)) ->
        AuthController.get_user l2 st = Some u2 ->
        holds x u -> holds x u2 -> k2 = k /\ l2 = l.
Proof.
  intros hash st k l Hreach Hin.
  pose proof (reachable_Directory hash st Hreach) as D.
  destruct (dir_entries st D k l Hin) as [u [G I]].
  assert (Hv : In l (Dict.values (AuthController._users st))).
  { apply Dict_values_items. now exists k. }
  assert (F : forall x, holds x u ->
                        AuthController._find_user_by_username_or_email x st
                        = Some (l, u)).
  { intros x X.
    destruct (find_user_first x (AuthController.user_objects st)
                (Dict.values (AuthController._users st)) l u Hv G X)
      as [l' [u' F]].
    unfold AuthController._find_user_by_username_or_email. rewrite F.
    apply find_user_sound in F. destruct F as [Hin' [G' X']].
    assert (l' = l) by now apply (dir_unique st D l' l u' u x).
    subst l'. unfold AuthController.get_user in G. congruence. }
  exists u. split; [assumption|]. split; [assumption|].
  split; [now apply (Dict_In_get _ _ _ _ (dir_keys st D))|].
  split; [apply F; now left|]. split; [apply F; now right|].
  intros k2 l2 u2 x Hin2 G2 X X2.
  assert (Hv2 : In l2 (Dict.values (AuthController._users st))).
  { apply Dict_values_items. now exists k2. }
  assert (l2 = l) by now apply (dir_unique st D l2 l u2 u x).
  subst l2. split; [|reflexivity].
  destruct (dir_entries st D k2 l Hin2) as [u3 [G3 I3]].
  unfold AuthController.get_user in *. congruence.
Qed.

Lemma lookup_finds_the_holder_witness :
  exists u,
    AuthController.get_user 1%nat example_with_bob = Some u /\
    User.id u = "user_20240101120000_a1b2c3d4".
Proof.
  destruct (fun H1 H2 =>
              lookup_finds_the_holder example_hash example_with_bob
                "user_20240101120000_a1b2c3d4" 1%nat H1 H2)
    as [u [G [I _]]].
  - unfold example_with_bob, example_admin_session, example_started.
    repeat constructor.
  - vm_compute. right. left. reflexivity.
  - exists u. now split.
Defined.

(** ** Terminating the session one is logged in with *)

Lemma Dict_get_del_same : forall (V : Type) (k : string) (d : Dict.t V),
    NoDup (Dict.keys d) -> Dict.get k (Dict.del k d) = None.
Proof.
  intros V k d ND. destruct (Dict.get k (Dict.del k d)) as [v|] eqn:G;
    [|reflexivity].
  apply Dict_get_In in G. now destruct (Dict_In_del_neq _ _ _ _ _ ND G).
Qed.

(** X18.  An administrator who terminates the session they are logged
    in with is not logged out: [terminate_session] returns True,
    removes the session from the registry and marks it Terminated, but
    leaves the current user and the current session in place and emits
    no logged-out signal.  From then on the controller is not
    authenticated and every permission check fails. *)
Theorem terminate_own_session_keeps_current_user :
  forall (hash : string -> string -> string) (now : datetime)
         (st : AuthController.t) (lu ls : loc) (u : User.t) (s : Session.t),
    reachable hash st ->
    AuthController.current st = Some (lu, u, (ls, s)) ->
    Session.is_valid s now = true ->
    User.has_permission u USER_MANAGE = true ->
    let r := AuthController.terminate_session (Session.session_id s) now st in
    fst r = true /\
    AuthController.current (snd r)
    = Some (lu, u, (ls, Session.set_status TERMINATED s)) /\
    Dict.get (Session.session_id s) (AuthController._sessions (snd r)) = None /\
    AuthController.trace (snd r)
    = AuthController.trace st
      ++ [logged LInfo [FmtStr "Session Terminated"; Lit ": "; Lit "Session ";
                        FmtStr (Session.session_id s); Lit " terminated"];
          success_occurred "Session Terminated"
            [Lit "Session "; FmtStr (Session.session_id s);
             Lit " terminated"]] /\
    forall t p,
      AuthController.is_authenticated t (snd r) = false /\
      AuthController.has_permission p t (snd r) = false.
Proof.
  intros hash now st lu ls u s Hreach Hc Hv Hp r.
  pose proof (reachable_Inv hash st Hreach) as HI.
  assert (Hact : Session.status s = ACTIVE).
  { unfold Session.is_valid in Hv. apply andb_true_iff in Hv.
    destruct Hv as [Hv _]. now destruct (Session.status s). }
  pose proof Hc as Hc'. unfold AuthController.current in Hc'.
  destruct (AuthController.current_user st) as [lu'|] eqn:Hcu; [|discriminate].
  destruct (AuthController.current_session st) as [ls'|] eqn:Hcs; [|discriminate].
  destruct (AuthController.get_user lu' st) as [u'|] eqn:Gu; [|discriminate].
  destruct (AuthController.get_session ls' st) as [s'|] eqn:Gs; [|discriminate].
  inversion Hc'; subst lu' u' ls' s'. clear Hc'.
  destruct (inv_current st HI lu ls Hcu Hcs) as [u0 [s0 [_ [G2 [_ G4]]]]].
  rewrite Gs in G2. inversion G2; subst s0. specialize (G4 Hact).
  subst r. unfold AuthController.terminate_session.
  rewrite (has_permission_of_current st lu u ls s USER_MANAGE now Hc), Hv, Hp.
  cbn [andb negb]. rewrite G4. cbv zeta. cbn [fst snd].
  match goal with
  | |- context [AuthController.current ?x] => set (st' := x)
  end.
  assert (C : AuthController.current st'
              = Some (lu, u, (ls, Session.set_status TERMINATED s))).
  { unfold AuthController.current.
    change (AuthController.current_user st') with (AuthController.current_user st).
    change (AuthController.current_session st')
      with (AuthController.current_session st).
    rewrite Hcu, Hcs.
    change (AuthController.get_user lu st') with (AuthController.get_user lu st).
    rewrite Gu.
    change (AuthController.get_session ls st')
      with (Store.get ls (Store.update ls (Session.set_status TERMINATED)
                                       (AuthController.session_objects st))).
    unfold AuthController.get_session in Gs.
    now rewrite Store_get_update_same, Gs. }
  split; [reflexivity|]. split; [exact C|]. split.
  - change (AuthController._sessions st')
      with (Dict.del (Session.session_id s) (AuthController._sessions st)).
    apply Dict_get_del_same, (inv_keys st HI).
  - split.
    + unfold st'. cbn. rewrite <- app_assoc. reflexivity.
    + intros t p.
      assert (A : AuthController.is_authenticated t st' = false).
      { unfold AuthController.is_authenticated. rewrite C.
        apply is_valid_ended. cbn. discriminate. }
      split; [exact A | now apply not_authenticated_no_permission].
Qed.

Lemma terminate_own_session_keeps_current_user_witness :
  fst (AuthController.terminate_session (Session.session_id example_session)
                                        5000 example_admin_session)
  = true.
Proof.
  apply (fun H1 H2 H3 H4 =>
           proj1 (terminate_own_session_keeps_current_user example_hash 5000
                    example_admin_session 0%nat 0%nat
                    (after_success 1000
                       (AuthController._create_default_admin example_hash
                                                             "5a17" 0))
                    example_session H1 H2 H3 H4)).
  - unfold example_admin_session, example_started. repeat constructor.
  - vm_compute. reflexivity.
  - vm_compute. reflexivity.
  - vm_compute. reflexivity.
Defined.
